(** * go-openproject: request, authentication and dispatch pipeline

    A shallow embedding of the client library's core (the request builder,
    the three authenticating round-trippers, the generic dispatcher, the
    response envelope, the filter serialiser and the two date codecs),
    followed by the properties established about it.

    Go values are embedded as follows.  A [string] is a sequence of bytes,
    as in Go.  A Go [int] is a [Z]; no arithmetic is performed on the
    integers that occur here, so no wrap-around arises.  A pointer that may
    be [nil] is an [option].  A function that may panic returns a [result].
    Maps are [gmap]s.  Calls into Go's standard library whose exact output
    does not matter to the pipeline (URL parsing, JSON coding, base64,
    SHA-256, token signing) are gathered in the interface [GoLib]. *)

From Stdlib Require Import ZArith String Ascii List.
From stdpp Require Import base option gmap strings list sorting.

Local Open Scope string_scope.
Local Open Scope Z_scope.
Local Open Scope list_scope.

(** ** Package [strings] *)

Module strings.

(** [strings.TrimLeft(s, cutset)] for a cutset of one byte. *)
Fixpoint TrimLeft (s : string) (c : ascii) : string :=
  match s with
  | String a s' => if Ascii.eqb a c then TrimLeft s' c else s
  | EmptyString => EmptyString
  end.

(** [strings.TrimRight(s, cutset)] for a cutset of one byte. *)
Fixpoint TrimRight (s : string) (c : ascii) : string :=
  match s with
  | String a s' =>
      match TrimRight s' c with
      | EmptyString => if Ascii.eqb a c then EmptyString else String a EmptyString
      | t => String a t
      end
  | EmptyString => EmptyString
  end.

(** [strings.Trim(s, cutset)] for a cutset of one byte. *)
Definition Trim (s : string) (c : ascii) : string :=
  TrimRight (TrimLeft s c) c.

(** [strings.Replace(s, old, new, -1)] for [old] of one byte. *)
Fixpoint Replace (s : string) (old : ascii) (new : string) : string :=
  match s with
  | String a s' =>
      if Ascii.eqb a old then new +:+ Replace s' old new
      else String a (Replace s' old new)
  | EmptyString => EmptyString
  end.

(** [strings.HasPrefix(s, prefix)]. *)
Fixpoint HasPrefix (s prefix : string) {struct prefix} : bool :=
  match prefix with
  | EmptyString => true
  | String p prefix' =>
      match s with
      | String a s' => Ascii.eqb a p && HasPrefix s' prefix'
      | EmptyString => false
      end
  end.

(** [strings.Join(elems, sep)]. *)
Fixpoint Join (elems : list string) (sep : string) : string :=
  match elems with
  | [] => ""
  | [x] => x
  | x :: rest => x +:+ sep +:+ Join rest sep
  end.

Definition upper_byte (a : ascii) : ascii :=
  let n := N_of_ascii a in
  if ((97 <=? n) && (n <=? 122))%N then ascii_of_N (n - 32) else a.

(** [strings.ToUpper(s)] on ASCII text (HTTP method names are ASCII
    tokens); bytes outside [a-z] are kept. *)
Fixpoint ToUpper (s : string) : string :=
  match s with
  | String a s' => String (upper_byte a) (ToUpper s')
  | EmptyString => EmptyString
  end.

End strings.

(** ** Package [sort] *)

Module sort.

(** [sort.Strings(x)]: increasing byte-wise order.  Equal strings cannot
    be told apart, so every sorting algorithm returns the same list. *)
Definition Strings (x : list string) : list string :=
  merge_sort String.le x.

End sort.

(** ** Errors and panics *)

(** Go's [error] values.  The constructors keep apart the places where the
    pipeline creates an error. *)
Inductive error : Type :=
| errors_New (msg : string)                (* errors.New / fmt.Errorf, fixed text *)
| StatusCodeError (code : Z)               (* CheckResponse's fmt.Errorf with %d *)
| LibraryError (origin : string)           (* returned by a standard-library call *)
| errors_Wrap (e : error) (msg : string)   (* errors.Wrap *)
| OpenProjectError (e : error).            (* NewOpenProjectError *)

(** The outcome of running Go code: it returns, or it panics. *)
Inductive result (A : Type) : Type :=
| Return (a : A)
| Panic (msg : string).
Arguments Return {A} a.
Arguments Panic {A} msg.

Definition nil_dereference : string :=
  "invalid memory address or nil pointer dereference".

(** ** Package [net/url] *)

Module url.

(** [url.Values]: a key maps to the list of its values. *)
Abbreviation Values := (gmap string (list string)).

(** [url.URL], with the fields the pipeline reads or writes.  The query
    is kept as the sequence of key/value pairs that [url.ParseQuery]
    decodes from [RawQuery], in the order in which they are written. *)
Record URL : Type := mkURL {
  Scheme : string;
  Host : string;
  Path : string;
  RawQuery : list (string * string)
}.

Definition with_Path (u : URL) (p : string) : URL :=
  {| Scheme := Scheme u; Host := Host u; Path := p; RawQuery := RawQuery u |}.

Definition with_RawQuery (u : URL) (q : list (string * string)) : URL :=
  {| Scheme := Scheme u; Host := Host u; Path := Path u; RawQuery := q |}.

(** [Values.Add(key, value)]: appends to the values of [key]. *)
Definition Add (v : Values) (key value : string) : Values :=
  <[key := default [] (v !! key) ++ [value]]> v.

(** [URL.Query()]: the pairs of the query grouped by key ([ParseQuery]
    adds them from left to right). *)
Definition Query (u : URL) : Values :=
  foldl (fun v kv => Add v kv.1 kv.2) ∅ (RawQuery u).

(** [Values.Encode()] followed by the assignment to [RawQuery]: the keys
    in increasing order, each with its values in order. *)
Definition Encode (v : Values) : list (string * string) :=
  mbind (fun k => (fun x => (k, x)) <$> default [] (v !! k))
        (sort.Strings (map fst (map_to_list v))).

Definition hex_digit (n : N) : ascii :=
  match n with
  | 0 => "0" | 1 => "1" | 2 => "2" | 3 => "3" | 4 => "4" | 5 => "5"
  | 6 => "6" | 7 => "7" | 8 => "8" | 9 => "9" | 10 => "A" | 11 => "B"
  | 12 => "C" | 13 => "D" | 14 => "E" | _ => "F"
  end%N%char.

(** The bytes that [shouldEscape] keeps in a query component: letters,
    digits and [-], [_], [.], [~]. *)
Definition unreserved (a : ascii) : bool :=
  let n := N_of_ascii a in
  ((97 <=? n) && (n <=? 122) || (65 <=? n) && (n <=? 90)
   || (48 <=? n) && (n <=? 57)
   || (n =? 45) || (n =? 95) || (n =? 46) || (n =? 126))%N.

Definition escape_byte (a : ascii) : string :=
  if unreserved a then String a ""
  else if Ascii.eqb a " " then "+"
  else let n := N_of_ascii a in
       String "%" (String (hex_digit (n / 16)) (String (hex_digit (n mod 16)) "")).

(** [url.QueryEscape(s)]. *)
Fixpoint QueryEscape (s : string) : string :=
  match s with
  | String a s' => escape_byte a +:+ QueryEscape s'
  | EmptyString => EmptyString
  end.

End url.

(** ** The data model of the client *)

(** The eight resource kinds. *)
Inductive Kind : Type :=
| Attachment | Category | Project | Query | Status | User | WikiPage | WorkPackage.

(** The list types that [getObjectListAndClient] instantiates. *)
Inductive ListType : Type :=
| CategoryList | SearchResultProject | SearchResultQuery
| SearchResultStatus | SearchResultUser | SearchResultWP.

(** Modelled from the spec: of the eight resource structs only
    [WorkPackage] and [User] are declared in the files at hand.  The spec
    (1, 6) leaves the field schemas outside the pipeline, which never looks
    inside them: a decoded resource struct is given by its members, JSON
    name and raw value, and the zero struct has none. *)
Definition Fields : Type := list (string * string).

(** Modelled from the spec: the [SearchResult...] structs and
    [CategoryList].  [SearchResultWP] is declared in the files at hand;
    the others follow the envelope of the spec (3): total count, returned
    count, page size, offset, and the decoded elements. *)
Module SearchResult.
Record t : Type := mk {
  Elements : list Fields;
  Total : Z;
  Count : Z;
  PageSize : Z;
  Offset : Z
}.
Definition zero : t := mk [] 0 0 0 0.
End SearchResult.

(** The value behind a non-nil [interface{}] result pointer: a resource
    struct or a list struct, with its dynamic type. *)
Inductive object : Type :=
| Resource (k : Kind) (fields : Fields)
| ResourceList (t : ListType) (value : SearchResult.t).

(** [new(T)]: a pointer to the zero value of a resource or list struct. *)
Definition new (k : Kind) : object := Resource k [].
Definition new_list (t : ListType) : object := ResourceList t SearchResult.zero.

Record Cookie : Type := mkCookie {
  Name : string;
  Value : string
}.

(** Modelled from the spec: [Session] is declared outside the files at
    hand; it is the set of session cookies of the spec (3), read by the
    builders as [session.Cookies]. *)
Record Session : Type := mkSession {
  Cookies : list Cookie
}.

(** [io.ReadCloser] holding a response body: [data] is what reading it to
    the end yields ([None]: the read fails), [consumed] and [closed] record
    what has been done to it. *)
Record ReadCloser : Type := mkBody {
  data : option string;
  consumed : bool;
  closed : bool
}.

Module http.

Abbreviation Header := (gmap string (list string)).

(** [http.Request], built by value: the request builder makes a new
    request that nothing else refers to. *)
Record Request : Type := mkRequest {
  Method : string;
  URL : url.URL;
  Header_ : Header;
  Body : option string
}.

Record Response : Type := mkResponse {
  StatusCode : Z;
  RespHeader : Header;
  RespBody : ReadCloser
}.

(** [Header.Get(key)]: the first value of [key], or the empty string. *)
Definition Get (h : Header) (key : string) : string :=
  match h !! key with
  | Some (v :: _) => v
  | _ => ""
  end.

(** [Header.Set(key, value)]: [key] gets the single value [value].  The
    keys used here are in canonical form already. *)
Definition Set_ (h : Header) (key value : string) : Header :=
  <[key := [value]]> h.

Definition with_Header (r : Request) (h : Header) : Request :=
  {| Method := Method r; URL := URL r; Header_ := h; Body := Body r |}.

Definition with_URL (r : Request) (u : url.URL) : Request :=
  {| Method := Method r; URL := u; Header_ := Header_ r; Body := Body r |}.

End http.

(** The standard-library and third-party calls of the pipeline. *)
Class GoLib : Type := {
  (** [url.Parse]; [None] when it returns an error *)
  url_Parse : string -> option url.URL;
  (** [URL.ResolveReference] *)
  url_ResolveReference : url.URL -> url.URL -> url.URL;
  (** [URL.String] *)
  url_String : url.URL -> string;
  (** whether [net/http] accepts the method name *)
  http_validMethod : string -> bool;
  (** [json.Encoder.Encode]; [None] when it returns an error *)
  json_Encode : object -> option string;
  (** [json.Unmarshal] and [json.Decoder.Decode] into the struct given:
      the struct afterwards (filled as far as the decoder got) and the
      error returned, if any *)
  json_Unmarshal : string -> object -> object * option error;
  (** the base64 text of [username:password] *)
  basicAuth : string -> string -> string;
  (** [sanitizeCookieName], [sanitizeCookieValue] *)
  sanitizeCookieName : string -> string;
  sanitizeCookieValue : string -> string;
  (** [hex.EncodeToString] of [sha256.Sum256] *)
  sha256_hex : string -> string;
  (** [jwt.NewWithClaims(HS256, {iss, iat, exp, qsh}).SignedString(secret)];
      [None] when it returns an error *)
  jwt_SignedString : string -> Z -> Z -> string -> string -> option string;
  (** [json.Encoder.Encode] of the login struct [{username, password}] *)
  json_EncodeLogin : string -> string -> string;
  (** [Response.Cookies]: the cookies of the [Set-Cookie] headers; the
      slice returned is never nil *)
  Response_Cookies : http.Response -> list Cookie
}.

(** ** The client, the request builder and the generic dispatcher *)

(** A response body is read to its end and closed. *)
Definition read_and_close (b : ReadCloser) : ReadCloser :=
  {| data := data b; consumed := true; closed := true |}.

(** [ioutil.ReadAll(body)]; [None] when the read fails. *)
Definition ReadAll (b : ReadCloser) : option string :=
  if closed b then None
  else if consumed b then Some "" else data b.

(** Modelled from the spec: the constants [authTypeBasic] and
    [authTypeSession] that [AuthenticationService.authType] is compared
    with are declared outside the files at hand.  They are the internal
    mode flag of the spec (9); all that the builders do is to compare with
    them, so the modes are an enumeration. *)
Inductive AuthType : Type :=
| authTypeNone | authTypeBasic | authTypeSession.

Global Instance AuthType_eq_dec : EqDecision AuthType.
Proof. solve_decision. Defined.

(** Modelled from the spec: [AuthenticationService] is declared outside
    the files at hand; the builders read its mode flag and the credential
    pair of the basic strategy (spec 3). *)
Record AuthenticationService : Type := mkAuthenticationService {
  authType : AuthType;
  username : string;
  password : string
}.

(** [Client], as [NewClient] makes it: [baseURL] and [Authentication] are
    set.  [client] is the pluggable [httpClient]: its [Do] returns a
    response or an error. *)
Record Client : Type := mkClient {
  client : http.Request -> http.Response + error;
  baseURL : url.URL;
  session : option Session;
  Authentication : AuthenticationService
}.

(** The struct shared by the eight [...Service] types: each has the one
    field [client], as [WorkPackageService] and [UserService] show. *)
Record Service : Type := mkService {
  service_client : option Client
}.

(** The [interface{}] value passed as [objService]: a pointer (possibly
    nil) to one of the eight service structs, or a value of any other
    dynamic type, the nil interface included. *)
Inductive handle : Type :=
| ServicePtr (k : Kind) (p : option Service)
| OtherValue.

(** [Response]: the embedded [*http.Response] and the four counters. *)
Module Response.
Record t : Type := mk {
  Response : http.Response;
  Total : Z;
  Count : Z;
  PageSize : Z;
  Offset : Z
}.
End Response.

(** What the pipeline does to the outside, in order: a call of the request
    builder, and a request handed to the [httpClient]. *)
Inductive event : Type :=
| Build (method urlStr : string)
| Send (req : http.Request).

(** Computations over a state [S]: they change the state, and return or
    panic. *)
Definition St (S A : Type) : Type := S -> result A * S.

Global Instance St_ret {S} : MRet (St S) := fun A a s => (Return a, s).

Global Instance St_bind {S} : MBind (St S) := fun A B f m s =>
  match m s with
  | (Return a, s') => f a s'
  | (Panic msg, s') => (Panic msg, s')
  end.

Definition panic {S A} (msg : string) : St S A := fun s => (Panic msg, s).

(** Reading a field through a pointer. *)
Definition deref {S A} (p : option A) : St S A :=
  match p with
  | Some a => mret a
  | None => panic nil_dereference
  end.

(** The computations of the builder and the dispatcher: the state is the
    log of events. *)
Abbreviation M := (St (list event)).

Definition emit (e : event) : M unit := fun log => (Return tt, log ++ [e]).

(** [CheckResponse]: [None] is the nil error. *)
Definition CheckResponse (r : http.Response) : option error :=
  let c := http.StatusCode r in
  if (200 <=? c) && (c <=? 299) then None
  else Some (StatusCodeError (http.StatusCode r)).

(** [Response.populatePageValues], as a function of the receiver. *)
Definition populatePageValues (r : Response.t) (v : option object) : Response.t :=
  match v with
  | Some (ResourceList SearchResultWP value) =>
      Response.mk (Response.Response r) (SearchResult.Total value)
        (SearchResult.Count value) (SearchResult.PageSize value)
        (SearchResult.Offset value)
  | Some (ResourceList SearchResultUser value) =>
      Response.mk (Response.Response r) (SearchResult.Total value)
        (SearchResult.Count value) (SearchResult.PageSize value)
        (SearchResult.Offset value)
  | Some (ResourceList SearchResultQuery value) =>
      Response.mk (Response.Response r) (SearchResult.Total value)
        (SearchResult.Count value) (SearchResult.PageSize value)
        (SearchResult.Offset value)
  | _ => r
  end.

Definition newResponse (r : http.Response) (v : option object) : Response.t :=
  let resp := Response.mk r 0 0 0 0 in
  populatePageValues resp v.

(** ** The two date codecs *)

(** Package [time], as far as the two layouts of the codecs use it.  A
    [time.Time] is given by the civil date and clock that it shows in its
    location, its nanoseconds, and the offset of its location from UTC in
    seconds. *)
Module time.

Record Time : Type := mkTime {
  year : Z;
  month : Z;
  day : Z;
  hour : Z;
  minute : Z;
  second : Z;
  nanosecond : Z;
  offset : Z
}.

(** [time.Time{}]: January 1, year 1, 00:00:00 UTC. *)
Definition zero : Time := mkTime 1 1 1 0 0 0 0 0.

Definition isLeap (y : Z) : bool :=
  (y mod 4 =? 0) && (negb (y mod 100 =? 0) || (y mod 400 =? 0)).

Definition daysIn (m y : Z) : Z :=
  if m =? 2 then (if isLeap y then 29 else 28)
  else if (m =? 4) || (m =? 6) || (m =? 9) || (m =? 11) then 30
  else 31.

(** The values of the representation that are times. *)
Definition valid (t : Time) : bool :=
  (1 <=? month t) && (month t <=? 12)
  && (1 <=? day t) && (day t <=? daysIn (month t) (year t))
  && (0 <=? hour t) && (hour t <? 24)
  && (0 <=? minute t) && (minute t <? 60)
  && (0 <=? second t) && (second t <? 60)
  && (0 <=? nanosecond t) && (nanosecond t <? 1000000000).

(** Days from 1970-01-01 to a civil date. *)
Definition days_from_civil (y m d : Z) : Z :=
  let y' := if m <=? 2 then y - 1 else y in
  let era := y' / 400 in
  let yoe := y' - era * 400 in
  let mp := (m + 9) mod 12 in
  let doy := (153 * mp + 2) / 5 + d - 1 in
  let doe := yoe * 365 + yoe / 4 - yoe / 100 + doy in
  era * 146097 + doe - 719468.

(** [Time.Unix]. *)
Definition Unix (t : Time) : Z :=
  days_from_civil (year t) (month t) (day t) * 86400
  + hour t * 3600 + minute t * 60 + second t - offset t.

(** [Time.Equal]: the same instant. *)
Definition Equal (t u : Time) : bool :=
  (Unix t =? Unix u) && (nanosecond t =? nanosecond u).

Definition digit (d : Z) : ascii := ascii_of_N (Z.to_N (48 + d)).

(** The decimal digits of a natural number, the most significant first. *)
Fixpoint digits (fuel : nat) (u : Z) (acc : string) : string :=
  match fuel with
  | O => acc
  | S fuel' =>
      let acc' := String (digit (u mod 10)) acc in
      if u / 10 =? 0 then acc' else digits fuel' (u / 10) acc'
  end.

Fixpoint zeros (n : nat) : string :=
  match n with
  | O => ""
  | S n' => String "0" (zeros n')
  end.

(** [appendInt(b, x, width)]: the sign, then the digits of the absolute
    value padded with zeros to [width]. *)
Definition appendInt (x : Z) (width : nat) : string :=
  let u := Z.abs x in
  let ds := digits (S (Z.to_nat (Z.log2 u))) u "" in
  (if x <? 0 then "-" else "")
  +:+ zeros (width - String.length ds) +:+ ds.

(** [Time.Format] with the layout of [Time.MarshalJSON],
    ["2006-01-02T15:04:05Z"] between double quotes: the [Z] is literal
    text of the layout. *)
Definition Format_timestamp (t : Time) : string :=
  String "034" (appendInt (year t) 4 +:+ "-" +:+ appendInt (month t) 2 +:+ "-"
  +:+ appendInt (day t) 2 +:+ "T" +:+ appendInt (hour t) 2 +:+ ":"
  +:+ appendInt (minute t) 2 +:+ ":" +:+ appendInt (second t) 2 +:+ "Z"
  +:+ String "034" "").

(** [Time.Format] with the layout of [Date.MarshalJSON], ["2006-01-02"]
    between double quotes. *)
Definition Format_date (t : Time) : string :=
  String "034" (appendInt (year t) 4 +:+ "-" +:+ appendInt (month t) 2 +:+ "-"
  +:+ appendInt (day t) 2 +:+ String "034" "").

Definition isDigit (a : ascii) : bool :=
  let n := N_of_ascii a in ((48 <=? n) && (n <=? 57))%N.

Definition digit_value (a : ascii) : Z := Z.of_N (N_of_ascii a) - 48.

(** [getnum(s, fixed)]: two digits, or one when [fixed] is false and no
    second digit follows. *)
Definition getnum (s : string) (fixed : bool) : option (Z * string) :=
  match s with
  | String a rest =>
      if isDigit a then
        match rest with
        | String b rest' =>
            if isDigit b then Some (digit_value a * 10 + digit_value b, rest')
            else if fixed then None else Some (digit_value a, rest)
        | EmptyString => if fixed then None else Some (digit_value a, rest)
        end
      else None
  | EmptyString => None
  end.

(** The year of layout [2006]: exactly four digits. *)
Definition getyear (s : string) : option (Z * string) :=
  match s with
  | String a (String b (String c (String d rest))) =>
      if isDigit a && isDigit b && isDigit c && isDigit d then
        Some (digit_value a * 1000 + digit_value b * 100
              + digit_value c * 10 + digit_value d, rest)
      else None
  | _ => None
  end.

(** Literal text of the layout. *)
Fixpoint skip (s prefix : string) {struct prefix} : option string :=
  match prefix with
  | EmptyString => Some s
  | String p prefix' =>
      match s with
      | String a s' => if Ascii.eqb a p then skip s' prefix' else None
      | EmptyString => None
      end
  end.

Definition in_range (lo x hi : Z) : option unit :=
  if (lo <=? x) && (x <=? hi) then Some tt else None.

Fixpoint leading_digits (s : string) : list Z * string :=
  match s with
  | String a s' =>
      if isDigit a then
        let '(ds, rest) := leading_digits s' in (digit_value a :: ds, rest)
      else ([], s)
  | EmptyString => ([], s)
  end.

(** A fractional second in the value where the layout has none: it is
    read all the same, and its first nine digits count. *)
Definition fraction (s : string) : Z * string :=
  match s with
  | String a s' =>
      if Ascii.eqb a "." || Ascii.eqb a "," then
        match leading_digits s' with
        | ([], _) => (0, s)
        | (ds, rest) =>
            let used := take 9 ds in
            (foldl (fun n d => n * 10 + d) 0 used * 10 ^ Z.of_nat (9 - length used),
             rest)
        end
      else (0, s)
  | EmptyString => (0, s)
  end.

Definition end_of_value (s : string) : option unit :=
  match s with
  | EmptyString => Some tt
  | _ => None
  end.

(** [time.Parse] with the layout of [Time.UnmarshalJSON]; [None] when
    it returns an error.  A layout without zone gives a time in UTC. *)
Definition Parse_timestamp (value : string) : option Time :=
  value ← skip value (String "034" "");
  '(y, value) ← getyear value;
  value ← skip value "-";
  '(m, value) ← getnum value true;
  in_range 1 m 12;;
  value ← skip value "-";
  '(d, value) ← getnum value true;
  value ← skip value "T";
  '(hh, value) ← getnum value false;
  in_range 0 hh 23;;
  value ← skip value ":";
  '(mm, value) ← getnum value true;
  in_range 0 mm 59;;
  value ← skip value ":";
  '(ss, value) ← getnum value true;
  in_range 0 ss 59;;
  let '(ns, value) := fraction value in
  value ← skip value ("Z" +:+ String "034" "");
  end_of_value value;;
  in_range 1 d (daysIn m y);;
  Some (mkTime y m d hh mm ss ns 0).

(** [time.Parse] with the layout of [Date.UnmarshalJSON]. *)
Definition Parse_date (value : string) : option Time :=
  value ← skip value (String "034" "");
  '(y, value) ← getyear value;
  value ← skip value "-";
  '(m, value) ← getnum value true;
  in_range 1 m 12;;
  value ← skip value "-";
  '(d, value) ← getnum value true;
  value ← skip value (String "034" "");
  end_of_value value;;
  in_range 1 d (daysIn m y);;
  Some (mkTime y m d 0 0 0 0 0).

End time.

(** [Time] and [Date] are both defined as [time.Time]. *)
Definition Time : Type := time.Time.
Definition Date : Type := time.Time.

(** [Time.Equal]. *)
Definition Time_Equal (t u : Time) : bool := time.Equal t u.

(** [Time.UnmarshalJSON]: the receiver afterwards and the error. *)
Definition Time_UnmarshalJSON (t : Time) (b : string) : Time * option error :=
  (* Ignore null, like in the main JSON package. *)
  if decide (b = "null") then (t, None)
  else
    match time.Parse_timestamp b with
    | None => (t, Some (LibraryError "time.Parse"))
    | Some ti => (ti, None)
    end.

(** [Time.MarshalJSON]; its error is always nil. *)
Definition Time_MarshalJSON (t : Time) : string := time.Format_timestamp t.

(** [Date.UnmarshalJSON]: the receiver afterwards and the error. *)
Definition Date_UnmarshalJSON (t : Date) (b : string) : Date * option error :=
  (* Ignore null, like in the main JSON package. *)
  if decide (b = "null") then (t, None)
  else
    match time.Parse_date b with
    | None => (t, Some (LibraryError "time.Parse"))
    | Some ti => (ti, None)
    end.

(** [Date.MarshalJSON]; its error is always nil. *)
Definition Date_MarshalJSON (t : Date) : string := time.Format_date t.

(** ** Search filters *)

(** [SearchOperator] is an [int32]; the eight named constants. *)
Definition SearchOperator : Type := Z.
Definition Equal : SearchOperator := 0.
Definition Different : SearchOperator := 1.
Definition GreaterThan : SearchOperator := 2.
Definition LowerThan : SearchOperator := 3.
Definition SearchString : SearchOperator := 4.
Definition Like : SearchOperator := 5.
Definition GreaterOrEqual : SearchOperator := 6.
Definition LowerOrEqual : SearchOperator := 7.

Definition paramFilters : string := "filters".

Record OptionsFields : Type := mkOptionsFields {
  Field : string;
  Operator : SearchOperator;
  FieldValue : string
}.

Record FilterOptions : Type := mkFilterOptions {
  FilterFields : list OptionsFields
}.

(** [interpretOperator]. *)
Definition interpretOperator (operator : SearchOperator) : string :=
  let result := "=" in
  if decide (operator = GreaterThan) then ">"
  else if decide (operator = LowerThan) then "<"
  else if decide (operator = Different) then "<>"
  else result.

(** The double quote. *)
Definition dquote : string := String "034"%char "".

(** The [fmt.Sprintf] of [prepareFilters]: the three verbs are [%v] on
    strings, which insert the strings as they are. *)
Definition filterEntry (field op value : string) : string :=
  "{" +:+ dquote +:+ field +:+ dquote +:+ ":{" +:+ dquote +:+ "operator" +:+ dquote
  +:+ ":" +:+ dquote +:+ op +:+ dquote +:+ "," +:+ dquote +:+ "values" +:+ dquote
  +:+ ":[" +:+ dquote +:+ value +:+ dquote +:+ "]}}".

(** The value of the [filters] parameter built by [prepareFilters]. *)
Definition filterTemplate (fops : FilterOptions) : string :=
  foldl (fun acc field =>
           acc +:+ filterEntry (Field field) (interpretOperator (Operator field))
                     (FieldValue field))
        "[" (FilterFields fops) +:+ "]".

(** [FilterOptions.prepareFilters]. *)
Definition prepareFilters (fops : FilterOptions) : url.Values :=
  let values : url.Values := ∅ in
  url.Add values paramFilters (filterTemplate fops).

Section Pipeline.

Context `{GoLib}.

(** [Request.AddCookie]. *)
Definition AddCookie (r : http.Request) (c : Cookie) : http.Request :=
  let s := sanitizeCookieName (Name c) +:+ "=" +:+ sanitizeCookieValue (Value c) in
  let cur := http.Get (http.Header_ r) "Cookie" in
  if decide (cur = "") then
    http.with_Header r (http.Set_ (http.Header_ r) "Cookie" s)
  else
    http.with_Header r (http.Set_ (http.Header_ r) "Cookie" (cur +:+ "; " +:+ s)).

(** [Request.SetBasicAuth]. *)
Definition SetBasicAuth (r : http.Request) (username password : string) : http.Request :=
  http.with_Header r
    (http.Set_ (http.Header_ r) "Authorization" ("Basic " +:+ basicAuth username password)).

(** [http.NewRequest] and [http.NewRequestWithContext]: the request has
    the method, the parsed URL, the body and an empty header map; a
    method or a URL that is rejected gives an error. *)
Definition http_NewRequest (method urlStr : string) (body : option string)
  : http.Request + error :=
  if http_validMethod method then
    match url_Parse urlStr with
    | Some u => inl (http.mkRequest method u ∅ body)
    | None => inr (LibraryError "url.Parse")
    end
  else inr (LibraryError "net/http: invalid method").

(** Modelled from the spec: [newRequestWithContext] is declared outside
    the files at hand.  The request builder of the spec (4.2) hands it
    the method, the resolved URL and the body; it stands for
    [http.NewRequestWithContext]. *)
Definition newRequestWithContext (method urlStr : string) (body : option string)
  : http.Request + error :=
  http_NewRequest method urlStr body.

(** The authentication step, which each of the request builders writes
    out after setting the content type. *)
Definition setAuthentication (c : Client) (req : http.Request) : http.Request :=
  if decide (authType (Authentication c) = authTypeSession) then
    match session c with
    | Some sess => foldl AddCookie req (Cookies sess)
    | None => req
    end
  else if decide (authType (Authentication c) = authTypeBasic) then
    if decide (username (Authentication c) = "") then req
    else SetBasicAuth req (username (Authentication c)) (password (Authentication c))
  else req.

(** [Client.NewRawRequestWithContext]; the receiver may be nil. *)
Definition NewRawRequestWithContext (c : option Client) (method urlStr : string)
    (body : option string) : M (http.Request + error) :=
  emit (Build method urlStr);;
  match url_Parse urlStr with
  | None => mret (inr (LibraryError "url.Parse"))
  | Some rel =>
      let rel := url.with_Path rel (strings.TrimLeft (url.Path rel) "/") in
      c ← deref c;
      let u := url_ResolveReference (baseURL c) rel in
      match newRequestWithContext method (url_String u) body with
      | inr err => mret (inr err)
      | inl req =>
          let req := http.with_Header req
                       (http.Set_ (http.Header_ req) "Content-Type" "application/json") in
          mret (inl (setAuthentication c req))
      end
  end.

(** The encoding of the body in [NewRequestWithContext]: nothing for the
    nil interface, else the JSON text or the encoder's error. *)
Definition encodeBody (body : option object) : option string + error :=
  match body with
  | Some o =>
      match json_Encode o with
      | Some text => inl (Some text)
      | None => inr (LibraryError "json.Encode")
      end
  | None => inl None
  end.

(** [Client.NewRequestWithContext]; the receiver may be nil, and [body]
    is the nil interface or a pointer to a struct. *)
Definition NewRequestWithContext (c : option Client) (method urlStr : string)
    (body : option object) : M (http.Request + error) :=
  emit (Build method urlStr);;
  match url_Parse urlStr with
  | None => mret (inr (LibraryError "url.Parse"))
  | Some rel =>
      let rel := url.with_Path rel (strings.TrimLeft (url.Path rel) "/") in
      c ← deref c;
      let u := url_ResolveReference (baseURL c) rel in
      match encodeBody body with
      | inr err => mret (inr err)
      | inl buf =>
          match newRequestWithContext method (url_String u) buf with
          | inr err => mret (inr err)
          | inl req =>
              let req := http.with_Header req
                           (http.Set_ (http.Header_ req) "Content-Type" "application/json") in
              mret (inl (setAuthentication c req))
          end
      end
  end.

(** [Client.Do]: [v] is the nil interface or a pointer to the struct to
    decode into; the struct after the call is returned with the
    response and the error. *)
Definition Do (c : option Client) (req : http.Request) (v : option object)
  : M (option Response.t * option object * option error) :=
  c ← deref c;
  emit (Send req);;
  match client c req with
  | inr err => mret (None, v, Some err)
  | inl httpResp =>
      match CheckResponse httpResp with
      | Some err =>
          (* In case of error we still return the response *)
          mret (Some (newResponse httpResp None), v, Some err)
      | None =>
          match v with
          | Some target =>
              let body := http.RespBody httpResp in
              let httpResp' :=
                http.mkResponse (http.StatusCode httpResp) (http.RespHeader httpResp)
                  (read_and_close body) in
              match ReadAll body with
              | Some text =>
                  let '(target', err) := json_Unmarshal text target in
                  mret (Some (newResponse httpResp' (Some target')), Some target', err)
              | None =>
                  mret (Some (newResponse httpResp' (Some target)), Some target,
                        Some (LibraryError "read"))
              end
          | None => mret (Some (newResponse httpResp None), None, None)
          end
      end
  end.

(** Modelled from the spec: [NewOpenProjectError] is declared outside
    the files at hand; by the spec (7) the error is returned to the
    caller, here wrapped in a constructor of its own. *)
Definition NewOpenProjectError (resp : option Response.t) (err : error) : error :=
  OpenProjectError err.

(** [getObjectAndClient]. *)
Definition getObjectAndClient (inputObj : handle) : M (option Client * option object) :=
  match inputObj with
  | ServicePtr Attachment p => s ← deref p; mret (service_client s, Some (new Attachment))
  | ServicePtr Category p => s ← deref p; mret (service_client s, Some (new Category))
  | ServicePtr Project p => s ← deref p; mret (service_client s, Some (new Project))
  | ServicePtr Query p => s ← deref p; mret (service_client s, Some (new Query))
  | ServicePtr Status p => s ← deref p; mret (service_client s, Some (new Status))
  | ServicePtr User p => s ← deref p; mret (service_client s, Some (new User))
  | ServicePtr WikiPage p => s ← deref p; mret (service_client s, Some (new WikiPage))
  | ServicePtr WorkPackage p => s ← deref p; mret (service_client s, Some (new WorkPackage))
  | OtherValue => mret (None, None)
  end.

(** [getObjectListAndClient]: no list type for attachments, and the
    case of [*WikiPageService] is commented out. *)
Definition getObjectListAndClient (inputObj : handle)
  : M (option Client * option object) :=
  match inputObj with
  | ServicePtr Attachment p => s ← deref p; mret (service_client s, None)
  | ServicePtr Category p =>
      s ← deref p; mret (service_client s, Some (new_list CategoryList))
  | ServicePtr Project p =>
      s ← deref p; mret (service_client s, Some (new_list SearchResultProject))
  | ServicePtr Query p =>
      s ← deref p; mret (service_client s, Some (new_list SearchResultQuery))
  | ServicePtr Status p =>
      s ← deref p; mret (service_client s, Some (new_list SearchResultStatus))
  | ServicePtr User p =>
      s ← deref p; mret (service_client s, Some (new_list SearchResultUser))
  | ServicePtr WikiPage p => mret (None, None)
  | ServicePtr WorkPackage p =>
      s ← deref p; mret (service_client s, Some (new_list SearchResultWP))
  | OtherValue => mret (None, None)
  end.

(** [GetWithContext] (generic). *)
Definition GetWithContext (objService : handle) (apiEndPoint : string)
  : M (option object * option Response.t * option error) :=
  '(client, resultObj) ← getObjectAndClient objService;
  let apiEndPoint := strings.TrimRight apiEndPoint "/" in
  match client with
  | None => mret (None, None, Some (errors_New "Null client, object not identified"))
  | Some _ =>
      r ← NewRequestWithContext client "GET" apiEndPoint None;
      match r with
      | inr err => mret (None, None, Some err)
      | inl req =>
          '(resp, resultObj, err) ← Do client req resultObj;
          match err with
          | Some err => mret (None, resp, Some (NewOpenProjectError resp err))
          | None => mret (resultObj, resp, None)
          end
      end
  end.

(** [GetListWithContext] (generic). *)
Definition GetListWithContext (objService : handle) (apiEndPoint : string)
    (options : option FilterOptions)
  : M (option object * option Response.t * option error) :=
  '(client, resultObjList) ← getObjectListAndClient objService;
  let apiEndPoint := strings.TrimRight apiEndPoint "/" in
  r ← NewRequestWithContext client "GET" apiEndPoint None;
  match r with
  | inr err => mret (None, None, Some err)
  | inl req =>
      let req :=
        match options with
        | Some options =>
            let values := prepareFilters options in
            http.with_URL req (url.with_RawQuery (http.URL req) (url.Encode values))
        | None => req
        end in
      '(resp, resultObjList, err) ← Do client req resultObjList;
      match err with
      | Some err => mret (None, resp, Some (NewOpenProjectError resp err))
      | None => mret (resultObjList, resp, None)
      end
  end.

(** [CreateWithContext] (generic). *)
Definition CreateWithContext (objService : handle) (apiEndPoint : string)
  : M (option object * option Response.t * option error) :=
  '(client, resultObj) ← getObjectAndClient objService;
  r ← NewRequestWithContext client "POST" apiEndPoint resultObj;
  match r with
  | inr err => mret (None, None, Some err)
  | inl req =>
      '(resp, _, err) ← Do client req None;
      match err with
      | Some err =>
          (* incase of error return the resp for further inspection *)
          mret (None, resp, Some err)
      | None =>
          resp ← deref resp;
          let body := http.RespBody (Response.Response resp) in
          let closed_resp :=
            Response.mk
              (http.mkResponse (http.StatusCode (Response.Response resp))
                 (http.RespHeader (Response.Response resp)) (read_and_close body))
              (Response.Total resp) (Response.Count resp)
              (Response.PageSize resp) (Response.Offset resp) in
          match ReadAll body with
          | None =>
              mret (None, Some closed_resp,
                    Some (errors_New "could not read the returned data"))
          | Some data =>
              match resultObj with
              | Some target =>
                  match json_Unmarshal data target with
                  | (_, Some _) =>
                      mret (None, Some closed_resp,
                            Some (errors_New "could not unmarshall the data into struct"))
                  | (target', None) => mret (Some target', Some closed_resp, None)
                  end
              | None =>
                  (* json.Unmarshal into the nil interface fails *)
                  mret (None, Some closed_resp,
                        Some (errors_New "could not unmarshall the data into struct"))
              end
          end
      end
  end.

(** [DeleteWithContext] (generic). *)
Definition DeleteWithContext (objService : handle) (apiEndPoint : string)
  : M (option Response.t * option error) :=
  '(client, _) ← getObjectAndClient objService;
  let apiEndPoint := strings.TrimRight apiEndPoint "/" in
  r ← NewRequestWithContext client "DELETE" apiEndPoint None;
  match r with
  | inr err => mret (None, Some err)
  | inl req =>
      '(resp, _, err) ← Do client req None;
      mret (resp, err)
  end.

End Pipeline.

(** ** The canonical request of the signed-token transport *)

(** The text appended for one key of the query: the body of the loop of
    [canonicalizeRequest]. *)
Definition canonicalParam (k : string) (v : list string) : string :=
  let param := url.QueryEscape k in
  let value := url.QueryEscape (strings.Join v "") in
  strings.Replace (strings.Join [param; value] "=") "+" "%20".

(** The loop of [canonicalizeRequest] and the sort after it, with the
    order in which [range] visits the entries of [openprojURL.Query()] made
    explicit: Go leaves that order open. *)
Definition canonicalQueryString (visit : list (string * list string)) : list string :=
  let canonicalQueryString :=
    foldl (fun acc kv =>
             if decide (kv.1 = "jwt") then acc
             else acc ++ [canonicalParam kv.1 kv.2])
          [] visit in
  sort.Strings canonicalQueryString.

(** [JWTAuthTransport.canonicalizeRequest], for a given order of visit. *)
Definition canonicalizeRequest_in (visit : list (string * list string))
    (httpMethod : string) (openprojURL : url.URL) : string :=
  let path := "/" +:+ strings.Replace (strings.Trim (url.Path openprojURL) "/") "&" "%26" in
  strings.ToUpper httpMethod +:+ "&" +:+ path +:+ "&"
    +:+ strings.Join (canonicalQueryString visit) "&".

(** [JWTAuthTransport.canonicalizeRequest], visiting the entries in the
    order of [map_to_list]. *)
Definition canonicalizeRequest (httpMethod : string) (openprojURL : url.URL) : string :=
  canonicalizeRequest_in (map_to_list (url.Query openprojURL)) httpMethod openprojURL.

(** ** The authenticating round-trippers *)

(** A round-tripper receives a request that the caller owns, so requests,
    URLs, header maps and the slices held by header maps live in a store
    and are referred to by location. *)
Module rt.

Abbreviation loc := positive.

(** [http.Request] as a struct of the store: [URL] is a pointer, [Header]
    a map (nil or a location), [Body] an interface (nil or a location). *)
Record Request : Type := mkRequest {
  Method : string;
  URL : loc;
  Header : option loc;
  Body : option loc
}.

Inductive cell : Type :=
| RequestCell (r : Request)
| URLCell (u : url.URL)
| HeaderCell (m : gmap string loc)      (* key to slice *)
| SliceCell (l : list string)           (* the elements of a []string *)
| BodyCell (content : string).

Abbreviation store := (gmap loc cell).

(** What a round-tripper does to the outside: the login exchange, and the
    request handed to the underlying transport. *)
Inductive call : Type :=
| Login (req : http.Request)
| Forward (req : loc).

Record world : Type := mkWorld {
  heap : store;
  calls : list call;
  ticks : nat                             (* calls of time.Now so far *)
}.

(** An underlying [http.RoundTripper]: it reads the request and answers;
    by the contract of the interface it does not modify the request. *)
Definition RoundTripper : Type := store -> loc -> http.Response + error.

(** The environment of the round-trippers. *)
Record Network : Type := mkNetwork {
  (** [http.DefaultTransport] *)
  DefaultTransport : RoundTripper;
  (** [Do] of the [http.Client] that [setSessionObject] creates *)
  authClient_Do : http.Request -> http.Response + error;
  (** the Unix time returned by the n-th call of [time.Now] *)
  time_Now : nat -> Z
}.

Abbreviation T := (St world).

Definition wrong_cell : string := "store: no cell of the expected type".

Definition alloc (c : cell) : T loc := fun w =>
  let l := fresh (dom (heap w)) in
  (Return l, mkWorld (<[l := c]> (heap w)) (calls w) (ticks w)).

Definition write (l : loc) (c : cell) : T unit := fun w =>
  (Return tt, mkWorld (<[l := c]> (heap w)) (calls w) (ticks w)).

Definition load_Request (l : loc) : T Request := fun w =>
  match heap w !! l with
  | Some (RequestCell r) => (Return r, w)
  | _ => (Panic wrong_cell, w)
  end.

Definition load_URL (l : loc) : T url.URL := fun w =>
  match heap w !! l with
  | Some (URLCell u) => (Return u, w)
  | _ => (Panic wrong_cell, w)
  end.

Definition load_Header (l : loc) : T (gmap string loc) := fun w =>
  match heap w !! l with
  | Some (HeaderCell m) => (Return m, w)
  | _ => (Panic wrong_cell, w)
  end.

Definition load_Slice (l : loc) : T (list string) := fun w =>
  match heap w !! l with
  | Some (SliceCell s) => (Return s, w)
  | _ => (Panic wrong_cell, w)
  end.

Definition record (c : call) : T unit := fun w =>
  (Return tt, mkWorld (heap w) (calls w ++ [c]) (ticks w)).

Definition get_heap : T store := fun w => (Return (heap w), w).

(** Running the steps of a loop from left to right. *)
Fixpoint for_each {A} (body : A -> T unit) (l : list A) : T unit :=
  match l with
  | [] => mret tt
  | x :: l' => body x;; for_each body l'
  end.

(** [Header.Set(key, value)] on a map of the store; assigning to an entry
    of the nil map panics. *)
Definition Header_Set (h : option loc) (key value : string) : T unit :=
  match h with
  | None => panic "assignment to entry in nil map"
  | Some l =>
      m ← load_Header l;
      s ← alloc (SliceCell [value]);
      write l (HeaderCell (<[key := s]> m))
  end.

(** [Header.Get(key)]. *)
Definition Header_Get (h : option loc) (key : string) : T string :=
  match h with
  | None => mret ""
  | Some l =>
      m ← load_Header l;
      match m !! key with
      | None => mret ""
      | Some s =>
          v ← load_Slice s;
          mret (match v with x :: _ => x | [] => "" end)
      end
  end.

(** [cloneRequest]: the iteration of [range r.Header] follows
    [map_to_list]; Go leaves the order open. *)
Definition cloneRequest (r : loc) : T loc :=
  (* shallow copy of the struct *)
  rv ← load_Request r;
  r2 ← alloc (RequestCell rv);
  (* deep copy of the Header *)
  entries ← match Header rv with
            | None => mret []
            | Some h => m ← load_Header h; mret (map_to_list m)
            end;
  h2 ← alloc (HeaderCell ∅);
  write r2 (RequestCell (mkRequest (Method rv) (URL rv) (Some h2) (Body rv)));;
  for_each (fun ks : string * loc =>
              s ← load_Slice ks.2;
              s2 ← alloc (SliceCell s);
              m ← load_Header h2;
              write h2 (HeaderCell (<[ks.1 := s2]> m)))
           entries;;
  mret r2.

Record BasicAuthTransport : Type := mkBasicAuthTransport {
  Basic_Username : string;
  Basic_Password : string;
  Basic_Transport : option RoundTripper
}.

(** [SessionObject] is a slice: [None] is the nil slice. *)
Record CookieAuthTransport : Type := mkCookieAuthTransport {
  Cookie_Username : string;
  Cookie_Password : string;
  AuthURL : string;
  SessionObject : option (list Cookie);
  Cookie_Transport : option RoundTripper
}.

Record JWTAuthTransport : Type := mkJWTAuthTransport {
  Secret : string;
  Issuer : string;
  JWT_Transport : option RoundTripper
}.

Section RoundTrip.

Context `{GoLib} (net : Network).

(** [JWTAuthTransport.createQueryStringHash]. *)
Definition createQueryStringHash (httpMethod : string) (openprojURL : url.URL)
  : string :=
  let canonicalRequest := canonicalizeRequest httpMethod openprojURL in
  sha256_hex canonicalRequest.

(** [Request.SetBasicAuth]. *)
Definition SetBasicAuth (r : loc) (username password : string) : T unit :=
  rv ← load_Request r;
  Header_Set (Header rv) "Authorization" ("Basic " +:+ basicAuth username password).

(** [Request.AddCookie]. *)
Definition AddCookie (r : loc) (c : Cookie) : T unit :=
  rv ← load_Request r;
  let s := sanitizeCookieName (Name c) +:+ "=" +:+ sanitizeCookieValue (Value c) in
  cur ← Header_Get (Header rv) "Cookie";
  if decide (cur = "") then Header_Set (Header rv) "Cookie" s
  else Header_Set (Header rv) "Cookie" (cur +:+ "; " +:+ s).

(** The three [transport()] methods. *)
Definition transport (tr : option RoundTripper) : RoundTripper :=
  match tr with
  | Some tr => tr
  | None => DefaultTransport net
  end.

(** [t.transport().RoundTrip(req2)]. *)
Definition forward (tr : RoundTripper) (req2 : loc) : T (http.Response + error) :=
  record (Forward req2);;
  h ← get_heap;
  mret (tr h req2).

(** [time.Now().Unix()]. *)
Definition now_Unix : T Z := fun w =>
  (Return (time_Now net (ticks w)), mkWorld (heap w) (calls w) (S (ticks w))).

(** [BasicAuthTransport.RoundTrip]. *)
Definition Basic_RoundTrip (t : BasicAuthTransport) (req : loc)
  : T (http.Response + error) :=
  req2 ← cloneRequest req;
  SetBasicAuth req2 (Basic_Username t) (Basic_Password t);;
  forward (transport (Basic_Transport t)) req2.

(** [CookieAuthTransport.buildAuthRequest]. *)
Definition buildAuthRequest (t : CookieAuthTransport) : http.Request + error :=
  let b := json_EncodeLogin (Cookie_Username t) (Cookie_Password t) in
  match http_NewRequest "POST" (AuthURL t) (Some b) with
  | inr err => inr err
  | inl req =>
      inl (http.with_Header req
             (http.Set_ (http.Header_ req) "Content-Type" "application/json"))
  end.

(** [CookieAuthTransport.setSessionObject]: the transport afterwards
    and the error returned. *)
Definition setSessionObject (t : CookieAuthTransport)
  : T (CookieAuthTransport * option error) :=
  match buildAuthRequest t with
  | inr err => mret (t, Some err)
  | inl req =>
      record (Login req);;
      match authClient_Do net req with
      | inr err => mret (t, Some err)
      | inl resp =>
          mret (mkCookieAuthTransport (Cookie_Username t) (Cookie_Password t)
                  (AuthURL t) (Some (Response_Cookies resp)) (Cookie_Transport t),
                None)
      end
  end.

(** [CookieAuthTransport.RoundTrip]: the transport afterwards and the
    result. *)
Definition Cookie_RoundTrip (t : CookieAuthTransport) (req : loc)
  : T (CookieAuthTransport * (http.Response + error)) :=
  '(t, err) ← match SessionObject t with
              | None => setSessionObject t
              | Some _ => mret (t, None)
              end;
  match err with
  | Some err =>
      mret (t, inr (errors_Wrap err "cookieauth: no session object has been set"))
  | None =>
      req2 ← cloneRequest req;
      for_each (fun cookie =>
                  (* Don't add an empty value cookie to the request *)
                  if decide (Value cookie = "") then mret tt
                  else AddCookie req2 cookie)
               (default [] (SessionObject t));;
      resp ← forward (transport (Cookie_Transport t)) req2;
      mret (t, resp)
  end.

(** [JWTAuthTransport.RoundTrip]. *)
Definition JWT_RoundTrip (t : JWTAuthTransport) (req : loc)
  : T (http.Response + error) :=
  req2 ← cloneRequest req;
  let exp := 59 in
  rv ← load_Request req;
  rv2 ← load_Request req2;
  u ← load_URL (URL rv2);
  let qsh := createQueryStringHash (Method rv) u in
  iat ← now_Unix;
  later ← now_Unix;
  match jwt_SignedString (Issuer t) iat (later + exp) qsh (Secret t) with
  | None =>
      mret (inr (errors_Wrap (LibraryError "jwt") "jwtAuth: error signing JWT"))
  | Some jwtStr =>
      Header_Set (Header rv2) "Authorization" ("JWT " +:+ jwtStr);;
      forward (transport (JWT_Transport t)) req2
  end.

(** The three round-trippers under one type: the authentication
    strategies of the spec. *)
Inductive AuthStrategy : Type :=
| Basic (t : BasicAuthTransport)
| CookieSession (t : CookieAuthTransport)
| SignedToken (t : JWTAuthTransport).

(** [RoundTrip] of the strategy's transport: the strategy afterwards
    and the result. *)
Definition RoundTrip (s : AuthStrategy) (req : loc)
  : T (AuthStrategy * (http.Response + error)) :=
  match s with
  | Basic t => r ← Basic_RoundTrip t req; mret (Basic t, r)
  | CookieSession t => '(t', r) ← Cookie_RoundTrip t req; mret (CookieSession t', r)
  | SignedToken t => r ← JWT_RoundTrip t req; mret (SignedToken t, r)
  end.

End RoundTrip.

End rt.

(** ** A sample environment, for concrete runs *)

Module sample.

Definition is_control (a : ascii) : bool :=
  let n := N_of_ascii a in ((n <? 32) || (n =? 127))%N.

Fixpoint has_control (s : string) : bool :=
  match s with
  | String a s' => is_control a || has_control s'
  | EmptyString => false
  end.

(** The text before the first [=] and the text after it. *)
Fixpoint cut (s : string) : string * string :=
  match s with
  | String a s' =>
      if Ascii.eqb a "=" then ("", s')
      else let '(n, v) := cut s' in (String a n, v)
  | EmptyString => ("", "")
  end.

(** The text before the first [/] and the text from it on. *)
Fixpoint cut_host (s : string) : string * string :=
  match s with
  | String a s' =>
      if Ascii.eqb a "/" then ("", s)
      else let '(h, p) := cut_host s' in (String a h, p)
  | EmptyString => ("", "")
  end.

(** URLs of the forms [path], [http://host/path] and [https://host/path],
    without control bytes. *)
Definition parse (s : string) : option url.URL :=
  if has_control s then None
  else
    match time.skip s "https://", time.skip s "http://" with
    | Some rest, _ => let '(h, p) := cut_host rest in Some (url.mkURL "https" h p [])
    | None, Some rest => let '(h, p) := cut_host rest in Some (url.mkURL "http" h p [])
    | None, None => Some (url.mkURL "" "" s [])
    end.

Definition text_of (u : url.URL) : string :=
  if String.eqb (url.Scheme u) "" then url.Path u
  else url.Scheme u +:+ "://" +:+ url.Host u +:+ url.Path u.

(** A library for URLs of these forms, in which JSON is only [{}] and the
    codings leave the text as it is. *)
Global Instance lib : GoLib := {|
  url_Parse := parse;
  url_ResolveReference base rel :=
    if String.eqb (url.Scheme rel) "" then
      url.mkURL (url.Scheme base) (url.Host base) (url.Path base +:+ url.Path rel)
        (url.RawQuery rel)
    else rel;
  url_String := text_of;
  http_validMethod m := negb (String.eqb m "");
  json_Encode o := Some "{}";
  json_Unmarshal text o :=
    if String.eqb text "{}" then (o, None) else (o, Some (LibraryError "json"));
  basicAuth u p := u +:+ ":" +:+ p;
  sanitizeCookieName n := n;
  sanitizeCookieValue v := v;
  sha256_hex text := text;
  jwt_SignedString iss iat exp qsh secret := Some (iss +:+ "." +:+ qsh +:+ "." +:+ secret);
  json_EncodeLogin u p := u +:+ ":" +:+ p;
  Response_Cookies r :=
    (fun v => let '(n, x) := cut v in mkCookie n x)
      <$> default [] (http.RespHeader r !! "Set-Cookie")
|}.

Definition body (text : string) : ReadCloser := mkBody (Some text) false false.

(** A server that answers every request with the given status and body. *)
Definition server (status : Z) (text : string) (req : http.Request)
  : http.Response + error :=
  inl (http.mkResponse status ∅ (body text)).

Definition a_client (auth : AuthenticationService) (status : Z) (text : string)
  : Client :=
  mkClient (server status text) (url.mkURL "https" "op.example" "/" []) None auth.

Definition no_auth : AuthenticationService :=
  mkAuthenticationService authTypeNone "" "".

(** A login service: it answers with the given status and sets the given
    cookies; an underlying transport that answers 200. *)
Definition net (login_status : Z) (set_cookie : list string) : rt.Network :=
  rt.mkNetwork
    (fun _ _ => inl (http.mkResponse 200 ∅ (body "")))
    (fun _ => inl (http.mkResponse login_status {[ "Set-Cookie" := set_cookie ]}
                     (body "")))
    (fun n => 1600000000 + Z.of_nat n).

(** A store with one request: [GET /x] with one header. *)
Definition a_heap : rt.store :=
  {[ 1%positive := rt.RequestCell (rt.mkRequest "GET" 2%positive (Some 3%positive) None);
     2%positive := rt.URLCell (url.mkURL "" "" "/x" []);
     3%positive := rt.HeaderCell {[ "Accept" := 4%positive ]};
     4%positive := rt.SliceCell ["*/*"] ]}.

Definition a_world : rt.world := rt.mkWorld a_heap [] 0.

End sample.

(** ** Notions used in the statements *)

(** The list types whose counters [populatePageValues] copies. *)
Definition paginated (t : ListType) : bool :=
  match t with
  | SearchResultWP | SearchResultUser | SearchResultQuery => true
  | _ => false
  end.

(** The four counters of a response wrapper. *)
Definition counters (r : Response.t) : Z * Z * Z * Z :=
  (Response.Total r, Response.Count r, Response.PageSize r, Response.Offset r).

(** The canonical string in the words of the spec: the method in upper
    case, the normalised path, and the sorted, URL-escaped [key=value]
    pairs of the parameters other than [jwt], joined by [&]. *)
Definition percent_escape (s : string) : string :=
  strings.Replace (url.QueryEscape s) "+" "%20".

Definition normalized_path (path : string) : string :=
  "/" +:+ strings.Replace (strings.Trim path "/") "&" "%26".

Definition escaped_pair (kv : string * string) : string :=
  percent_escape kv.1 +:+ "=" +:+ percent_escape kv.2.

Definition stated_canonical (method path : string) (params : list (string * string))
  : string :=
  strings.ToUpper method +:+ "&" +:+ normalized_path path +:+ "&"
  +:+ strings.Join
        (sort.Strings (escaped_pair <$> filter (fun kv => kv.1 <> "jwt") params)) "&".

(** The values of a key in a query, in the order supplied, and the query
    grouped by key: one entry for each distinct key. *)
Definition values_of (k : string) (pairs : list (string * string)) : list string :=
  (filter (fun kv => kv.1 = k) pairs).*2.

Definition grouped (pairs : list (string * string)) : list (string * list string) :=
  (fun k => (k, values_of k pairs)) <$> remove_dups pairs.*1.

(** The entry of a key: the escaped key, [=], and the escaped
    concatenation of the values of the key. *)
Definition grouped_entry (kv : string * list string) : string :=
  percent_escape kv.1 +:+ "=" +:+ percent_escape (strings.Join kv.2 "").

Definition grouped_canonical (method path : string) (params : list (string * string))
  : string :=
  strings.ToUpper method +:+ "&" +:+ normalized_path path +:+ "&"
  +:+ strings.Join
        (sort.Strings (grouped_entry <$> filter (fun kv => kv.1 <> "jwt") (grouped params)))
        "&".

(** The URL that the request builders resolve for [urlStr], as text. *)
Definition resolved `{GoLib} (c : Client) (rel : url.URL) : string :=
  url_String
    (url_ResolveReference (baseURL c)
       (url.with_Path rel (strings.TrimLeft (url.Path rel) "/"))).

(** The handle of kind [k] that [NewClient] makes for client [c]. *)
Definition handle_of (k : Kind) (c : Client) : handle :=
  ServicePtr k (Some (mkService (Some c))).

(** The elements of the slice at a location of the store. *)
Definition slice_at (h : rt.store) (s : rt.loc) : option (list string) :=
  match h !! s with
  | Some (rt.SliceCell v) => Some v
  | _ => None
  end.

(** The header map at a location of the store, read through its slices:
    what [http.Header] holds. *)
Definition header_at (h : rt.store) (hdr : option rt.loc) : http.Header :=
  match hdr with
  | Some l =>
      match h !! l with
      | Some (rt.HeaderCell m) => omap (slice_at h) m
      | _ => ∅
      end
  | None => ∅
  end.

(** A request pointer of a well-typed store: it refers to a request struct
    whose URL refers to a URL and whose header map, if not nil, refers to a
    map from keys to slices. *)
Definition well_formed (h : rt.store) (req : rt.loc) : Prop :=
  exists rv u,
    h !! req = Some (rt.RequestCell rv)
    /\ h !! rt.URL rv = Some (rt.URLCell u)
    /\ match rt.Header rv with
       | Some l =>
           exists m, h !! l = Some (rt.HeaderCell m)
                     /\ map_Forall (fun _ s => is_Some (slice_at h s)) m
       | None => True
       end.

(** [req2] is a copy of [req] made after the store was [h]: the struct,
    the header map and every slice of the map are new locations; method,
    URL and body are those of [req], the URL and the body being the same
    pointers; and apart from the credentials the header map holds what the
    header map of [req] holds. *)
Definition fresh_copy (h h' : rt.store) (req req2 : rt.loc) : Prop :=
  exists rv rv2 h2 m2,
    h !! req = Some (rt.RequestCell rv)
    /\ h !! req2 = None
    /\ h' !! req2 = Some (rt.RequestCell rv2)
    /\ rt.Method rv2 = rt.Method rv
    /\ rt.URL rv2 = rt.URL rv
    /\ rt.Body rv2 = rt.Body rv
    /\ rt.Header rv2 = Some h2
    /\ h !! h2 = None
    /\ h' !! h2 = Some (rt.HeaderCell m2)
    /\ map_Forall (fun _ s => h !! s = None /\ is_Some (slice_at h' s)) m2
    /\ forall key, key <> "Authorization" -> key <> "Cookie" ->
         header_at h' (Some h2) !! key = header_at h (rt.Header rv) !! key.

(** The headers of the request at a location of the store. *)
Definition request_header (h : rt.store) (r : rt.loc) : http.Header :=
  match h !! r with
  | Some (rt.RequestCell rv) => header_at h (rt.Header rv)
  | _ => ∅
  end.

(** The header line that [AddCookie] writes for one more cookie. *)
Definition with_cookie `{GoLib} (hdr : http.Header) (c : Cookie) : http.Header :=
  let s := sanitizeCookieName (Name c) +:+ "=" +:+ sanitizeCookieValue (Value c) in
  let cur := http.Get hdr "Cookie" in
  if decide (cur = "") then http.Set_ hdr "Cookie" s
  else http.Set_ hdr "Cookie" (cur +:+ "; " +:+ s).

(** The four-digit and two-digit fields of the layouts, as checks that
    are run over their whole range. *)
Definition year_field (y : Z) : bool :=
  match time.appendInt y 4 with
  | String a (String b (String c (String d EmptyString))) =>
      time.isDigit a && time.isDigit b && time.isDigit c && time.isDigit d
      && (time.digit_value a * 1000 + time.digit_value b * 100
          + time.digit_value c * 10 + time.digit_value d =? y)
  | _ => false
  end.

Definition two_digit_field (x : Z) : bool :=
  match time.appendInt x 2 with
  | String a (String b EmptyString) =>
      time.isDigit a && time.isDigit b
      && (time.digit_value a * 10 + time.digit_value b =? x)
  | _ => false
  end.

(** Text made of unreserved bytes only. *)
Fixpoint all_unreserved (s : string) : bool :=
  match s with
  | String a s' => url.unreserved a && all_unreserved s'
  | EmptyString => true
  end.

(** The invariant of a round trip that started in store [h0] and has
    cloned the request into [r2] with header map [h2]: the cells of [h0]
    are as they were, and [r2], [h2] and the slices of [h2] are cells
    that [h0] does not have. *)
Definition owns (h0 : rt.store) (rv : rt.Request) (r2 h2 : rt.loc) (w : rt.world) : Prop :=
  (forall l c, h0 !! l = Some c -> rt.heap w !! l = Some c)
  /\ h0 !! r2 = None
  /\ h0 !! h2 = None
  /\ rt.heap w !! r2
     = Some (rt.RequestCell (rt.mkRequest (rt.Method rv) (rt.URL rv) (Some h2) (rt.Body rv)))
  /\ exists m2, rt.heap w !! h2 = Some (rt.HeaderCell m2)
                /\ map_Forall (fun _ s => h0 !! s = None
                                          /\ is_Some (slice_at (rt.heap w) s)) m2.

(** The world after [h2[key] = v] for a new slice [v]. *)
Definition put (w : rt.world) (h2 : rt.loc) (m2 : gmap string rt.loc) (key : string)
    (v : list string) : rt.world :=
  let s := fresh (dom (rt.heap w)) in
  rt.mkWorld (<[h2 := rt.HeaderCell (<[key := s]> m2)]> (<[s := rt.SliceCell v]> (rt.heap w)))
    (rt.calls w) (rt.ticks w).

(** One step of the loop of [cloneRequest]. *)
Definition copy_slice (h2 : rt.loc) (ks : string * rt.loc) : rt.T unit :=
  s ← rt.load_Slice ks.2;
  s2 ← rt.alloc (rt.SliceCell s);
  m ← rt.load_Header h2;
  rt.write h2 (rt.HeaderCell (<[ks.1 := s2]> m)).

(** One step of the loop of [CookieAuthTransport.RoundTrip]. *)
Definition add_cookie `{GoLib} (req2 : rt.loc) (cookie : Cookie) : rt.T unit :=
  if decide (Value cookie = "") then mret tt else rt.AddCookie req2 cookie.

(** ** Further code of the client *)

(** [strings.HasSuffix(s, suffix)]. *)
Fixpoint HasSuffix (s suffix : string) : bool :=
  if String.eqb s suffix then true
  else match s with
       | String _ s' => HasSuffix s' suffix
       | EmptyString => false
       end.

(** The base URL as [NewClient] hands it to [url.Parse]: with a trailing
    slash. *)
Definition with_trailing_slash (baseURL : string) : string :=
  if HasSuffix baseURL "/" then baseURL else baseURL +:+ "/".

(** [NewClient]: [httpClient] may be nil, and [DefaultClient] stands for
    [http.DefaultClient].  The service fields of the new client are the
    handles [handle_of k c]; its [Authentication] is the zero struct. *)
Definition NewClient `{GoLib} (DefaultClient : http.Request -> http.Response + error)
    (httpClient : option (http.Request -> http.Response + error)) (baseURL : string)
  : Client + error :=
  let httpClient := match httpClient with
                    | Some hc => hc
                    | None => DefaultClient
                    end in
  (* ensure the baseURL contains a trailing slash *)
  let baseURL := with_trailing_slash baseURL in
  match url_Parse baseURL with
  | None => inr (LibraryError "url.Parse")
  | Some parsedBaseURL =>
      inl (mkClient httpClient parsedBaseURL None
             (mkAuthenticationService authTypeNone "" ""))
  end.

(** [Client.GetBaseURL]. *)
Definition GetBaseURL (c : Client) : url.URL := baseURL c.

(** [Client.NewMultiPartRequestWithContext], for a buffer pointer that is
    not nil: like the raw builder, without the content type. *)
Definition NewMultiPartRequestWithContext `{GoLib} (c : option Client)
    (method urlStr : string) (buf : string) : M (http.Request + error) :=
  emit (Build method urlStr);;
  match url_Parse urlStr with
  | None => mret (inr (LibraryError "url.Parse"))
  | Some rel =>
      let rel := url.with_Path rel (strings.TrimLeft (url.Path rel) "/") in
      c ← deref c;
      let u := url_ResolveReference (baseURL c) rel in
      match newRequestWithContext method (url_String u) (Some buf) with
      | inr err => mret (inr err)
      | inl req => mret (inl (setAuthentication c req))
      end
  end.

(** The struct types of the package, and the [interface{}] value that
    the operations of the package pass to [Do] as [v]: the nil interface,
    a nil pointer of a struct type, or a pointer to a struct. *)
Inductive StructType : Type :=
| ResourceType (k : Kind)
| ListOf (t : ListType).

Inductive target : Type :=
| nil_interface
| nil_pointer (T : StructType)
| pointer (o : object).


(** The interface [httpClient]: [Do] returns a response pointer and an
    error, each of which may be nil. *)
Definition httpClient : Type := http.Request -> option http.Response * option error.






(** [Client.Download]. *)
Definition Download (c : option Client) (req : http.Request)
  : M (option http.Response * option error) :=
  c ← deref c;
  emit (Send req);;
  match client c req with
  | inr err => mret (None, Some err)
  | inl httpResp => mret (Some httpResp, CheckResponse httpResp)
  end.

(** The type assertion of [x] to a pointer to [WorkPackage]: it panics on
    every other dynamic type and on the nil interface. *)
Definition assert_WorkPackage {S} (x : option object) : St S Fields :=
  match x with
  | Some (Resource WorkPackage fields) => mret fields
  | _ => panic "interface conversion"
  end.

(** The type assertion of [x] to a pointer to [SearchResultWP]. *)
Definition assert_SearchResultWP {S} (x : option object) : St S SearchResult.t :=
  match x with
  | Some (ResourceList SearchResultWP value) => mret value
  | _ => panic "interface conversion"
  end.

(** [WorkPackageService.GetWithContext]: the receiver is a pointer to the
    service struct. *)
Definition WorkPackageService_GetWithContext `{GoLib} (s : option Service)
    (workpackageID : string) : M (Fields * option Response.t * option error) :=
  let apiEndpoint := "api/v3/work_packages/" +:+ workpackageID in
  '(Obj, Resp, err) ← GetWithContext (ServicePtr WorkPackage s) apiEndpoint;
  wp ← assert_WorkPackage Obj;
  mret (wp, Resp, err).

(** [WorkPackageService.CreateWithContext]. *)
Definition WorkPackageService_CreateWithContext `{GoLib} (s : option Service)
    (projectName : string) : M (Fields * option Response.t * option error) :=
  let apiEndpoint := "api/v3/projects/" +:+ projectName +:+ "/work_packages" in
  '(wpResponse, resp, err) ← CreateWithContext (ServicePtr WorkPackage s) apiEndpoint;
  wp ← assert_WorkPackage wpResponse;
  mret (wp, resp, err).

(** [WorkPackageService.GetListWithContext]: the end point is the text of
    a URL that has the path only. *)
Definition WorkPackageService_GetListWithContext `{GoLib} (s : option Service)
    (options : option FilterOptions)
  : M (list Fields * option Response.t * option error) :=
  '(objList, resp, err) ←
    GetListWithContext (ServicePtr WorkPackage s) "api/v3/work_packages" options;
  value ← assert_SearchResultWP objList;
  mret (SearchResult.Elements value, resp, err).

(** [WorkPackageService.DeleteWithContext]. *)
Definition WorkPackageService_DeleteWithContext `{GoLib} (s : option Service)
    (workpackageID : string) : M (option Response.t * option error) :=
  let apiEndPoint := "api/v3/work_packages/" +:+ workpackageID in
  '(resp, err) ← DeleteWithContext (ServicePtr WorkPackage s) apiEndPoint;
  mret (resp, err).

(** [UserService.GetWithContext]: it calls the builder and [Do] itself. *)
Definition UserService_GetWithContext `{GoLib} (s : option Service) (accountId : string)
  : M (option object * option Response.t * option error) :=
  let apiEndpoint := "api/v3/users?id=" +:+ accountId in
  s ← deref s;
  r ← NewRequestWithContext (service_client s) "GET" apiEndpoint None;
  match r with
  | inr err => mret (None, None, Some err)
  | inl req =>
      let user := new User in
      '(resp, user, err) ← Do (service_client s) req (Some user);
      match err with
      | Some err => mret (None, resp, Some (NewOpenProjectError resp err))
      | None => mret (user, resp, None)
      end
  end.

(** ** Notions used in the further statements *)

(** Events of one operation: nothing, or one call of the builder, or one
    call of the builder and then one request handed to the HTTP client. *)
Definition at_most_once (evs : list event) : Prop :=
  evs = [] \/ (exists method urlStr, evs = [Build method urlStr])
  \/ (exists method urlStr req, evs = [Build method urlStr; Send req]).

(** The request that [GetListWithContext] hands to the HTTP client, from
    the URL [u] that the builder has resolved. *)
Definition list_request `{GoLib} (c : Client) (u : url.URL)
    (options : option FilterOptions) : http.Request :=
  let req := setAuthentication c
               (http.mkRequest "GET" u {[ "Content-Type" := ["application/json"] ]} None) in
  match options with
  | Some o =>
      http.with_URL req (url.with_RawQuery (http.URL req) [(paramFilters, filterTemplate o)])
  | None => req
  end.

(** The text of a cookie in the [Cookie] header. *)
Definition cookie_text `{GoLib} (c : Cookie) : string :=
  sanitizeCookieName (Name c) +:+ "=" +:+ sanitizeCookieValue (Value c).

(** The number of occurrences of a byte in a text. *)
Fixpoint count_byte (c : ascii) (s : string) : nat :=
  match s with
  | String a s' => (if Ascii.eqb a c then 1 else 0) + count_byte c s'
  | EmptyString => 0
  end.

(** The decimal fields of a date or time, written from their digits. *)
Definition two_digit_text (a b : Z) : bool :=
  String.eqb (time.appendInt (a * 10 + b) 2)
    (String (time.digit a) (String (time.digit b) "")).

Definition four_digit_text (a b c d : Z) : bool :=
  String.eqb (time.appendInt (a * 1000 + b * 100 + c * 10 + d) 4)
    (String (time.digit a) (String (time.digit b)
       (String (time.digit c) (String (time.digit d) "")))).

Definition ten : list Z := map Z.of_nat (seq 0 10).

(** A response with a status code that [CheckResponse] accepts. *)
Definition successful (resp : option Response.t) : Prop :=
  exists r, resp = Some r /\ 200 <= http.StatusCode (Response.Response r) <= 299.

(** * Properties *)

(** Running a computation: the operations of [St] are unfolded and the
    state is threaded through. *)
Ltac run_St :=
  unfold mbind, mret, St_bind, St_ret, emit, deref, panic; simpl.

(** ** Status check and response envelope *)

Lemma CheckResponse_None (r : http.Response) :
  CheckResponse r = None <-> 200 <= http.StatusCode r <= 299.
Proof.
  unfold CheckResponse.
  destruct (200 <=? http.StatusCode r) eqn:E1;
    destruct (http.StatusCode r <=? 299) eqn:E2; simpl; split; try done; lia.
Qed.

Lemma CheckResponse_Some (r : http.Response) :
  ~ (200 <= http.StatusCode r <= 299) ->
  CheckResponse r = Some (StatusCodeError (http.StatusCode r)).
Proof.
  intros Hn. unfold CheckResponse.
  destruct (200 <=? http.StatusCode r) eqn:E1;
    destruct (http.StatusCode r <=? 299) eqn:E2; simpl; try done; lia.
Qed.

(** C7. The status check returns no error exactly for the codes 200 to
    299.  On any other code [Do] hands the request to the client once and
    returns the status error together with a wrapper around the very
    response received: its body is neither read nor closed, nothing is
    decoded into [v], and the four counters are zero. *)
Theorem Do_status_check `{GoLib} (c : Client) (req : http.Request) (v : option object)
    (httpResp : http.Response) (log : list event) :
  client c req = inl httpResp ->
  (CheckResponse httpResp = None <-> 200 <= http.StatusCode httpResp <= 299)
  /\ (~ (200 <= http.StatusCode httpResp <= 299) ->
      Do (Some c) req v log
      = (Return (Some (Response.mk httpResp 0 0 0 0), v,
                 Some (StatusCodeError (http.StatusCode httpResp))),
         log ++ [Send req])).
Proof.
  intros Hc. split; [apply CheckResponse_None|].
  intros Hn. unfold Do. run_St. rewrite Hc, (CheckResponse_Some _ Hn). reflexivity.
Qed.

Lemma Do_status_check_witness :
  let c := sample.a_client sample.no_auth 404 "not found" in
  let req := http.mkRequest "GET" (url.mkURL "" "" "/x" []) ∅ None in
  Do (Some c) req (Some (new WorkPackage)) []
  = (Return (Some (Response.mk (http.mkResponse 404 ∅ (sample.body "not found")) 0 0 0 0),
             Some (new WorkPackage), Some (StatusCodeError 404)),
     [Send req]).
Proof.
  intros c req.
  refine (proj2 (Do_status_check c req (Some (new WorkPackage))
                   (http.mkResponse 404 ∅ (sample.body "not found")) [] _) _).
  - reflexivity.
  - simpl. lia.
Defined.

Lemma newResponse_Response (r : http.Response) (v : option object) :
  Response.Response (newResponse r v) = r.
Proof.
  unfold newResponse, populatePageValues.
  destruct v as [[k f | [] value] |]; reflexivity.
Qed.

Lemma newResponse_counters (r : http.Response) (v : option object) :
  counters (newResponse r v)
  = match v with
    | Some (ResourceList t value) =>
        if paginated t then
          (SearchResult.Total value, SearchResult.Count value,
           SearchResult.PageSize value, SearchResult.Offset value)
        else (0, 0, 0, 0)
    | _ => (0, 0, 0, 0)
    end.
Proof.
  unfold newResponse, populatePageValues.
  destruct v as [[k f | [] value] |]; reflexivity.
Qed.

(** C9. When [Do] receives a 2xx response and decodes its body without
    error, the wrapper it returns carries the counters of the decoded
    value if that is a [SearchResultWP], [SearchResultUser] or
    [SearchResultQuery], the envelopes that [populatePageValues] knows,
    and four zeros if it is a single resource (or a list type that
    [populatePageValues] has no case for). *)
Theorem Do_pagination `{GoLib} (c : Client) (req : http.Request) (target target' : object)
    (httpResp : http.Response) (text : string) (log : list event) :
  client c req = inl httpResp ->
  CheckResponse httpResp = None ->
  ReadAll (http.RespBody httpResp) = Some text ->
  json_Unmarshal text target = (target', None) ->
  exists resp,
    Do (Some c) req (Some target) log
    = (Return (Some resp, Some target', None), log ++ [Send req])
    /\ match target' with
       | ResourceList t value =>
           (paginated t = true ->
            Response.Total resp = SearchResult.Total value
            /\ Response.Count resp = SearchResult.Count value
            /\ Response.PageSize resp = SearchResult.PageSize value
            /\ Response.Offset resp = SearchResult.Offset value)
           /\ (paginated t = false ->
               Response.Total resp = 0 /\ Response.Count resp = 0
               /\ Response.PageSize resp = 0 /\ Response.Offset resp = 0)
       | Resource _ _ =>
           Response.Total resp = 0 /\ Response.Count resp = 0
           /\ Response.PageSize resp = 0 /\ Response.Offset resp = 0
       end.
Proof.
  intros Hc Hs Hr Hj. eexists. split.
  - unfold Do. run_St. rewrite Hc, Hs, Hr, Hj. reflexivity.
  - pose proof (newResponse_counters
                  (http.mkResponse (http.StatusCode httpResp) (http.RespHeader httpResp)
                     (read_and_close (http.RespBody httpResp))) (Some target')) as Hn.
    unfold counters in Hn. destruct target' as [k f | t value].
    + by simplify_eq.
    + split; intros Ht; rewrite Ht in Hn; by simplify_eq.
Qed.

(** The list response of the spec: total 10, count 5, pageSize 5, offset 0. *)
Lemma Do_pagination_witness :
  let page := SearchResult.mk [] 10 5 5 0 in
  let lib' : GoLib := {|
    url_Parse := @url_Parse sample.lib;
    url_ResolveReference := @url_ResolveReference sample.lib;
    url_String := @url_String sample.lib;
    http_validMethod := @http_validMethod sample.lib;
    json_Encode := @json_Encode sample.lib;
    json_Unmarshal text o := (ResourceList SearchResultWP page, None);
    basicAuth := @basicAuth sample.lib;
    sanitizeCookieName := @sanitizeCookieName sample.lib;
    sanitizeCookieValue := @sanitizeCookieValue sample.lib;
    sha256_hex := @sha256_hex sample.lib;
    jwt_SignedString := @jwt_SignedString sample.lib;
    json_EncodeLogin := @json_EncodeLogin sample.lib;
    Response_Cookies := @Response_Cookies sample.lib
  |} in
  let c := sample.a_client sample.no_auth 200 "{}" in
  let req := http.mkRequest "GET" (url.mkURL "" "" "/api/v3/work_packages" []) ∅ None in
  exists resp,
    @Do lib' (Some c) req (Some (new_list SearchResultWP)) []
    = (Return (Some resp, Some (ResourceList SearchResultWP page), None), [Send req])
    /\ Response.Total resp = 10 /\ Response.Count resp = 5
    /\ Response.PageSize resp = 5 /\ Response.Offset resp = 0.
Proof.
  intros page lib' c req.
  destruct (@Do_pagination lib' c req (new_list SearchResultWP)
              (ResourceList SearchResultWP page)
              (http.mkResponse 200 ∅ (sample.body "{}")) "{}" [])
    as (resp & Hdo & Hp); try reflexivity.
  exists resp. split; [exact Hdo | exact (proj1 Hp eq_refl)].
Defined.

(** ** The request builder *)

Section Builder.

Context `{GoLib}.

Lemma AddCookie_fields (r : http.Request) (ck : Cookie) :
  http.Method (AddCookie r ck) = http.Method r
  /\ http.URL (AddCookie r ck) = http.URL r
  /\ http.Body (AddCookie r ck) = http.Body r
  /\ forall key, key <> "Cookie" ->
       http.Header_ (AddCookie r ck) !! key = http.Header_ r !! key.
Proof.
  unfold AddCookie. case_decide; simpl; repeat split; try done;
    intros key Hk; unfold http.Set_; by rewrite lookup_insert_ne.
Qed.

Lemma AddCookies_fields (cks : list Cookie) (r : http.Request) :
  http.Method (foldl AddCookie r cks) = http.Method r
  /\ http.URL (foldl AddCookie r cks) = http.URL r
  /\ http.Body (foldl AddCookie r cks) = http.Body r
  /\ forall key, key <> "Cookie" ->
       http.Header_ (foldl AddCookie r cks) !! key = http.Header_ r !! key.
Proof.
  revert r. induction cks as [|ck cks IH]; intros r; simpl; [done|].
  destruct (IH (AddCookie r ck)) as (Hm & Hu & Hb & Hh).
  destruct (AddCookie_fields r ck) as (Hm' & Hu' & Hb' & Hh').
  repeat split; try congruence.
  intros key Hk. rewrite Hh, Hh'; done.
Qed.

(** The authentication step changes nothing but the header map. *)
Lemma setAuthentication_fields (c : Client) (r : http.Request) :
  http.Method (setAuthentication c r) = http.Method r
  /\ http.URL (setAuthentication c r) = http.URL r
  /\ http.Body (setAuthentication c r) = http.Body r.
Proof.
  unfold setAuthentication. repeat case_decide; try done.
  destruct (session c); [|done].
  destruct (AddCookies_fields (Cookies s) r) as (? & ? & ? & _). done.
Qed.

(** With basic authentication the step sets [Authorization] when the
    user name is not empty, and does nothing when it is. *)
Lemma setAuthentication_basic (c : Client) (r : http.Request) :
  authType (Authentication c) = authTypeBasic ->
  setAuthentication c r
  = if decide (username (Authentication c) = "") then r
    else SetBasicAuth r (username (Authentication c)) (password (Authentication c)).
Proof.
  intros Hb. unfold setAuthentication. rewrite Hb.
  rewrite decide_False by done. rewrite decide_True by done. done.
Qed.

(** The builders on a client that is not nil, when the library accepts
    the URL, the body and the method. *)
Lemma NewRequestWithContext_built (c : Client) (method urlStr : string)
    (body : option object) (rel : url.URL) (buf : option string)
    (req0 : http.Request) (log : list event) :
  url_Parse urlStr = Some rel ->
  encodeBody body = inl buf ->
  http_NewRequest method (resolved c rel) buf = inl req0 ->
  NewRequestWithContext (Some c) method urlStr body log
  = (Return (inl (setAuthentication c
                    (http.with_Header req0
                       (http.Set_ (http.Header_ req0) "Content-Type"
                          "application/json")))),
     log ++ [Build method urlStr]).
Proof.
  intros Hp He Hn. unfold NewRequestWithContext, newRequestWithContext. run_St.
  rewrite Hp. simpl. rewrite He. unfold resolved in Hn. rewrite Hn. reflexivity.
Qed.

Lemma NewRawRequestWithContext_built (c : Client) (method urlStr : string)
    (body : option string) (rel : url.URL)
    (req0 : http.Request) (log : list event) :
  url_Parse urlStr = Some rel ->
  http_NewRequest method (resolved c rel) body = inl req0 ->
  NewRawRequestWithContext (Some c) method urlStr body log
  = (Return (inl (setAuthentication c
                    (http.with_Header req0
                       (http.Set_ (http.Header_ req0) "Content-Type"
                          "application/json")))),
     log ++ [Build method urlStr]).
Proof.
  intros Hp Hn. unfold NewRawRequestWithContext, newRequestWithContext. run_St.
  rewrite Hp. simpl. unfold resolved in Hn. rewrite Hn. reflexivity.
Qed.

Lemma http_NewRequest_Header (method urlStr : string) (body : option string)
    (req0 : http.Request) :
  http_NewRequest method urlStr body = inl req0 ->
  http.Header_ req0 = ∅ /\ http.Method req0 = method /\ http.Body req0 = body.
Proof.
  unfold http_NewRequest. destruct (http_validMethod method); [|done].
  destruct (url_Parse urlStr); [|done]. intros [= <-]. done.
Qed.

(** On a nil client the builder panics as soon as the URL has been
    parsed, and returns the parse error otherwise. *)
Lemma NewRequestWithContext_nil (method urlStr : string) (body : option object)
    (log : list event) :
  NewRequestWithContext None method urlStr body log
  = (match url_Parse urlStr with
     | Some _ => Panic nil_dereference
     | None => Return (inr (LibraryError "url.Parse"))
     end,
     log ++ [Build method urlStr]).
Proof.
  unfold NewRequestWithContext. run_St. destruct (url_Parse urlStr); reflexivity.
Qed.

End Builder.

Arguments NewRequestWithContext : simpl never.
Arguments NewRawRequestWithContext : simpl never.
Arguments Do : simpl never.

(** The header map of a request fresh from the builder. *)
Lemma built_header `{GoLib} (c : Client) (method : string) (u : url.URL)
    (buf : option string) :
  authType (Authentication c) = authTypeBasic ->
  let req := setAuthentication c
               (http.with_Header (http.mkRequest method u ∅ buf)
                  (http.Set_ ∅ "Content-Type" "application/json")) in
  http.Header_ req !! "Content-Type" = Some ["application/json"]
  /\ http.Header_ req !! "Authorization"
     = if decide (username (Authentication c) = "") then None
       else Some ["Basic " +:+ basicAuth (username (Authentication c))
                                 (password (Authentication c))].
Proof.
  intros Hb req. subst req. rewrite (setAuthentication_basic _ _ Hb).
  case_decide; simpl; unfold http.Set_.
  - by rewrite lookup_insert_eq, lookup_insert_ne, lookup_empty.
  - by rewrite lookup_insert_eq, lookup_insert_ne, lookup_insert_eq.
Qed.

(** C10. For a client set to basic authentication, whenever the library
    accepts the URL, the body and the method, both request builders return
    a request and no error; with an empty user name that request has no
    [Authorization] header, and it has one exactly when the user name is
    not empty. *)
Theorem empty_username_attaches_nothing `{GoLib} (c : Client) (method urlStr : string)
    (body : option object) (raw buf : option string) (rel u : url.URL)
    (log : list event) :
  authType (Authentication c) = authTypeBasic ->
  url_Parse urlStr = Some rel ->
  encodeBody body = inl buf ->
  http_validMethod method = true ->
  url_Parse (resolved c rel) = Some u ->
  exists req req',
    NewRequestWithContext (Some c) method urlStr body log
    = (Return (inl req), log ++ [Build method urlStr])
    /\ NewRawRequestWithContext (Some c) method urlStr raw log
       = (Return (inl req'), log ++ [Build method urlStr])
    /\ (username (Authentication c) = "" ->
        http.Header_ req !! "Authorization" = None
        /\ http.Header_ req' !! "Authorization" = None)
    /\ (username (Authentication c) <> "" ->
        http.Header_ req !! "Authorization"
        = Some ["Basic " +:+ basicAuth (username (Authentication c))
                                  (password (Authentication c))]
        /\ http.Header_ req' !! "Authorization"
           = Some ["Basic " +:+ basicAuth (username (Authentication c))
                                     (password (Authentication c))]).
Proof.
  intros Hb Hp He Hm Hu.
  assert (Hnew : forall b, http_NewRequest method (resolved c rel) b
                           = inl (http.mkRequest method u ∅ b)).
  { intros b. unfold http_NewRequest. by rewrite Hm, Hu. }
  eexists _, _. split; [|split; [|split]].
  - exact (NewRequestWithContext_built c method urlStr body rel buf _ log Hp He (Hnew buf)).
  - exact (NewRawRequestWithContext_built c method urlStr raw rel _ log Hp (Hnew raw)).
  - intros Hn. simpl.
    destruct (built_header c method u buf Hb) as [_ H1].
    destruct (built_header c method u raw Hb) as [_ H2].
    rewrite decide_True in H1, H2 by done. done.
  - intros Hn. simpl.
    destruct (built_header c method u buf Hb) as [_ H1].
    destruct (built_header c method u raw Hb) as [_ H2].
    rewrite decide_False in H1, H2 by done. done.
Qed.

Lemma empty_username_attaches_nothing_witness :
  let c := sample.a_client (mkAuthenticationService authTypeBasic "" "secret") 200 "{}" in
  exists req req',
    NewRequestWithContext (Some c) "GET" "api/v3/users" None []
    = (Return (inl req), [Build "GET" "api/v3/users"])
    /\ NewRawRequestWithContext (Some c) "GET" "api/v3/users" None []
       = (Return (inl req'), [Build "GET" "api/v3/users"])
    /\ http.Header_ req !! "Authorization" = None
    /\ http.Header_ req' !! "Authorization" = None.
Proof.
  intros c.
  destruct (empty_username_attaches_nothing c "GET" "api/v3/users" None None None
              (url.mkURL "" "" "api/v3/users" [])
              (url.mkURL "https" "op.example" "/api/v3/users" []) [])
    as (req & req' & H1 & H2 & H3 & _); try reflexivity.
  exists req, req'. destruct (H3 eq_refl). done.
Defined.

(** ** The generic dispatcher *)

(** C1 (as the code behaves).  For a handle that is none of the eight
    service types both resolutions return a nil client.  [GetWithContext]
    then returns the error "Null client, object not identified" without
    calling the builder or the client.  The three other operations call
    the builder on the nil client, which panics once the end point has
    been parsed as a URL. *)
Theorem unknown_handle_dispatch `{GoLib} (apiEndPoint : string)
    (options : option FilterOptions) (rel rel' : url.URL) (log : list event) :
  url_Parse (strings.TrimRight apiEndPoint "/") = Some rel ->
  url_Parse apiEndPoint = Some rel' ->
  getObjectAndClient OtherValue log = (Return (None, None), log)
  /\ getObjectListAndClient OtherValue log = (Return (None, None), log)
  /\ GetWithContext OtherValue apiEndPoint log
     = (Return (None, None, Some (errors_New "Null client, object not identified")), log)
  /\ GetListWithContext OtherValue apiEndPoint options log
     = (Panic nil_dereference, log ++ [Build "GET" (strings.TrimRight apiEndPoint "/")])
  /\ CreateWithContext OtherValue apiEndPoint log
     = (Panic nil_dereference, log ++ [Build "POST" apiEndPoint])
  /\ DeleteWithContext OtherValue apiEndPoint log
     = (Panic nil_dereference, log ++ [Build "DELETE" (strings.TrimRight apiEndPoint "/")]).
Proof.
  intros Hp Hp'. repeat split.
  - unfold GetListWithContext. run_St. rewrite NewRequestWithContext_nil, Hp. done.
  - unfold CreateWithContext. run_St. rewrite NewRequestWithContext_nil, Hp'. done.
  - unfold DeleteWithContext. run_St. rewrite NewRequestWithContext_nil, Hp. done.
Qed.

Lemma unknown_handle_dispatch_witness :
  GetWithContext OtherValue "api/v3/work_packages/1" []
  = (Return (None, None, Some (errors_New "Null client, object not identified")), [])
  /\ GetListWithContext OtherValue "api/v3/work_packages" None []
     = (Panic nil_dereference, [Build "GET" "api/v3/work_packages"])
  /\ CreateWithContext OtherValue "api/v3/work_packages" []
     = (Panic nil_dereference, [Build "POST" "api/v3/work_packages"])
  /\ DeleteWithContext OtherValue "api/v3/work_packages" []
     = (Panic nil_dereference, [Build "DELETE" "api/v3/work_packages"]).
Proof.
  destruct (unknown_handle_dispatch "api/v3/work_packages" None
              (url.mkURL "" "" "api/v3/work_packages" [])
              (url.mkURL "" "" "api/v3/work_packages" []) [])
    as (_ & _ & _ & H2 & H3 & H4); try reflexivity.
  split; [reflexivity|]. split; [exact H2|]. split; [exact H3|exact H4].
Defined.

Lemma getObjectAndClient_known `{GoLib} (k : Kind) (c : Client) (log : list event) :
  getObjectAndClient (handle_of k c) log = (Return (Some c, Some (new k)), log).
Proof. destruct k; reflexivity. Qed.

(** [Do] without a struct to decode into: the body is left alone. *)
Lemma Do_nil `{GoLib} (c : Client) (req : http.Request) (log : list event) :
  Do (Some c) req None log
  = (Return match client c req with
            | inr err => (None, None, Some err)
            | inl httpResp =>
                (Some (Response.mk httpResp 0 0 0 0), None, CheckResponse httpResp)
            end,
     log ++ [Send req]).
Proof.
  unfold Do. run_St. destruct (client c req) as [httpResp|err]; [|done].
  destruct (CheckResponse httpResp); reflexivity.
Qed.

(** C6. For the handle of a resource kind and its client, when the
    library accepts the end point and the method, [CreateWithContext]
    sends one POST whose body is the encoding of the zero value of the
    kind's struct.  A transport error is returned alone; a status error
    is returned with the response.  Otherwise the body of the response,
    which [Do] has not touched, is read and unmarshalled into that zero
    value: when either step fails the operation returns its own error
    together with the response, and when both succeed it returns the
    struct and the response. *)
Theorem Create_dispatch `{GoLib} (k : Kind) (c : Client) (apiEndPoint text : string)
    (rel u : url.URL) (log : list event) :
  url_Parse apiEndPoint = Some rel ->
  json_Encode (new k) = Some text ->
  http_validMethod "POST" = true ->
  url_Parse (resolved c rel) = Some u ->
  let req := setAuthentication c
               (http.mkRequest "POST" u {[ "Content-Type" := ["application/json"] ]}
                  (Some text)) in
  http.Method req = "POST" /\ http.Body req = Some text
  /\ CreateWithContext (handle_of k c) apiEndPoint log
     = (Return
          match client c req with
          | inr err => (None, None, Some err)
          | inl httpResp =>
              match CheckResponse httpResp with
              | Some err => (None, Some (Response.mk httpResp 0 0 0 0), Some err)
              | None =>
                  let resp :=
                    Response.mk
                      (http.mkResponse (http.StatusCode httpResp)
                         (http.RespHeader httpResp)
                         (read_and_close (http.RespBody httpResp))) 0 0 0 0 in
                  match ReadAll (http.RespBody httpResp) with
                  | None =>
                      (None, Some resp,
                       Some (errors_New "could not read the returned data"))
                  | Some data =>
                      match json_Unmarshal data (new k) with
                      | (_, Some _) =>
                          (None, Some resp,
                           Some (errors_New "could not unmarshall the data into struct"))
                      | (created, None) => (Some created, Some resp, None)
                      end
                  end
              end
          end,
        log ++ [Build "POST" apiEndPoint; Send req]).
Proof.
  intros Hp He Hm Hu req.
  destruct (setAuthentication_fields c
              (http.mkRequest "POST" u {[ "Content-Type" := ["application/json"] ]}
                 (Some text))) as (Hmeth & _ & Hbody).
  split; [exact Hmeth|]. split; [exact Hbody|].
  assert (Hnew : http_NewRequest "POST" (resolved c rel) (Some text)
                 = inl (http.mkRequest "POST" u ∅ (Some text))).
  { unfold http_NewRequest. by rewrite Hm, Hu. }
  assert (Henc : encodeBody (Some (new k)) = inl (Some text)).
  { unfold encodeBody. by rewrite He. }
  unfold CreateWithContext. unfold mbind at 1. unfold St_bind.
  rewrite getObjectAndClient_known.
  unfold mbind at 1. unfold St_bind.
  rewrite (NewRequestWithContext_built c "POST" apiEndPoint (Some (new k)) rel
             (Some text) _ log Hp Henc Hnew).
  change (setAuthentication c _) with req.
  unfold mbind at 1. unfold St_bind. rewrite Do_nil.
  rewrite <- app_assoc. simpl.
  destruct (client c req) as [httpResp|err]; [|reflexivity].
  destruct (CheckResponse httpResp) as [err|]; [reflexivity|].
  run_St. destruct (ReadAll (http.RespBody httpResp)) as [data|]; [|reflexivity].
  destruct (json_Unmarshal data (new k)) as [created [err|]]; reflexivity.
Qed.

Lemma Create_dispatch_witness :
  let c := sample.a_client sample.no_auth 201 "not json" in
  let req := http.mkRequest "POST"
               (url.mkURL "https" "op.example" "/api/v3/projects/p/work_packages" [])
               {[ "Content-Type" := ["application/json"] ]} (Some "{}") in
  CreateWithContext (handle_of WorkPackage c) "api/v3/projects/p/work_packages" []
  = (Return (None,
             Some (Response.mk
                     (http.mkResponse 201 ∅ (mkBody (Some "not json") true true))
                     0 0 0 0),
             Some (errors_New "could not unmarshall the data into struct")),
     [Build "POST" "api/v3/projects/p/work_packages"; Send req]).
Proof.
  intros c req.
  exact (proj2 (proj2 (Create_dispatch WorkPackage c "api/v3/projects/p/work_packages" "{}"
                         (url.mkURL "" "" "api/v3/projects/p/work_packages" [])
                         (url.mkURL "https" "op.example"
                            "/api/v3/projects/p/work_packages" []) []
                         eq_refl eq_refl eq_refl eq_refl))).
Defined.

(** ** Search filters *)

(** C5 (as the code behaves).  [prepareFilters] yields the single
    parameter [filters].  For the triple (status, Equal, open) its value is
    the JSON array of the spec.  [interpretOperator] knows [=], [<>], [>]
    and [<] only: the operators documented as [**], [~], [>=] and [<=] are
    all written as [=]; and two entries are put side by side with no
    comma between them. *)
Theorem prepareFilters_operators :
  prepareFilters (mkFilterOptions [mkOptionsFields "status" Equal "open"])
  = {[ "filters" :=
         ["[{" +:+ dquote +:+ "status" +:+ dquote +:+ ":{" +:+ dquote +:+ "operator"
          +:+ dquote +:+ ":" +:+ dquote +:+ "=" +:+ dquote +:+ "," +:+ dquote
          +:+ "values" +:+ dquote +:+ ":[" +:+ dquote +:+ "open" +:+ dquote +:+ "]}}]"] ]}
  /\ map interpretOperator
       [Equal; Different; GreaterThan; LowerThan;
        SearchString; Like; GreaterOrEqual; LowerOrEqual]
     = ["="; "<>"; ">"; "<"; "="; "="; "="; "="]
  /\ filterTemplate (mkFilterOptions [mkOptionsFields "subject" Like "foo";
                                       mkOptionsFields "id" GreaterThan "7"])
     = "[{" +:+ dquote +:+ "subject" +:+ dquote +:+ ":{" +:+ dquote +:+ "operator"
       +:+ dquote +:+ ":" +:+ dquote +:+ "=" +:+ dquote +:+ "," +:+ dquote
       +:+ "values" +:+ dquote +:+ ":[" +:+ dquote +:+ "foo" +:+ dquote +:+ "]}}"
       +:+ "{" +:+ dquote +:+ "id" +:+ dquote +:+ ":{" +:+ dquote +:+ "operator"
       +:+ dquote +:+ ":" +:+ dquote +:+ ">" +:+ dquote +:+ "," +:+ dquote
       +:+ "values" +:+ dquote +:+ ":[" +:+ dquote +:+ "7" +:+ dquote +:+ "]}}]".
Proof. repeat split; reflexivity. Qed.

(** ** The two date codecs *)

Section Codecs.

Import time.

Lemma below_forallb (P : Z -> bool) (n x : Z) :
  forallb P (map Z.of_nat (seq 0 (Z.to_nat n))) = true ->
  0 <= x < n -> P x = true.
Proof.
  intros Hall Hx. rewrite forallb_forall in Hall. apply Hall.
  apply in_map_iff. exists (Z.to_nat x). split; [lia|].
  apply in_seq. lia.
Qed.

Lemma year_field_ok (y : Z) : 0 <= y <= 9999 -> year_field y = true.
Proof.
  intros Hy. apply (below_forallb year_field 10000); [vm_compute; reflexivity | lia].
Qed.

Lemma two_digit_field_ok (x : Z) : 0 <= x <= 99 -> two_digit_field x = true.
Proof.
  intros Hx. apply (below_forallb two_digit_field 100); [vm_compute; reflexivity | lia].
Qed.

Lemma getyear_appendInt (y : Z) (rest : string) :
  0 <= y <= 9999 -> getyear (appendInt y 4 +:+ rest) = Some (y, rest).
Proof.
  intros Hy. pose proof (year_field_ok y Hy) as Hf. unfold year_field in Hf.
  destruct (appendInt y 4) as [|a [|b [|c [|d [|? ?]]]]]; try discriminate.
  apply andb_prop in Hf as [Hd Hv]. apply Z.eqb_eq in Hv.
  simpl. rewrite Hd. by rewrite Hv.
Qed.

Lemma getnum_appendInt (x : Z) (rest : string) (fixed : bool) :
  0 <= x <= 99 -> getnum (appendInt x 2 +:+ rest) fixed = Some (x, rest).
Proof.
  intros Hx. pose proof (two_digit_field_ok x Hx) as Hf. unfold two_digit_field in Hf.
  destruct (appendInt x 2) as [|a [|b [|? ?]]]; try discriminate.
  apply andb_prop in Hf as [Hd Hv]. apply andb_prop in Hd as [Ha Hb].
  apply Z.eqb_eq in Hv. simpl. rewrite Ha, Hb. by rewrite Hv.
Qed.

Lemma app_String (a : ascii) (s r : string) : String a s +:+ r = String a (s +:+ r).
Proof. reflexivity. Qed.

Lemma app_Empty (r : string) : "" +:+ r = r.
Proof. reflexivity. Qed.

Lemma appendInt_quoted (y : Z) (rest : string) :
  0 <= y <= 9999 -> String "034" (appendInt y 4 +:+ rest) <> "null".
Proof. intros _. discriminate. Qed.

Lemma daysIn_le (m y : Z) : daysIn m y <= 31.
Proof. unfold daysIn. repeat case_match; lia. Qed.

Lemma valid_bounds (t : Time) :
  valid t = true ->
  (1 <= month t <= 12) /\ (1 <= day t <= daysIn (month t) (year t))
  /\ (0 <= hour t <= 23) /\ (0 <= minute t <= 59) /\ (0 <= second t <= 59).
Proof.
  unfold valid. rewrite !andb_true_iff, !Z.leb_le, !Z.ltb_lt. lia.
Qed.

Lemma in_range_ok (lo x hi : Z) : lo <= x <= hi -> in_range lo x hi = Some tt.
Proof.
  intros Hx. unfold in_range.
  by rewrite (proj2 (Z.leb_le lo x)), (proj2 (Z.leb_le x hi)) by lia.
Qed.

(** What decoding an encoded timestamp gives: the reading of the clock
    in the value's own location, taken as a time in UTC, without the
    nanoseconds. *)
Lemma Parse_Format_timestamp (t : Time) :
  valid t = true -> 0 <= year t <= 9999 ->
  Parse_timestamp (Format_timestamp t)
  = Some (mkTime (year t) (month t) (day t) (hour t) (minute t) (second t) 0 0).
Proof.
  intros Hv Hy. destruct (valid_bounds t Hv) as (Hm & Hd & Hh & Hmi & Hs).
  pose proof (daysIn_le (month t) (year t)) as Hdi.
  unfold Parse_timestamp, Format_timestamp.
  rewrite !app_String, !app_Empty. simpl.
  rewrite getyear_appendInt by lia. simpl.
  rewrite getnum_appendInt by lia. simpl.
  rewrite (in_range_ok 1 (month t) 12) by lia. simpl.
  rewrite getnum_appendInt by lia. simpl.
  rewrite getnum_appendInt by lia. simpl.
  rewrite (in_range_ok 0 (hour t) 23) by lia. simpl.
  rewrite getnum_appendInt by lia. simpl.
  rewrite (in_range_ok 0 (minute t) 59) by lia. simpl.
  rewrite getnum_appendInt by lia. simpl.
  rewrite (in_range_ok 0 (second t) 59) by lia. simpl.
  rewrite in_range_ok by lia. reflexivity.
Qed.

(** What decoding an encoded date gives: midnight UTC of the same
    calendar date. *)
Lemma Parse_Format_date (t : Time) :
  valid t = true -> 0 <= year t <= 9999 ->
  Parse_date (Format_date t) = Some (mkTime (year t) (month t) (day t) 0 0 0 0 0).
Proof.
  intros Hv Hy. destruct (valid_bounds t Hv) as (Hm & Hd & _).
  pose proof (daysIn_le (month t) (year t)) as Hdi.
  unfold Parse_date, Format_date.
  rewrite !app_String, !app_Empty. simpl.
  rewrite getyear_appendInt by lia. simpl.
  rewrite getnum_appendInt by lia. simpl.
  rewrite (in_range_ok 1 (month t) 12) by lia. simpl.
  rewrite getnum_appendInt by lia. simpl.
  rewrite in_range_ok by lia. reflexivity.
Qed.

End Codecs.

(** C8 (amended).  For a timestamp whose year lies in 0..9999, decoding
    its encoding succeeds and gives the clock reading of the timestamp as
    a UTC time without nanoseconds: an equal instant when the timestamp is
    in UTC and has no nanoseconds.  For a date whose year lies in 0..9999,
    decoding its encoding succeeds and gives the same calendar date.
    Decoding [null] returns no error and leaves the field as it was. *)
Theorem codec_round_trip (t t0 : Time) :
  time.valid t = true ->
  0 <= time.year t <= 9999 ->
  Time_UnmarshalJSON t0 (Time_MarshalJSON t)
  = (time.mkTime (time.year t) (time.month t) (time.day t) (time.hour t)
       (time.minute t) (time.second t) 0 0, None)
  /\ (time.nanosecond t = 0 -> time.offset t = 0 ->
      Time_Equal (Time_UnmarshalJSON t0 (Time_MarshalJSON t)).1 t = true)
  /\ (exists d, Date_UnmarshalJSON t0 (Date_MarshalJSON t) = (d, None)
                /\ time.year d = time.year t /\ time.month d = time.month t
                /\ time.day d = time.day t)
  /\ Time_UnmarshalJSON t0 "null" = (t0, None)
  /\ Date_UnmarshalJSON t0 "null" = (t0, None).
Proof.
  intros Hv Hy.
  assert (Ht : Time_UnmarshalJSON t0 (Time_MarshalJSON t)
               = (time.mkTime (time.year t) (time.month t) (time.day t) (time.hour t)
                    (time.minute t) (time.second t) 0 0, None)).
  { unfold Time_UnmarshalJSON, Time_MarshalJSON.
    rewrite (Parse_Format_timestamp t Hv Hy).
    case_decide as Hnull; [|done]. unfold time.Format_timestamp in Hnull. discriminate. }
  split; [exact Ht|]. split; [|split; [|split]].
  - intros Hn Ho. rewrite Ht. unfold Time_Equal, time.Equal, time.Unix. simpl.
    rewrite Hn, Ho. by rewrite !Z.eqb_refl.
  - exists (time.mkTime (time.year t) (time.month t) (time.day t) 0 0 0 0 0).
    split; [|done].
    unfold Date_UnmarshalJSON, Date_MarshalJSON.
    rewrite (Parse_Format_date t Hv Hy).
    case_decide as Hnull; [|done]. unfold time.Format_date in Hnull. discriminate.
  - reflexivity.
  - reflexivity.
Qed.

Lemma codec_round_trip_witness :
  let t := time.mkTime 2020 2 29 23 59 58 0 0 in
  Time_UnmarshalJSON time.zero (Time_MarshalJSON t) = (t, None)
  /\ Time_Equal (Time_UnmarshalJSON time.zero (Time_MarshalJSON t)).1 t = true.
Proof.
  intros t.
  destruct (codec_round_trip t time.zero) as (H1 & H2 & _).
  - reflexivity.
  - simpl. lia.
  - split; [exact H1 | exact (H2 eq_refl eq_refl)].
Defined.

(** C8 as stated fails: the nanoseconds of a timestamp are not encoded,
    the clock reading of a timestamp outside UTC is decoded as UTC, and a
    date in the year 10000 is encoded with five digits, which the decoder
    rejects. *)
Lemma codec_round_trip_fails :
  (let t := time.mkTime 2020 1 1 0 0 0 500000000 0 in
   time.valid t = true
   /\ exists t', Time_UnmarshalJSON time.zero (Time_MarshalJSON t) = (t', None)
                 /\ Time_Equal t' t = false)
  /\ (let t := time.mkTime 2020 1 1 12 0 0 0 7200 in
      time.valid t = true
      /\ exists t', Time_UnmarshalJSON time.zero (Time_MarshalJSON t) = (t', None)
                    /\ Time_Equal t' t = false)
  /\ (let d := time.mkTime 10000 1 1 0 0 0 0 0 in
      time.valid d = true
      /\ Date_UnmarshalJSON time.zero (Date_MarshalJSON d)
         = (time.zero, Some (LibraryError "time.Parse"))).
Proof.
  split; [|split].
  - split; [reflexivity|]. eexists. split; [vm_compute; reflexivity | reflexivity].
  - split; [reflexivity|]. eexists. split; [vm_compute; reflexivity | reflexivity].
  - split; vm_compute; reflexivity.
Qed.

(** ** The canonical request *)

(** Sorting gives the same list for every arrangement of the input. *)
Lemma sort_Strings_Permutation (l1 l2 : list string) :
  l1 ≡ₚ l2 -> sort.Strings l1 = sort.Strings l2.
Proof.
  intros Hp. unfold sort.Strings.
  apply (StronglySorted_unique String.le).
  - apply StronglySorted_merge_sort; apply _.
  - apply StronglySorted_merge_sort; apply _.
  - by rewrite !merge_sort_Permutation.
Qed.

(** The list that the loop of [canonicalizeRequest] builds. *)
Lemma canonical_loop (visit : list (string * list string)) (acc : list string) :
  foldl (fun acc kv =>
           if decide (kv.1 = "jwt") then acc
           else acc ++ [canonicalParam kv.1 kv.2])
        acc visit
  = acc ++ ((fun kv => canonicalParam kv.1 kv.2)
              <$> filter (fun kv => kv.1 <> "jwt") visit).
Proof.
  revert acc. induction visit as [|kv visit IH]; intros acc; simpl.
  - by rewrite app_nil_r.
  - rewrite IH. rewrite filter_cons. case_decide as Hk.
    + rewrite decide_False by (intros Hn; by apply Hn). done.
    + rewrite decide_True by done. rewrite fmap_cons. by rewrite <- app_assoc.
Qed.

Lemma canonicalQueryString_eq (visit : list (string * list string)) :
  canonicalQueryString visit
  = sort.Strings ((fun kv => canonicalParam kv.1 kv.2)
                    <$> filter (fun kv => kv.1 <> "jwt") visit).
Proof. unfold canonicalQueryString. by rewrite canonical_loop. Qed.

(** The order in which the entries of the map are visited does not
    matter. *)
Lemma canonicalQueryString_Permutation (visit visit' : list (string * list string)) :
  visit ≡ₚ visit' -> canonicalQueryString visit = canonicalQueryString visit'.
Proof.
  intros Hp. rewrite !canonicalQueryString_eq.
  apply sort_Strings_Permutation. by rewrite Hp.
Qed.

Lemma app_assoc_string (s t r : string) : (s +:+ t) +:+ r = s +:+ (t +:+ r).
Proof. induction s as [|a s IH]; [done|]. by rewrite !app_String, IH. Qed.

Lemma Replace_app (s t : string) (old : ascii) (new : string) :
  strings.Replace (s +:+ t) old new
  = strings.Replace s old new +:+ strings.Replace t old new.
Proof.
  induction s as [|a s IH]; [done|].
  rewrite app_String. simpl. rewrite IH.
  destruct (Ascii.eqb a old); [by rewrite app_assoc_string | by rewrite app_String].
Qed.

Lemma percent_escape_String (a : ascii) (k : string) :
  percent_escape (String a k)
  = strings.Replace (url.escape_byte a) "+" "%20" +:+ percent_escape k.
Proof. unfold percent_escape. simpl. by rewrite Replace_app. Qed.

(** An escaped byte is the byte itself, if unreserved, or begins with a
    percent sign. *)
Lemma escape_head (a : ascii) :
  (url.unreserved a = true
   /\ strings.Replace (url.escape_byte a) "+" "%20" = String a "")
  \/ (url.unreserved a = false
      /\ exists r, strings.Replace (url.escape_byte a) "+" "%20" = String "%" r).
Proof.
  unfold url.escape_byte. destruct (url.unreserved a) eqn:Hu.
  - left. split; [done|]. simpl.
    destruct (Ascii.eqb a "+") eqn:Hp; [|done].
    apply Ascii.eqb_eq in Hp. subst a. discriminate.
  - right. split; [done|]. destruct (Ascii.eqb a " "); simpl; eauto.
Qed.

Lemma unreserved_neq (a c : ascii) :
  url.unreserved a = true -> url.unreserved c = false -> Ascii.eqb a c = false.
Proof.
  intros Ha Hc. destruct (Ascii.eqb a c) eqn:He; [|done].
  apply Ascii.eqb_eq in He. congruence.
Qed.

Lemma HasPrefix_String (a p : ascii) (s prefix : string) :
  strings.HasPrefix (String a s) (String p prefix)
  = Ascii.eqb a p && strings.HasPrefix s prefix.
Proof. reflexivity. Qed.

(** The escaped key can be read back from the front of an entry: an entry
    begins with [p=], for [p] of unreserved bytes, only if its key is [p]. *)
Lemma escaped_key_prefix (p k rest : string) :
  all_unreserved p = true ->
  strings.HasPrefix (percent_escape k +:+ String "=" rest) (p +:+ "=") = true ->
  k = p.
Proof.
  revert k. induction p as [|c p IH]; intros k Hp Hpre.
  - destruct k as [|a k]; [done|].
    rewrite percent_escape_String in Hpre.
    destruct (escape_head a) as [[Hu He] | [Hu [r He]]];
      rewrite He, ?app_String, ?app_Empty, HasPrefix_String in Hpre.
    + by rewrite (unreserved_neq a "=" Hu eq_refl) in Hpre.
    + done.
  - simpl in Hp. apply andb_prop in Hp as [Hc Hp].
    destruct k as [|a k].
    + rewrite ?app_String, ?app_Empty, HasPrefix_String in Hpre.
      by rewrite Ascii.eqb_sym, (unreserved_neq c "=" Hc eq_refl) in Hpre.
    + rewrite percent_escape_String in Hpre.
      destruct (escape_head a) as [[Hu He] | [Hu [r He]]];
        rewrite He, ?app_String, ?app_Empty, HasPrefix_String in Hpre.
      * apply andb_prop in Hpre as [Hac Hpre]. apply Ascii.eqb_eq in Hac. subst c.
        f_equal. by apply IH.
      * by rewrite Ascii.eqb_sym, (unreserved_neq c "%" Hc eq_refl) in Hpre.
Qed.

Lemma canonicalParam_eq (k : string) (v : list string) :
  canonicalParam k v
  = percent_escape k +:+ String "=" (percent_escape (strings.Join v "")).
Proof.
  unfold canonicalParam, percent_escape. simpl strings.Join.
  by rewrite !Replace_app.
Qed.

(** No entry for a key other than [jwt] begins with [jwt=]. *)
Lemma canonicalParam_not_jwt (k : string) (v : list string) :
  k <> "jwt" -> strings.HasPrefix (canonicalParam k v) "jwt=" = false.
Proof.
  intros Hk. rewrite canonicalParam_eq.
  destruct (strings.HasPrefix _ _) eqn:Hp; [|done].
  exfalso. apply Hk. by apply (escaped_key_prefix "jwt" k _ eq_refl Hp).
Qed.

(** The query of distinct keys: every key has its one value. *)
Lemma fold_Add_distinct (pairs : list (string * string)) (v : url.Values) :
  NoDup pairs.*1 ->
  (forall k, k ∈ pairs.*1 -> v !! k = None) ->
  map_to_list (foldl (fun v kv => url.Add v kv.1 kv.2) v pairs)
  ≡ₚ map_to_list v ++ ((fun kv => (kv.1, [kv.2])) <$> pairs).
Proof.
  revert v. induction pairs as [|[k x] pairs IH]; intros v Hnd Hfresh; simpl.
  - by rewrite app_nil_r.
  - rewrite fmap_cons in Hnd. apply NoDup_cons in Hnd as [Hnotin Hnd].
    assert (Hv : v !! k = None) by (apply Hfresh; rewrite fmap_cons; left).
    assert (Hadd : url.Add v k x = <[k := [x]]> v).
    { unfold url.Add. by rewrite Hv. }
    rewrite Hadd, IH; [| done |].
    + rewrite map_to_list_insert by done. simpl.
      by rewrite <- Permutation_middle.
    + intros k' Hk. rewrite lookup_insert_ne.
      * apply Hfresh. rewrite fmap_cons. by right.
      * intros ->. done.
Qed.

Lemma Query_distinct (u : url.URL) :
  NoDup (url.RawQuery u).*1 ->
  map_to_list (url.Query u) ≡ₚ (fun kv => (kv.1, [kv.2])) <$> url.RawQuery u.
Proof.
  intros Hnd. unfold url.Query.
  rewrite fold_Add_distinct; [| done | intros; apply lookup_empty].
  by rewrite map_to_list_empty.
Qed.

Lemma entries_of_pairs (pairs : list (string * string)) :
  (fun kv : string * list string => canonicalParam kv.1 kv.2)
    <$> filter (fun kv => kv.1 <> "jwt")
          ((fun kv : string * string => (kv.1, [kv.2])) <$> pairs)
  = escaped_pair <$> filter (fun kv => kv.1 <> "jwt") pairs.
Proof.
  induction pairs as [|kv pairs IH]; [done|].
  rewrite fmap_cons, !filter_cons. simpl. case_decide.
  - rewrite !fmap_cons, IH. f_equal. by rewrite canonicalParam_eq.
  - done.
Qed.

Lemma values_of_nil (k : string) (pairs : list (string * string)) :
  values_of k pairs = [] <-> k ∉ pairs.*1.
Proof.
  unfold values_of. induction pairs as [|[k' x] pairs IH].
  - split; [intros _; apply not_elem_of_nil | done].
  - rewrite filter_cons, fmap_cons, not_elem_of_cons. cbn [fst]. case_decide as Hk.
    + subst k'. rewrite fmap_cons. split; [discriminate | by intros [? _]].
    + rewrite IH. split; [by intros ?; split | by intros [_ ?]].
Qed.

(** The values that [url.Query] holds for a key. *)
Lemma fold_Add_lookup (pairs : list (string * string)) (v : url.Values) (k : string) :
  foldl (fun v kv => url.Add v kv.1 kv.2) v pairs !! k
  = match values_of k pairs with
    | [] => v !! k
    | vs => Some (default [] (v !! k) ++ vs)
    end.
Proof.
  revert v. induction pairs as [|[k' x] pairs IH]; intros v; [done|].
  cbn [foldl]. rewrite IH. unfold values_of, url.Add. rewrite filter_cons.
  cbn [fst snd]. case_decide as Hk.
  - subst k'. rewrite lookup_insert_eq, fmap_cons. cbn [snd default].
    destruct ((filter (fun kv : string * string => kv.1 = k) pairs).*2) as [|y ys].
    + done.
    + unfold id. by rewrite <- app_assoc.
  - by rewrite lookup_insert_ne.
Qed.

Lemma Query_lookup (u : url.URL) (k : string) :
  url.Query u !! k
  = match values_of k (url.RawQuery u) with
    | [] => None
    | vs => Some vs
    end.
Proof.
  unfold url.Query. rewrite fold_Add_lookup, lookup_empty.
  by destruct (values_of k (url.RawQuery u)).
Qed.

Lemma grouped_keys (pairs : list (string * string)) :
  (grouped pairs).*1 = remove_dups pairs.*1.
Proof.
  unfold grouped. rewrite <- list_fmap_compose. apply list_fmap_id.
Qed.

Lemma grouped_lookup (pairs : list (string * string)) (k : string) :
  (list_to_map (grouped pairs) : url.Values) !! k
  = match values_of k pairs with
    | [] => None
    | vs => Some vs
    end.
Proof.
  destruct (decide (k ∈ pairs.*1)) as [Hin|Hnotin].
  - assert (Hvs : values_of k pairs <> []) by (by rewrite values_of_nil; intros ?).
    rewrite (elem_of_list_to_map_1 _ k (values_of k pairs)).
    + by destruct (values_of k pairs).
    + rewrite grouped_keys. apply NoDup_remove_dups.
    + unfold grouped. apply list_elem_of_fmap. exists k. split; [done|].
      by apply elem_of_remove_dups.
  - rewrite (proj2 (values_of_nil k pairs) Hnotin).
    apply not_elem_of_list_to_map_1. rewrite grouped_keys.
    by rewrite elem_of_remove_dups.
Qed.

(** The entries of the query map are the query grouped by key. *)
Lemma Query_grouped (u : url.URL) :
  map_to_list (url.Query u) ≡ₚ grouped (url.RawQuery u).
Proof.
  assert (Heq : url.Query u = list_to_map (grouped (url.RawQuery u))).
  { apply map_eq. intros k. by rewrite Query_lookup, grouped_lookup. }
  rewrite Heq. apply map_to_list_to_map.
  rewrite grouped_keys. apply NoDup_remove_dups.
Qed.

(** What the code computes, for every query. *)
Lemma canonicalizeRequest_grouped (httpMethod : string) (u : url.URL) :
  canonicalizeRequest httpMethod u
  = grouped_canonical httpMethod (url.Path u) (url.RawQuery u).
Proof.
  unfold canonicalizeRequest, canonicalizeRequest_in, grouped_canonical.
  rewrite (canonicalQueryString_Permutation _ _ (Query_grouped u)).
  rewrite canonicalQueryString_eq.
  assert (Hentries :
            (fun kv : string * list string => canonicalParam kv.1 kv.2)
              <$> filter (fun kv => kv.1 <> "jwt") (grouped (url.RawQuery u))
            = grouped_entry
                <$> filter (fun kv => kv.1 <> "jwt") (grouped (url.RawQuery u))).
  { apply list_fmap_ext. intros _ [k v] _. apply canonicalParam_eq. }
  by rewrite Hentries.
Qed.

Lemma stated_canonical_Permutation (method path : string)
    (params params' : list (string * string)) :
  params ≡ₚ params' ->
  stated_canonical method path params = stated_canonical method path params'.
Proof.
  intros Hp. unfold stated_canonical.
  rewrite (sort_Strings_Permutation
             (escaped_pair <$> filter (fun kv => kv.1 <> "jwt") params)
             (escaped_pair <$> filter (fun kv => kv.1 <> "jwt") params')); [done|].
  by rewrite Hp.
Qed.

Lemma canonicalizeRequest_distinct (httpMethod : string) (u : url.URL) :
  NoDup (url.RawQuery u).*1 ->
  canonicalizeRequest httpMethod u
  = stated_canonical httpMethod (url.Path u) (url.RawQuery u).
Proof.
  intros Hnd. unfold canonicalizeRequest, canonicalizeRequest_in, stated_canonical.
  rewrite (canonicalQueryString_Permutation _ _ (Query_distinct u Hnd)).
  by rewrite canonicalQueryString_eq, entries_of_pairs.
Qed.

(** C2 (amended).  For every method, path and sequence of parameters,
    the canonical string is the method in upper case, the normalised path
    and the sorted entries of the query joined by [&], with one entry for
    each distinct key other than [jwt]: the escaped key, [=], and the
    escaped concatenation of the key's values in the order supplied.  The
    order in which the entries of the query map are visited does not
    matter, and no entry begins with [jwt=].  For a query whose keys are
    pairwise distinct the entries are the escaped [key=value] pairs of the
    parameters other than [jwt], and the string is the same for every
    order in which the parameters are supplied. *)
Theorem canonical_request (httpMethod : string) (u : url.URL) :
  canonicalizeRequest httpMethod u
  = grouped_canonical httpMethod (url.Path u) (url.RawQuery u)
  /\ (forall visit, visit ≡ₚ map_to_list (url.Query u) ->
        canonicalizeRequest_in visit httpMethod u = canonicalizeRequest httpMethod u)
  /\ (forall e, e ∈ canonicalQueryString (map_to_list (url.Query u)) ->
        strings.HasPrefix e "jwt=" = false)
  /\ (NoDup (url.RawQuery u).*1 ->
      canonicalizeRequest httpMethod u
      = stated_canonical httpMethod (url.Path u) (url.RawQuery u)
      /\ forall u', url.Path u' = url.Path u ->
           url.RawQuery u' ≡ₚ url.RawQuery u ->
           canonicalizeRequest httpMethod u' = canonicalizeRequest httpMethod u).
Proof.
  split; [|split; [|split]].
  - apply canonicalizeRequest_grouped.
  - intros visit Hv. unfold canonicalizeRequest, canonicalizeRequest_in.
    by rewrite (canonicalQueryString_Permutation _ _ Hv).
  - intros e He. rewrite canonicalQueryString_eq in He.
    unfold sort.Strings in He. rewrite merge_sort_Permutation in He.
    apply list_elem_of_fmap in He as ([k v] & -> & Hin).
    apply list_elem_of_filter in Hin as [Hk _].
    by apply canonicalParam_not_jwt.
  - intros Hnd. split; [by apply canonicalizeRequest_distinct|].
    intros u' Hpath Hperm.
    rewrite !canonicalizeRequest_distinct; [| done | by rewrite Hperm].
    rewrite Hpath. by apply stated_canonical_Permutation.
Qed.

Lemma canonical_request_witness :
  let u := url.mkURL "https" "h" "/api/v3/a&b/" [("b", "2 3"); ("jwt", "t"); ("a", "1")] in
  let u' := url.mkURL "https" "h" "/api/v3/a&b/" [("a", "1"); ("b", "2 3"); ("jwt", "t")] in
  canonicalizeRequest "get" u = "GET&/api/v3/a%26b&a=1&b=2%203"
  /\ canonicalizeRequest "get" u' = canonicalizeRequest "get" u.
Proof.
  intros u u'.
  destruct (canonical_request "get" u) as (_ & _ & _ & Hdistinct).
  destruct Hdistinct as [H1 H2].
  - simpl. apply (bool_decide_unpack (NoDup ["b"; "jwt"; "a"])). vm_compute. exact I.
  - split; [rewrite H1; vm_compute; reflexivity|].
    apply H2; [reflexivity|]. simpl. solve_Permutation.
Defined.

(** C2 as stated fails when a key is repeated: its values are joined into
    one entry in the order in which they are supplied, so that the string
    is neither the one of the formula nor independent of the order. *)
Lemma canonical_request_repeated_key :
  let u := url.mkURL "" "" "/x" [("a", "1"); ("a", "2")] in
  let u' := url.mkURL "" "" "/x" [("a", "2"); ("a", "1")] in
  url.RawQuery u' ≡ₚ url.RawQuery u
  /\ canonicalizeRequest "GET" u = "GET&/x&a=12"
  /\ canonicalizeRequest "GET" u' = "GET&/x&a=21"
  /\ stated_canonical "GET" (url.Path u) (url.RawQuery u) = "GET&/x&a=1&a=2"
  /\ canonicalizeRequest "GET" u' <> canonicalizeRequest "GET" u
  /\ canonicalizeRequest "GET" u
     <> stated_canonical "GET" (url.Path u) (url.RawQuery u).
Proof.
  intros u u'. split; [apply Permutation_swap|].
  split; [vm_compute; reflexivity|]. split; [vm_compute; reflexivity|].
  split; [vm_compute; reflexivity|]. split; vm_compute; discriminate.
Qed.

(** ** The round-trippers and the store *)

Section Store.

Import rt.

Lemma fresh_heap (h : store) : h !! fresh (dom h) = None.
Proof. apply not_elem_of_dom. apply is_fresh. Qed.

Lemma slice_at_insert_ne (h : store) (l s : loc) (c : cell) :
  l <> s -> slice_at (<[l := c]> h) s = slice_at h s.
Proof. intros Hne. unfold slice_at. by rewrite lookup_insert_ne. Qed.

Lemma slice_at_Some_lookup (h : store) (s : loc) :
  is_Some (slice_at h s) -> exists v, h !! s = Some (SliceCell v).
Proof.
  unfold slice_at. intros [v Hv].
  destruct (h !! s) as [[]|]; try done. eauto.
Qed.

Lemma owns_put (h0 : store) (rv : Request) (r2 h2 : loc) (w : world)
    (m2 : gmap string loc) (key : string) (v : list string) :
  owns h0 rv r2 h2 w ->
  heap w !! h2 = Some (HeaderCell m2) ->
  owns h0 rv r2 h2 (put w h2 m2 key v)
  /\ header_at (heap (put w h2 m2 key v)) (Some h2)
     = <[key := v]> (header_at (heap w) (Some h2)).
Proof.
  intros (Hframe & Hr2 & Hh2 & Hreq & m2' & Hm2' & Hall) Hm2.
  assert (m2' = m2) as -> by congruence.
  assert (Hs : heap w !! fresh (dom (heap w)) = None) by apply fresh_heap.
  assert (Hput : heap (put w h2 m2 key v)
                 = <[h2 := HeaderCell (<[key := fresh (dom (heap w))]> m2)]>
                     (<[fresh (dom (heap w)) := SliceCell v]> (heap w))) by done.
  revert Hs Hput. generalize (fresh (dom (heap w))). intros s Hs Hput.
  assert (Hsh2 : s <> h2) by (intros ->; congruence).
  assert (Hsr2 : s <> r2) by (intros ->; congruence).
  assert (Hr2h2 : h2 <> r2) by (intros ->; congruence).
  assert (Hold : forall k x, m2 !! k = Some x ->
            slice_at (heap (put w h2 m2 key v)) x = slice_at (heap w) x).
  { intros k x Hx. destruct (Hall k x Hx) as [_ Hsl].
    apply slice_at_Some_lookup in Hsl as [vx Hvx]. rewrite Hput.
    rewrite !slice_at_insert_ne; [done | intros <-; congruence | intros <-; congruence]. }
  assert (Hnew : slice_at (heap (put w h2 m2 key v)) s = Some v).
  { rewrite Hput. unfold slice_at.
    by rewrite lookup_insert_ne, lookup_insert_eq. }
  split.
  - unfold owns. split; [|split; [done|split; [done|split]]].
    + intros l c Hl. rewrite Hput.
      rewrite !lookup_insert_ne; [by apply Hframe | | ].
      * intros <-. apply Hframe in Hl. congruence.
      * intros <-. congruence.
    + rewrite Hput. by rewrite !lookup_insert_ne.
    + exists (<[key := s]> m2). split.
      * rewrite Hput. by rewrite lookup_insert_eq.
      * apply map_Forall_insert_2.
        -- split; [|by rewrite Hnew].
           destruct (h0 !! s) eqn:E; [|done]. apply Hframe in E. congruence.
        -- intros k x Hx. destruct (Hall k x Hx) as [H1 H2].
           split; [done|]. by rewrite (Hold k x Hx).
  - unfold header_at. rewrite Hm2.
    rewrite Hput at 1. rewrite lookup_insert_eq.
    apply map_eq. intros k. rewrite lookup_omap.
    destruct (decide (k = key)) as [->|Hk].
    + rewrite !lookup_insert_eq. simpl. exact Hnew.
    + rewrite !lookup_insert_ne by done. rewrite lookup_omap.
      destruct (m2 !! k) as [x|] eqn:Hx; [|done]. simpl. by apply (Hold k).
Qed.

Lemma Header_Set_owns (h0 : store) (rv : Request) (r2 h2 : loc) (w : world)
    (key value : string) :
  owns h0 rv r2 h2 w ->
  exists w',
    Header_Set (Some h2) key value w = (Return tt, w')
    /\ owns h0 rv r2 h2 w'
    /\ calls w' = calls w /\ ticks w' = ticks w
    /\ header_at (heap w') (Some h2)
       = http.Set_ (header_at (heap w) (Some h2)) key value.
Proof.
  intros Ho. pose proof Ho as (_ & _ & _ & _ & m2 & Hm2 & _).
  exists (put w h2 m2 key [value]).
  destruct (owns_put h0 rv r2 h2 w m2 key [value] Ho Hm2) as [Ho' Hv].
  split; [|done].
  unfold Header_Set, load_Header, alloc, write. run_St. by rewrite Hm2.
Qed.

Lemma Header_Get_owns (h0 : store) (rv : Request) (r2 h2 : loc) (w : world)
    (key : string) :
  owns h0 rv r2 h2 w ->
  Header_Get (Some h2) key w
  = (Return (http.Get (header_at (heap w) (Some h2)) key), w).
Proof.
  intros (_ & _ & _ & _ & m2 & Hm2 & Hall).
  unfold Header_Get, load_Header, load_Slice, http.Get, header_at. run_St.
  rewrite Hm2, lookup_omap. destruct (m2 !! key) as [s|] eqn:Hs; [|done].
  destruct (Hall key s Hs) as [_ Hsl].
  apply slice_at_Some_lookup in Hsl as [v Hv].
  simpl. unfold slice_at. rewrite Hv. by destruct v.
Qed.

Lemma copy_slice_owns (h0 : store) (rv : Request) (r2 h2 : loc) (w : world)
    (ks : string * loc) (v : list string) :
  owns h0 rv r2 h2 w ->
  slice_at h0 ks.2 = Some v ->
  exists w',
    copy_slice h2 ks w = (Return tt, w')
    /\ owns h0 rv r2 h2 w'
    /\ calls w' = calls w /\ ticks w' = ticks w
    /\ header_at (heap w') (Some h2) = <[ks.1 := v]> (header_at (heap w) (Some h2)).
Proof.
  intros Ho Hv. pose proof Ho as (Hframe & _ & _ & _ & m2 & Hm2 & _).
  exists (put w h2 m2 ks.1 v).
  destruct (owns_put h0 rv r2 h2 w m2 ks.1 v Ho Hm2) as [Ho' Hh].
  split; [|done].
  assert (Hs : heap w !! ks.2 = Some (SliceCell v)).
  { apply Hframe. unfold slice_at in Hv.
    destruct (h0 !! ks.2) as [[]|]; congruence. }
  unfold copy_slice, load_Header, load_Slice, alloc, write. run_St.
  rewrite Hs. simpl. rewrite lookup_insert_ne, Hm2; [done|].
  intros Heq. pose proof (fresh_heap (heap w)) as Hf. rewrite Heq in Hf. congruence.
Qed.

Lemma copy_loop (h0 : store) (rv : Request) (r2 h2 : loc)
    (entries : list (string * loc)) (w : world) :
  owns h0 rv r2 h2 w ->
  Forall (fun ks => is_Some (slice_at h0 ks.2)) entries ->
  exists w',
    for_each (copy_slice h2) entries w = (Return tt, w')
    /\ owns h0 rv r2 h2 w'
    /\ calls w' = calls w /\ ticks w' = ticks w
    /\ header_at (heap w') (Some h2)
       = foldl (fun acc ks => <[ks.1 := default [] (slice_at h0 ks.2)]> acc)
           (header_at (heap w) (Some h2)) entries.
Proof.
  revert w. induction entries as [|ks entries IH]; intros w Ho Hall.
  - exists w. split; [done|]. split; [done|]. done.
  - apply Forall_cons in Hall as [[v Hv] Hall].
    destruct (copy_slice_owns h0 rv r2 h2 w ks v Ho Hv)
      as (w1 & Hrun & Ho1 & Hc1 & Ht1 & Hh1).
    destruct (IH w1 Ho1 Hall) as (w' & Hrun' & Ho' & Hc' & Ht' & Hh').
    exists w'. split; [|split; [done|split; [congruence|split; [congruence|]]]].
    + simpl. unfold mbind, St_bind. by rewrite Hrun.
    + rewrite Hh'. cbn [foldl]. by rewrite Hh1, Hv.
Qed.

Lemma foldl_insert_notin {A} (f : loc -> A) (entries : list (string * loc))
    (acc : gmap string A) (k : string) :
  k ∉ entries.*1 ->
  foldl (fun acc ks => <[ks.1 := f ks.2]> acc) acc entries !! k = acc !! k.
Proof.
  revert acc. induction entries as [|ks entries IH]; intros acc Hk; [done|].
  rewrite fmap_cons, not_elem_of_cons in Hk. destruct Hk as [Hne Hk].
  simpl. rewrite IH by done. by rewrite lookup_insert_ne.
Qed.

Lemma foldl_insert_in {A} (f : loc -> A) (entries : list (string * loc))
    (acc : gmap string A) (k : string) (s : loc) :
  NoDup entries.*1 -> (k, s) ∈ entries ->
  foldl (fun acc ks => <[ks.1 := f ks.2]> acc) acc entries !! k = Some (f s).
Proof.
  revert acc. induction entries as [|ks entries IH]; intros acc Hnd Hin.
  - by apply elem_of_nil in Hin.
  - rewrite fmap_cons in Hnd. apply NoDup_cons in Hnd as [Hnotin Hnd].
    apply elem_of_cons in Hin as [<- | Hin]; simpl.
    + rewrite foldl_insert_notin by done. by rewrite lookup_insert_eq.
    + by apply IH.
Qed.

(** Copying the entries of a map one by one gives the map read through
    its slices. *)
Lemma copied_header (h0 : store) (m : gmap string loc) :
  map_Forall (fun _ s => is_Some (slice_at h0 s)) m ->
  foldl (fun acc ks => <[ks.1 := default [] (slice_at h0 ks.2)]> acc) ∅ (map_to_list m)
  = omap (slice_at h0) m.
Proof.
  intros Hall. apply map_eq. intros k. rewrite lookup_omap.
  destruct (m !! k) as [s|] eqn:Hs; simpl.
  - rewrite (foldl_insert_in (fun s => default [] (slice_at h0 s)) _ _ k s).
    + destruct (Hall k s Hs) as [v ->]. done.
    + apply NoDup_fst_map_to_list.
    + by apply elem_of_map_to_list.
  - rewrite (foldl_insert_notin (fun s => default [] (slice_at h0 s))); [done|].
    intros Hin. apply list_elem_of_fmap in Hin as ([k' s'] & -> & Hin).
    apply elem_of_map_to_list in Hin. simpl in Hs. congruence.
Qed.

Lemma cloneRequest_owns (w : world) (req : loc) (rv : Request) :
  heap w !! req = Some (RequestCell rv) ->
  match Header rv with
  | Some l =>
      exists m, heap w !! l = Some (HeaderCell m)
                /\ map_Forall (fun _ s => is_Some (slice_at (heap w) s)) m
  | None => True
  end ->
  exists r2 h2 w',
    cloneRequest req w = (Return r2, w')
    /\ owns (heap w) rv r2 h2 w'
    /\ calls w' = calls w /\ ticks w' = ticks w
    /\ header_at (heap w') (Some h2) = header_at (heap w) (Header rv).
Proof.
  intros Hreq Hhdr.
  set (r2 := fresh (dom (heap w))).
  set (h1 := <[r2 := RequestCell rv]> (heap w)).
  set (h2 := fresh (dom h1)).
  set (w3 := mkWorld
               (<[r2 := RequestCell (mkRequest (Method rv) (URL rv) (Some h2) (Body rv))]>
                  (<[h2 := HeaderCell ∅]> h1))
               (calls w) (ticks w)).
  assert (Hr2 : heap w !! r2 = None) by apply fresh_heap.
  assert (Hh2' : h1 !! h2 = None) by apply fresh_heap.
  assert (Hne : r2 <> h2).
  { intros Heq. rewrite <- Heq in Hh2'. unfold h1 in Hh2'.
    by rewrite lookup_insert_eq in Hh2'. }
  assert (Hh2 : heap w !! h2 = None).
  { unfold h1 in Hh2'. by rewrite lookup_insert_ne in Hh2'. }
  assert (Ho : owns (heap w) rv r2 h2 w3).
  { split; [|split; [done|split; [done|split]]].
    - intros l c Hl. unfold w3, h1. simpl.
      rewrite !lookup_insert_ne; [done | | |]; intros <-; congruence.
    - unfold w3. simpl. by rewrite lookup_insert_eq.
    - exists ∅. split; [|apply map_Forall_empty].
      unfold w3. simpl. by rewrite lookup_insert_ne, lookup_insert_eq. }
  assert (Hempty : header_at (heap w3) (Some h2) = ∅).
  { destruct Ho as (_ & _ & _ & _ & m2 & Hm2 & _).
    unfold w3 in Hm2. simpl in Hm2.
    rewrite lookup_insert_ne, lookup_insert_eq in Hm2 by done.
    unfold header_at, w3. simpl.
    rewrite lookup_insert_ne, lookup_insert_eq by done. apply omap_empty. }
  assert (Hloop : forall entries,
            Forall (fun ks => is_Some (slice_at (heap w) ks.2)) entries ->
            header_at (heap w) (Header rv)
            = foldl (fun acc ks => <[ks.1 := default [] (slice_at (heap w) ks.2)]> acc)
                ∅ entries ->
            (Return entries, mkWorld h1 (calls w) (ticks w))
            = match Header rv with
              | Some h => (m ← load_Header h; mret (map_to_list m))
              | None => mret []
              end (mkWorld h1 (calls w) (ticks w)) ->
            exists w',
              cloneRequest req w = (Return r2, w')
              /\ owns (heap w) rv r2 h2 w'
              /\ calls w' = calls w /\ ticks w' = ticks w
              /\ header_at (heap w') (Some h2) = header_at (heap w) (Header rv)).
  { intros entries Hall Hview Hent.
    destruct (copy_loop (heap w) rv r2 h2 entries w3 Ho Hall)
      as (w' & Hrun & Ho' & Hc & Ht & Hh).
    exists w'. split; [|split; [done|split; [done|split; [done|]]]].
    - unfold cloneRequest, load_Request, alloc, write.
      unfold mbind at 1, St_bind at 1. rewrite Hreq.
      unfold mbind at 1, St_bind at 1. fold r2. fold h1.
      unfold mbind at 1, St_bind at 1. cbn [heap calls ticks]. rewrite <- Hent.
      unfold mbind at 1, St_bind at 1. cbn [heap calls ticks]. fold h2.
      unfold mbind at 1, St_bind at 1. cbn [heap calls ticks].
      unfold mbind at 1, St_bind at 1. fold w3.
      change (for_each _ entries w3) with (for_each (copy_slice h2) entries w3).
      rewrite Hrun. reflexivity.
    - by rewrite Hh, Hempty, Hview. }
  exists r2, h2.
  destruct (Header rv) as [hl|] eqn:Hhl.
  - destruct Hhdr as (m & Hm & Hvalid).
    apply (Hloop (map_to_list m)).
    + apply map_Forall_to_list in Hvalid.
      eapply Forall_impl; [exact Hvalid|]. by intros [k s].
    + unfold header_at. rewrite Hm. symmetry. by apply copied_header.
    + unfold load_Header. run_St. unfold h1.
      rewrite lookup_insert_ne, Hm; [done|]. intros <-. congruence.
  - apply (Hloop []); [constructor | done | done].
Qed.

End Store.

Section Attach.

Import rt.

Context `{GoLib} (net : Network).

Lemma SetBasicAuth_owns (h0 : store) (rv : Request) (r2 h2 : loc) (w : world)
    (user pass : string) :
  owns h0 rv r2 h2 w ->
  exists w',
    SetBasicAuth r2 user pass w = (Return tt, w')
    /\ owns h0 rv r2 h2 w'
    /\ calls w' = calls w /\ ticks w' = ticks w
    /\ header_at (heap w') (Some h2)
       = http.Set_ (header_at (heap w) (Some h2)) "Authorization"
           ("Basic " +:+ basicAuth user pass).
Proof.
  intros Ho. pose proof Ho as (_ & _ & _ & Hr2 & _).
  destruct (Header_Set_owns h0 rv r2 h2 w "Authorization"
              ("Basic " +:+ basicAuth user pass) Ho) as (w' & Hrun & Hrest).
  exists w'. split; [|exact Hrest].
  unfold SetBasicAuth, load_Request. unfold mbind, St_bind. by rewrite Hr2.
Qed.

Lemma AddCookie_owns (h0 : store) (rv : Request) (r2 h2 : loc) (w : world)
    (c : Cookie) :
  owns h0 rv r2 h2 w ->
  exists w',
    AddCookie r2 c w = (Return tt, w')
    /\ owns h0 rv r2 h2 w'
    /\ calls w' = calls w /\ ticks w' = ticks w
    /\ header_at (heap w') (Some h2) = with_cookie (header_at (heap w) (Some h2)) c.
Proof.
  intros Ho. pose proof Ho as (_ & _ & _ & Hr2 & _).
  unfold AddCookie, load_Request, with_cookie. unfold mbind, St_bind.
  rewrite Hr2. cbn [Header]. rewrite (Header_Get_owns h0 rv r2 h2 w "Cookie" Ho).
  case_decide; by apply Header_Set_owns.
Qed.

Lemma add_cookies_owns (h0 : store) (rv : Request) (r2 h2 : loc)
    (cookies : list Cookie) (w : world) :
  owns h0 rv r2 h2 w ->
  exists w',
    for_each (add_cookie r2) cookies w = (Return tt, w')
    /\ owns h0 rv r2 h2 w'
    /\ calls w' = calls w /\ ticks w' = ticks w
    /\ header_at (heap w') (Some h2)
       = foldl with_cookie (header_at (heap w) (Some h2))
           (filter (fun c => Value c <> "") cookies).
Proof.
  revert w. induction cookies as [|c cookies IH]; intros w Ho.
  - exists w. split; [done|]. split; [done|]. done.
  - rewrite filter_cons. cbn [for_each].
    destruct (decide (Value c = "")) as [Hv|Hv].
    + rewrite decide_False by (intros Hn; by apply Hn).
      assert (Hstep : add_cookie r2 c = mret tt).
      { unfold add_cookie. by rewrite decide_True. }
      rewrite Hstep.
      destruct (IH w Ho) as (w' & Hrun & Hrest).
      exists w'. split; [|exact Hrest]. done.
    + rewrite decide_True by done.
      assert (Hstep : add_cookie r2 c = AddCookie r2 c).
      { unfold add_cookie. by rewrite decide_False. }
      rewrite Hstep.
      destruct (AddCookie_owns h0 rv r2 h2 w c Ho) as (w1 & Hrun1 & Ho1 & Hc1 & Ht1 & Hh1).
      destruct (IH w1 Ho1) as (w' & Hrun & Ho' & Hc & Ht & Hh).
      exists w'. split; [|split; [done|split; [congruence|split; [congruence|]]]].
      * unfold mbind, St_bind. by rewrite Hrun1.
      * rewrite Hh. cbn [foldl]. by rewrite Hh1.
Qed.

Lemma with_cookie_other (hdr : http.Header) (c : Cookie) (key : string) :
  key <> "Cookie" -> with_cookie hdr c !! key = hdr !! key.
Proof.
  intros Hk. unfold with_cookie, http.Set_.
  case_decide; by rewrite lookup_insert_ne.
Qed.

Lemma with_cookies_other (cookies : list Cookie) (hdr : http.Header) (key : string) :
  key <> "Cookie" -> foldl with_cookie hdr cookies !! key = hdr !! key.
Proof.
  intros Hk. revert hdr. induction cookies as [|c cookies IH]; intros hdr; [done|].
  cbn [foldl]. by rewrite IH, with_cookie_other.
Qed.

(** From the invariant to the statement about the copy. *)
Lemma owns_fresh_copy (h0 : store) (rv : Request) (req r2 h2 : loc) (w : world) :
  h0 !! req = Some (RequestCell rv) ->
  owns h0 rv r2 h2 w ->
  (forall key, key <> "Authorization" -> key <> "Cookie" ->
     header_at (heap w) (Some h2) !! key = header_at h0 (Header rv) !! key) ->
  (forall l c, h0 !! l = Some c -> heap w !! l = Some c)
  /\ fresh_copy h0 (heap w) req r2.
Proof.
  intros Hreq (Hframe & Hr2 & Hh2 & Hcell & m2 & Hm2 & Hall) Hkeys.
  split; [exact Hframe|].
  exists rv, (mkRequest (Method rv) (URL rv) (Some h2) (Body rv)), h2, m2.
  split_and!; try done.
Qed.

Lemma forward_run (tr : RoundTripper) (req2 : loc) (w : world) :
  forward tr req2 w
  = (Return (tr (heap w) req2), mkWorld (heap w) (calls w ++ [Forward req2]) (ticks w)).
Proof. reflexivity. Qed.

End Attach.

Section RoundTrips.

Import rt.

Context `{GoLib} (net : Network).

Lemma owns_heap (h0 : store) (rv : Request) (r2 h2 : loc) (w w' : world) :
  heap w' = heap w -> owns h0 rv r2 h2 w -> owns h0 rv r2 h2 w'.
Proof. unfold owns. by intros ->. Qed.

Lemma well_formed_header (h : store) (req : loc) :
  well_formed h req ->
  exists rv u,
    h !! req = Some (RequestCell rv)
    /\ h !! URL rv = Some (URLCell u)
    /\ match Header rv with
       | Some l =>
           exists m, h !! l = Some (HeaderCell m)
                     /\ map_Forall (fun _ s => is_Some (slice_at h s)) m
       | None => True
       end.
Proof. done. Qed.

(** [BasicAuthTransport.RoundTrip]: the request is cloned, the clone
    gets the [Authorization] header and goes to the transport. *)
Lemma Basic_RoundTrip_run (t : BasicAuthTransport) (req : loc) (w : world)
    (rv : Request) :
  heap w !! req = Some (RequestCell rv) ->
  well_formed (heap w) req ->
  exists r2 h2 w',
    Basic_RoundTrip net t req w
    = (Return (transport net (Basic_Transport t) (heap w') r2), w')
    /\ owns (heap w) rv r2 h2 w'
    /\ calls w' = calls w ++ [Forward r2]
    /\ header_at (heap w') (Some h2)
       = http.Set_ (header_at (heap w) (Header rv)) "Authorization"
           ("Basic " +:+ basicAuth (Basic_Username t) (Basic_Password t)).
Proof.
  intros Hreq (rv' & u & Hreq' & _ & Hhdr).
  assert (rv' = rv) as -> by congruence.
  destruct (cloneRequest_owns w req rv Hreq Hhdr)
    as (r2 & h2 & w1 & Hclone & Ho1 & Hc1 & Ht1 & Hh1).
  destruct (SetBasicAuth_owns (heap w) rv r2 h2 w1 (Basic_Username t)
              (Basic_Password t) Ho1) as (w2 & Hset & Ho2 & Hc2 & Ht2 & Hh2).
  exists r2, h2, (mkWorld (heap w2) (calls w2 ++ [Forward r2]) (ticks w2)).
  split; [|split; [|split]].
  - unfold Basic_RoundTrip. unfold mbind at 1, St_bind at 1. rewrite Hclone.
    unfold mbind at 1, St_bind at 1. rewrite Hset. by rewrite forward_run.
  - by apply (owns_heap _ _ _ _ w2).
  - simpl. congruence.
  - cbn [heap]. by rewrite Hh2, Hh1.
Qed.

(** The part of [CookieAuthTransport.RoundTrip] after the session has
    been settled. *)
Lemma Cookie_attach_run {A} (tr : option RoundTripper) (cookies : list Cookie)
    (req : loc) (w : world) (rv : Request) (t : A) :
  heap w !! req = Some (RequestCell rv) ->
  well_formed (heap w) req ->
  exists r2 h2 w',
    (req2 ← cloneRequest req;
     for_each (add_cookie req2) cookies;;
     resp ← forward (transport net tr) req2;
     mret (t, resp)) w
    = (Return (t, transport net tr (heap w') r2), w')
    /\ owns (heap w) rv r2 h2 w'
    /\ calls w' = calls w ++ [Forward r2]
    /\ ticks w' = ticks w
    /\ header_at (heap w') (Some h2)
       = foldl with_cookie (header_at (heap w) (Header rv))
           (filter (fun c => Value c <> "") cookies).
Proof.
  intros Hreq (rv' & u & Hreq' & _ & Hhdr).
  assert (rv' = rv) as -> by congruence.
  destruct (cloneRequest_owns w req rv Hreq Hhdr)
    as (r2 & h2 & w1 & Hclone & Ho1 & Hc1 & Ht1 & Hh1).
  destruct (add_cookies_owns (heap w) rv r2 h2 cookies w1 Ho1)
    as (w2 & Hadd & Ho2 & Hc2 & Ht2 & Hh2).
  exists r2, h2, (mkWorld (heap w2) (calls w2 ++ [Forward r2]) (ticks w2)).
  split; [|split; [|split; [|split]]].
  - unfold mbind at 1, St_bind at 1. rewrite Hclone.
    unfold mbind at 1, St_bind at 1. rewrite Hadd.
    unfold mbind at 1, St_bind at 1. by rewrite forward_run.
  - by apply (owns_heap _ _ _ _ w2).
  - simpl. congruence.
  - simpl. congruence.
  - cbn [heap]. by rewrite Hh2, Hh1.
Qed.

(** [JWTAuthTransport.RoundTrip]: the request is cloned; when the token
    is signed the clone gets the [Authorization] header and goes to the
    transport, and otherwise nothing is sent. *)
Lemma JWT_RoundTrip_run (t : JWTAuthTransport) (req : loc) (w : world)
    (rv : Request) :
  heap w !! req = Some (RequestCell rv) ->
  well_formed (heap w) req ->
  exists r2 h2 w' r,
    JWT_RoundTrip net t req w = (Return r, w')
    /\ owns (heap w) rv r2 h2 w'
    /\ (calls w' = calls w
        \/ calls w' = calls w ++ [Forward r2]
           /\ exists jwtStr,
                header_at (heap w') (Some h2)
                = http.Set_ (header_at (heap w) (Header rv)) "Authorization"
                    ("JWT " +:+ jwtStr)).
Proof.
  intros Hreq (rv' & u & Hreq' & Hu & Hhdr).
  assert (rv' = rv) as -> by congruence.
  destruct (cloneRequest_owns w req rv Hreq Hhdr)
    as (r2 & h2 & w1 & Hclone & Ho1 & Hc1 & Ht1 & Hh1).
  pose proof Ho1 as (Hframe & _ & _ & Hr2 & _).
  unfold JWT_RoundTrip. unfold mbind at 1, St_bind at 1. rewrite Hclone.
  unfold load_Request, load_URL, now_Unix.
  unfold mbind at 1, St_bind at 1. rewrite (Hframe _ _ Hreq).
  unfold mbind at 1, St_bind at 1. rewrite Hr2.
  unfold mbind at 1, St_bind at 1. cbn [URL]. rewrite (Hframe _ _ Hu).
  unfold mbind at 1, St_bind at 1. unfold mbind at 1, St_bind at 1.
  cbn [heap calls ticks Header].
  destruct (jwt_SignedString _ _ _ _ _) as [jwtStr|].
  - set (w2 := mkWorld (heap w1) (calls w1) (S (S (ticks w1)))).
    assert (Ho2 : owns (heap w) rv r2 h2 w2) by (by apply (owns_heap _ _ _ _ w1)).
    destruct (Header_Set_owns (heap w) rv r2 h2 w2 "Authorization"
                ("JWT " +:+ jwtStr) Ho2) as (w3 & Hset & Ho3 & Hc3 & Ht3 & Hh3).
    exists r2, h2, (mkWorld (heap w3) (calls w3 ++ [Forward r2]) (ticks w3)).
    eexists. split; [|split].
    + unfold mbind at 1, St_bind at 1. rewrite Hset. by rewrite forward_run.
    + by apply (owns_heap _ _ _ _ w3).
    + right. split; [cbn [calls]; rewrite Hc3; subst w2; cbn [calls]; congruence|].
      exists jwtStr. cbn [heap]. rewrite Hh3. subst w2. cbn [heap]. by rewrite Hh1.
  - exists r2, h2. eexists _, _. split; [reflexivity|]. split.
    + by apply (owns_heap _ _ _ _ w1).
    + left. simpl. congruence.
Qed.

End RoundTrips.

Lemma Set_other (hdr : http.Header) (key value k : string) :
  k <> key -> http.Set_ hdr key value !! k = hdr !! k.
Proof. intros Hk. unfold http.Set_. by rewrite lookup_insert_ne. Qed.

(** The outcome of [CookieAuthTransport.RoundTrip], case by case. *)
Lemma Cookie_RoundTrip_run `{GoLib} (net : rt.Network) (t : rt.CookieAuthTransport)
    (req : rt.loc) (w : rt.world) (rv : rt.Request) :
  rt.heap w !! req = Some (rt.RequestCell rv) ->
  well_formed (rt.heap w) req ->
  match rt.SessionObject t with
  | Some cookies =>
      exists r2 h2 w',
        rt.Cookie_RoundTrip net t req w
        = (Return (t, rt.transport net (rt.Cookie_Transport t) (rt.heap w') r2), w')
        /\ owns (rt.heap w) rv r2 h2 w'
        /\ rt.calls w' = rt.calls w ++ [rt.Forward r2]
        /\ header_at (rt.heap w') (Some h2)
           = foldl with_cookie (header_at (rt.heap w) (rt.Header rv))
               (filter (fun c => Value c <> "") cookies)
  | None =>
      match rt.buildAuthRequest t with
      | inr err =>
          rt.Cookie_RoundTrip net t req w
          = (Return (t, inr (errors_Wrap err "cookieauth: no session object has been set")),
             w)
      | inl login =>
          match rt.authClient_Do net login with
          | inr err =>
              rt.Cookie_RoundTrip net t req w
              = (Return (t, inr (errors_Wrap err
                                   "cookieauth: no session object has been set")),
                 rt.mkWorld (rt.heap w) (rt.calls w ++ [rt.Login login]) (rt.ticks w))
          | inl resp =>
              exists r2 h2 w',
                let t' := rt.mkCookieAuthTransport (rt.Cookie_Username t)
                            (rt.Cookie_Password t) (rt.AuthURL t)
                            (Some (Response_Cookies resp)) (rt.Cookie_Transport t) in
                rt.Cookie_RoundTrip net t req w
                = (Return (t', rt.transport net (rt.Cookie_Transport t) (rt.heap w') r2),
                   w')
                /\ owns (rt.heap w) rv r2 h2 w'
                /\ rt.calls w' = rt.calls w ++ [rt.Login login; rt.Forward r2]
                /\ header_at (rt.heap w') (Some h2)
                   = foldl with_cookie (header_at (rt.heap w) (rt.Header rv))
                       (filter (fun c => Value c <> "") (Response_Cookies resp))
          end
      end
  end.
Proof.
  intros Hreq Hwf. unfold rt.Cookie_RoundTrip.
  destruct (rt.SessionObject t) as [cookies|] eqn:Hsess.
  - destruct (Cookie_attach_run net (rt.Cookie_Transport t) cookies req w rv t Hreq Hwf)
      as (r2 & h2 & w' & Hrun & Ho & Hc & _ & Hh).
    exists r2, h2, w'. split; [|done].
    unfold mbind at 1, St_bind at 1. cbn [mret St_ret]. rewrite Hsess. exact Hrun.
  - unfold rt.setSessionObject.
    destruct (rt.buildAuthRequest t) as [login|err]; [|reflexivity].
    destruct (rt.authClient_Do net login) as [resp|err] eqn:Hdo.
    + set (w1 := rt.mkWorld (rt.heap w) (rt.calls w ++ [rt.Login login]) (rt.ticks w)).
      set (t' := rt.mkCookieAuthTransport (rt.Cookie_Username t) (rt.Cookie_Password t)
                   (rt.AuthURL t) (Some (Response_Cookies resp)) (rt.Cookie_Transport t)).
      destruct (Cookie_attach_run net (rt.Cookie_Transport t) (Response_Cookies resp)
                  req w1 rv t' Hreq Hwf) as (r2 & h2 & w' & Hrun & Ho & Hc & _ & Hh).
      exists r2, h2, w'. split; [|split; [done|split; [|done]]].
      * unfold mbind at 1, St_bind at 1. unfold mbind at 1, St_bind at 1.
        unfold rt.record. exact Hrun.
      * rewrite Hc. unfold w1. simpl. by rewrite <- app_assoc.
    + unfold mbind at 1, St_bind at 1. unfold mbind at 1, St_bind at 1.
      unfold rt.record. reflexivity.
Qed.

Lemma buildAuthRequest_login `{GoLib} (t : rt.CookieAuthTransport) (login : http.Request) :
  rt.buildAuthRequest t = inl login ->
  http.Method login = "POST"
  /\ url_Parse (rt.AuthURL t) = Some (http.URL login)
  /\ http.Body login
     = Some (json_EncodeLogin (rt.Cookie_Username t) (rt.Cookie_Password t))
  /\ http.Header_ login = {[ "Content-Type" := ["application/json"] ]}.
Proof.
  unfold rt.buildAuthRequest, http_NewRequest.
  destruct (http_validMethod "POST"); [|done].
  destruct (url_Parse (rt.AuthURL t)); [|done].
  by intros [= <-].
Qed.

Lemma owns_request_header (h0 : rt.store) (rv : rt.Request) (req r2 h2 : rt.loc)
    (w : rt.world) :
  h0 !! req = Some (rt.RequestCell rv) ->
  owns h0 rv r2 h2 w ->
  request_header (rt.heap w) r2 = header_at (rt.heap w) (Some h2)
  /\ request_header h0 req = header_at h0 (rt.Header rv).
Proof.
  intros Hreq (_ & _ & _ & Hr2 & _). unfold request_header. by rewrite Hr2, Hreq.
Qed.

(** C4 (amended).  With a cached session, [RoundTrip] performs no login:
    its one call is the forwarding of the clone, whose [Cookie] header has
    been extended by exactly the cached cookies with a non-empty value.
    Without a session, once the login request has been built (a POST to
    the auth URL with the JSON credentials), [RoundTrip] performs exactly
    one login call; a transport error of that call is returned, wrapped,
    and nothing is forwarded; any response, whatever its status code,
    gives the session from its cookies, and the clone with those cookies
    is forwarded. *)
Theorem Cookie_session `{GoLib} (net : rt.Network) (t : rt.CookieAuthTransport)
    (req : rt.loc) (w : rt.world) :
  well_formed (rt.heap w) req ->
  (forall cookies, rt.SessionObject t = Some cookies ->
     exists r2 w' r,
       rt.Cookie_RoundTrip net t req w = (Return (t, r), w')
       /\ rt.calls w' = rt.calls w ++ [rt.Forward r2]
       /\ request_header (rt.heap w') r2
          = foldl with_cookie (request_header (rt.heap w) req)
              (filter (fun c => Value c <> "") cookies))
  /\ (forall login, rt.SessionObject t = None -> rt.buildAuthRequest t = inl login ->
        http.Method login = "POST"
        /\ url_Parse (rt.AuthURL t) = Some (http.URL login)
        /\ (forall err, rt.authClient_Do net login = inr err ->
              rt.Cookie_RoundTrip net t req w
              = (Return (t, inr (errors_Wrap err
                                   "cookieauth: no session object has been set")),
                 rt.mkWorld (rt.heap w) (rt.calls w ++ [rt.Login login]) (rt.ticks w)))
        /\ (forall resp, rt.authClient_Do net login = inl resp ->
              exists r2 w' t' r,
                rt.Cookie_RoundTrip net t req w = (Return (t', r), w')
                /\ rt.SessionObject t' = Some (Response_Cookies resp)
                /\ rt.calls w' = rt.calls w ++ [rt.Login login; rt.Forward r2]
                /\ request_header (rt.heap w') r2
                   = foldl with_cookie (request_header (rt.heap w) req)
                       (filter (fun c => Value c <> "") (Response_Cookies resp)))).
Proof.
  intros Hwf. pose proof Hwf as (rv & u & Hreq & _).
  pose proof (Cookie_RoundTrip_run net t req w rv Hreq Hwf) as Hrun.
  split.
  - intros cookies Hsess. rewrite Hsess in Hrun.
    destruct Hrun as (r2 & h2 & w' & Hrun & Ho & Hc & Hh).
    destruct (owns_request_header _ _ req _ _ _ Hreq Ho) as [E1 E2].
    exists r2, w'. eexists. rewrite E1, E2. by split_and!.
  - intros login Hsess Hbuild. rewrite Hsess, Hbuild in Hrun.
    destruct (buildAuthRequest_login t login Hbuild) as (Hm & Hu & _).
    split; [done|]. split; [done|]. split.
    + intros err Hdo. by rewrite Hdo in Hrun.
    + intros resp Hdo. rewrite Hdo in Hrun.
      destruct Hrun as (r2 & h2 & w' & Hrun & Ho & Hc & Hh).
      destruct (owns_request_header _ _ req _ _ _ Hreq Ho) as [E1 E2].
      exists r2, w'. eexists _, _. rewrite E1, E2. by split_and!.
Qed.

Lemma Cookie_session_witness :
  let t := rt.mkCookieAuthTransport "u" "p" "http://h/login"
             (Some [mkCookie "sid" "abc"; mkCookie "empty" ""; mkCookie "lang" "en"])
             None in
  exists r2 w' r,
    rt.Cookie_RoundTrip (sample.net 200 []) t 1%positive sample.a_world
    = (Return (t, r), w')
    /\ rt.calls w' = [rt.Forward r2]
    /\ request_header (rt.heap w') r2 !! "Cookie" = Some ["sid=abc; lang=en"].
Proof.
  intros t.
  destruct (Cookie_session (sample.net 200 []) t 1%positive sample.a_world)
    as [Hcached _].
  - exists (rt.mkRequest "GET" 2%positive (Some 3%positive) None), (url.mkURL "" "" "/x" []).
    split; [reflexivity|]. split; [reflexivity|].
    exists {[ "Accept" := 4%positive ]}. split; [reflexivity|].
    apply map_Forall_singleton. by eexists.
  - destruct (Hcached _ eq_refl) as (r2 & w' & r & Hrun & Hc & Hh).
    exists r2, w', r. split; [exact Hrun|]. split; [exact Hc|].
    rewrite Hh. reflexivity.
Defined.

(** C4 as stated fails: a login answered with status 401 is not an error
    for the transport, which takes the (empty) cookies of the answer as
    its session and forwards the request. *)
Lemma login_status_not_checked :
  let t := rt.mkCookieAuthTransport "u" "p" "http://h/login" None None in
  let net := sample.net 401 [] in
  let out := rt.Cookie_RoundTrip net t 1%positive sample.a_world in
  exists login,
    rt.buildAuthRequest t = inl login
    /\ rt.authClient_Do net login
       = inl (http.mkResponse 401 {[ "Set-Cookie" := [] ]} (sample.body ""))
    /\ out.1 = Return (rt.mkCookieAuthTransport "u" "p" "http://h/login" (Some []) None,
                       inl (http.mkResponse 200 ∅ (sample.body "")))
    /\ rt.calls out.2 = [rt.Login login; rt.Forward 5%positive].
Proof.
  intros t net out. eexists. split; [reflexivity|].
  split; [reflexivity|]. split; vm_compute; reflexivity.
Qed.

(** C3. Whatever the strategy, [RoundTrip] returns without panicking, it
    leaves every cell of the store as it was (the request struct, its
    header map and the slices of the map among them), and a request that
    it forwards is a copy of the input request in new cells: a new struct
    with the same method, URL pointer and body pointer, a new header map,
    and new slices, holding what the input's header map holds and the
    credentials. *)
Theorem RoundTrip_frame `{GoLib} (net : rt.Network) (s : rt.AuthStrategy)
    (req : rt.loc) (w : rt.world) :
  well_formed (rt.heap w) req ->
  exists s' r w' new_calls,
    rt.RoundTrip net s req w = (Return (s', r), w')
    /\ (forall l c, rt.heap w !! l = Some c -> rt.heap w' !! l = Some c)
    /\ rt.calls w' = rt.calls w ++ new_calls
    /\ forall req2, rt.Forward req2 ∈ new_calls ->
         fresh_copy (rt.heap w) (rt.heap w') req req2.
Proof.
  intros Hwf. pose proof Hwf as (rv & u & Hreq & _).
  destruct s as [t|t|t]; unfold rt.RoundTrip.
  - destruct (Basic_RoundTrip_run net t req w rv Hreq Hwf)
      as (r2 & h2 & w' & Hrun & Ho & Hc & Hh).
    destruct (owns_fresh_copy _ _ req _ _ _ Hreq Ho) as [Hframe Hcopy].
    { intros key Hk _. by rewrite Hh, Set_other. }
    eexists _, _, w', [rt.Forward r2]. split_and!; try done.
    + unfold mbind, St_bind. by rewrite Hrun.
    + intros req2 Hin. apply list_elem_of_singleton in Hin. by simplify_eq.
  - pose proof (Cookie_RoundTrip_run net t req w rv Hreq Hwf) as Hrun.
    destruct (rt.SessionObject t) as [cookies|].
    + destruct Hrun as (r2 & h2 & w' & Hrun & Ho & Hc & Hh).
      destruct (owns_fresh_copy _ _ req _ _ _ Hreq Ho) as [Hframe Hcopy].
      { intros key _ Hk. by rewrite Hh, with_cookies_other. }
      eexists _, _, w', [rt.Forward r2]. split_and!; try done.
      * unfold mbind, St_bind. by rewrite Hrun.
      * intros req2 Hin. apply list_elem_of_singleton in Hin. by simplify_eq.
    + destruct (rt.buildAuthRequest t) as [login|err].
      * destruct (rt.authClient_Do net login) as [resp|err].
        -- destruct Hrun as (r2 & h2 & w' & Hrun & Ho & Hc & Hh).
           destruct (owns_fresh_copy _ _ req _ _ _ Hreq Ho) as [Hframe Hcopy].
           { intros key _ Hk. by rewrite Hh, with_cookies_other. }
           eexists _, _, w', [rt.Login login; rt.Forward r2]. split_and!; try done.
           ++ unfold mbind, St_bind. by rewrite Hrun.
           ++ intros req2 Hin. apply elem_of_cons in Hin as [Hin|Hin]; [done|].
              apply list_elem_of_singleton in Hin. by simplify_eq.
        -- eexists _, _, _, [rt.Login login]. split_and!.
           ++ unfold mbind, St_bind. by rewrite Hrun.
           ++ done.
           ++ done.
           ++ intros req2 Hin. apply list_elem_of_singleton in Hin. done.
      * eexists _, _, _, []. split_and!.
        -- unfold mbind, St_bind. by rewrite Hrun.
        -- done.
        -- by rewrite app_nil_r.
        -- intros req2 Hin. by apply elem_of_nil in Hin.
  - destruct (JWT_RoundTrip_run net t req w rv Hreq Hwf)
      as (r2 & h2 & w' & r & Hrun & Ho & Hcalls).
    destruct Hcalls as [Hc | [Hc [jwtStr Hh]]].
    + destruct Ho as (Hframe & _).
      eexists _, _, w', []. split_and!.
      * unfold mbind, St_bind. by rewrite Hrun.
      * done.
      * by rewrite app_nil_r.
      * intros req2 Hin. by apply elem_of_nil in Hin.
    + destruct (owns_fresh_copy _ _ req _ _ _ Hreq Ho) as [Hframe Hcopy].
      { intros key Hk _. by rewrite Hh, Set_other. }
      eexists _, _, w', [rt.Forward r2]. split_and!; try done.
      * unfold mbind, St_bind. by rewrite Hrun.
      * intros req2 Hin. apply list_elem_of_singleton in Hin. by simplify_eq.
Qed.

Lemma RoundTrip_frame_witness :
  exists s' r w' new_calls,
    rt.RoundTrip (sample.net 200 []) (rt.SignedToken (rt.mkJWTAuthTransport "key" "me" None))
      1%positive sample.a_world
    = (Return (s', r), w')
    /\ rt.heap w' !! 1%positive
       = Some (rt.RequestCell (rt.mkRequest "GET" 2%positive (Some 3%positive) None))
    /\ rt.heap w' !! 3%positive = Some (rt.HeaderCell {[ "Accept" := 4%positive ]})
    /\ rt.heap w' !! 4%positive = Some (rt.SliceCell ["*/*"])
    /\ rt.calls w' = new_calls
    /\ forall req2, rt.Forward req2 ∈ new_calls ->
         fresh_copy sample.a_heap (rt.heap w') 1%positive req2.
Proof.
  destruct (RoundTrip_frame (sample.net 200 [])
              (rt.SignedToken (rt.mkJWTAuthTransport "key" "me" None))
              1%positive sample.a_world)
    as (s' & r & w' & new_calls & Hrun & Hframe & Hc & Hcopy).
  - exists (rt.mkRequest "GET" 2%positive (Some 3%positive) None), (url.mkURL "" "" "/x" []).
    split; [reflexivity|]. split; [reflexivity|].
    exists {[ "Accept" := 4%positive ]}. split; [reflexivity|].
    apply map_Forall_singleton. by eexists.
  - exists s', r, w', new_calls. split; [exact Hrun|].
    split; [by apply Hframe|]. split; [by apply Hframe|]. split; [by apply Hframe|].
    split; [exact Hc | exact Hcopy].
Defined.

(** * Further properties *)

(** ** Slashes *)

Lemma HasSuffix_unfold (s suffix : string) :
  HasSuffix s suffix
  = if String.eqb s suffix then true
    else match s with
         | String _ s' => HasSuffix s' suffix
         | EmptyString => false
         end.
Proof. by destruct s. Qed.

Lemma HasSuffix_app (s suffix : string) : HasSuffix (s +:+ suffix) suffix = true.
Proof.
  induction s as [|a s IH].
  - by rewrite app_Empty, HasSuffix_unfold, String.eqb_refl.
  - rewrite app_String, HasSuffix_unfold, IH. by destruct (String.eqb _ _).
Qed.

Lemma with_trailing_slash_suffix (baseURL : string) :
  HasSuffix (with_trailing_slash baseURL) "/" = true.
Proof.
  unfold with_trailing_slash. destruct (HasSuffix baseURL "/") eqn:Hs; [done|].
  apply HasSuffix_app.
Qed.

(** X1. [NewClient] parses a text that ends in a slash: the base URL
    itself when it ends in one, and the base URL with a slash added when
    it does not, so that both spellings give the same client.  The new
    client has that parsed URL as its base, no session and no
    credentials, and the default HTTP client when none is given. *)
Theorem NewClient_trailing_slash `{GoLib}
    (DefaultClient : http.Request -> http.Response + error)
    (httpClient : option (http.Request -> http.Response + error)) (baseURL : string) :
  (HasSuffix baseURL "/" = false ->
   NewClient DefaultClient httpClient baseURL
   = NewClient DefaultClient httpClient (baseURL +:+ "/"))
  /\ (forall c, NewClient DefaultClient httpClient baseURL = inl c ->
        exists text,
          HasSuffix text "/" = true
          /\ (HasSuffix baseURL "/" = true -> text = baseURL)
          /\ url_Parse text = Some (GetBaseURL c)
          /\ session c = None
          /\ username (Authentication c) = ""
          /\ client c = default DefaultClient httpClient)
  /\ (forall e, NewClient DefaultClient httpClient baseURL = inr e ->
        url_Parse (with_trailing_slash baseURL) = None).
Proof.
  split; [|split].
  - intros Hs. unfold NewClient, with_trailing_slash.
    by rewrite Hs, HasSuffix_app.
  - intros c Hc. exists (with_trailing_slash baseURL).
    split; [apply with_trailing_slash_suffix|].
    split; [intros Hs; unfold with_trailing_slash; by rewrite Hs|].
    unfold NewClient in Hc.
    destruct (url_Parse (with_trailing_slash baseURL)) as [u|]; [|done].
    injection Hc as <-. simpl. by destruct httpClient.
  - intros e He. unfold NewClient in He.
    by destruct (url_Parse (with_trailing_slash baseURL)).
Qed.

Lemma TrimRight_slash (s : string) :
  strings.TrimRight (s +:+ "/") "/" = strings.TrimRight s "/".
Proof.
  induction s as [|a s IH]; [done|].
  rewrite app_String. simpl. by rewrite IH.
Qed.

Lemma TrimRight_no_suffix (s : string) :
  HasSuffix (strings.TrimRight s "/") "/" = false.
Proof.
  induction s as [|a s IH]; [done|].
  simpl. destruct (strings.TrimRight s "/") as [|b t] eqn:Ht.
  - destruct (Ascii.eqb a "/") eqn:Ha; [done|].
    simpl. rewrite Ha. done.
  - simpl in IH |- *. destruct (Ascii.eqb a "/"); simpl; exact IH.
Qed.

(** X2. A slash at the end of the end point makes no difference to
    [GetWithContext], [GetListWithContext] and [DeleteWithContext]: they
    trim it before anything else is done with the end point, and the
    trimmed end point never ends in a slash. *)
Theorem trailing_slash_ignored `{GoLib} (objService : handle) (apiEndPoint : string)
    (options : option FilterOptions) (log : list event) :
  GetWithContext objService (apiEndPoint +:+ "/") log
  = GetWithContext objService apiEndPoint log
  /\ GetListWithContext objService (apiEndPoint +:+ "/") options log
     = GetListWithContext objService apiEndPoint options log
  /\ DeleteWithContext objService (apiEndPoint +:+ "/") log
     = DeleteWithContext objService apiEndPoint log
  /\ HasSuffix (strings.TrimRight apiEndPoint "/") "/" = false.
Proof.
  unfold GetWithContext, GetListWithContext, DeleteWithContext.
  rewrite !TrimRight_slash. split_and!; try done. apply TrimRight_no_suffix.
Qed.

(** ** What [Do] and [Download] return *)

Lemma Do_sends `{GoLib} (c : Client) (req : http.Request) (v : option object)
    (log : list event) :
  exists r, Do (Some c) req v log = (Return r, log ++ [Send req]).
Proof.
  unfold Do. unfold mbind, mret, St_bind, St_ret, emit, deref.
  cbn -[newResponse CheckResponse ReadAll].
  destruct (client c req) as [httpResp|e]; [|by eexists].
  destruct (CheckResponse httpResp); [by eexists|].
  destruct v as [target|]; [|by eexists].
  destruct (ReadAll (http.RespBody httpResp)); [|by eexists].
  destruct (json_Unmarshal _ target). by eexists.
Qed.




(** X4. [Download] and [Do] without a struct to decode into agree: they
    send the request once, return the same error, and the response of
    [Do] wraps the response of [Download], with the four counters at
    zero. *)
Theorem Download_Do `{GoLib} (c : Client) (req : http.Request) (log : list event) :
  exists httpResp err,
    Download (Some c) req log = (Return (httpResp, err), log ++ [Send req])
    /\ Do (Some c) req None log
       = (Return ((fun r => Response.mk r 0 0 0 0) <$> httpResp, None, err),
          log ++ [Send req])
    /\ (err = None <->
        exists r, httpResp = Some r /\ 200 <= http.StatusCode r <= 299).
Proof.
  rewrite Do_nil. unfold Download. run_St.
  destruct (client c req) as [r|e].
  - eexists _, _. split; [reflexivity|]. split; [reflexivity|].
    rewrite CheckResponse_None. split.
    + intros Hs. by exists r.
    + by intros (r' & [= <-] & Hs).
  - eexists _, _. split; [reflexivity|]. split; [reflexivity|].
    split; [done | by intros (r' & ? & _)].
Qed.

(** ** No retries *)

Lemma NewRequestWithContext_log `{GoLib} (c : option Client) (method urlStr : string)
    (body : option object) (log : list event) :
  exists r, NewRequestWithContext c method urlStr body log
            = (r, log ++ [Build method urlStr]).
Proof.
  unfold NewRequestWithContext. run_St.
  destruct (url_Parse urlStr); [|by eexists].
  destruct c as [c|]; simpl; [|by eexists].
  destruct (encodeBody body); [|by eexists].
  destruct (newRequestWithContext _ _ _); by eexists.
Qed.

Lemma Do_log `{GoLib} (c : option Client) (req : http.Request) (v : option object)
    (log : list event) :
  exists r, Do c req v log
            = (r, log ++ match c with Some _ => [Send req] | None => [] end).
Proof.
  destruct c as [c|].
  - destruct (Do_sends c req v log) as (r & Hrun). by eexists.
  - rewrite app_nil_r. by eexists.
Qed.

Lemma getObjectAndClient_log `{GoLib} (h : handle) (log : list event) :
  exists r, getObjectAndClient h log = (r, log).
Proof. destruct h as [[] [s|]|]; by eexists. Qed.

Lemma getObjectListAndClient_log `{GoLib} (h : handle) (log : list event) :
  exists r, getObjectListAndClient h log = (r, log).
Proof. destruct h as [[] [s|]|]; by eexists. Qed.

Ltac one_bind H :=
  unfold mbind at 1, St_bind at 1; rewrite H.

Ltac events_done :=
  first
    [ eexists _, [], _; split; [reflexivity|];
      split; [by rewrite ?app_nil_r, <- ?app_assoc|]; by left
    | eexists _, [_], _; split; [reflexivity|];
      split; [by rewrite ?app_nil_r, <- ?app_assoc|]; right; left; by eexists _, _
    | eexists _, [_; _], _; split; [reflexivity|];
      split; [by rewrite ?app_nil_r, <- ?app_assoc|]; right; right; by eexists _, _, _ ].

Lemma GetWithContext_events `{GoLib} (h : handle) (apiEndPoint : string)
    (log : list event) :
  exists r evs log',
    GetWithContext h apiEndPoint log = (r, log')
    /\ log' = log ++ evs /\ at_most_once evs.
Proof.
  unfold GetWithContext.
  destruct (getObjectAndClient_log h log) as [[[cl obj]|msg] H1]; one_bind H1;
    [|events_done].
  destruct cl as [c|]; [|events_done].
  destruct (NewRequestWithContext_log (Some c) "GET"
              (strings.TrimRight apiEndPoint "/") None log) as [[[req|e]|msg] H2];
    one_bind H2; [|events_done..].
  destruct (Do_log (Some c) req obj (log ++ [Build "GET" (strings.TrimRight apiEndPoint "/")]))
    as [[[[resp v'] [e|]]|msg] H3]; one_bind H3; events_done.
Qed.

Lemma GetListWithContext_events `{GoLib} (h : handle) (apiEndPoint : string)
    (options : option FilterOptions) (log : list event) :
  exists r evs log',
    GetListWithContext h apiEndPoint options log = (r, log')
    /\ log' = log ++ evs /\ at_most_once evs.
Proof.
  unfold GetListWithContext.
  destruct (getObjectListAndClient_log h log) as [[[cl obj]|msg] H1]; one_bind H1;
    [|events_done].
  destruct (NewRequestWithContext_log cl "GET"
              (strings.TrimRight apiEndPoint "/") None log) as [[[req|e]|msg] H2];
    one_bind H2; [|events_done..].
  match goal with
  | |- context [Do cl ?r obj] =>
      destruct (Do_log cl r obj (log ++ [Build "GET" (strings.TrimRight apiEndPoint "/")]))
        as [[[[resp v'] [e|]]|msg] H3]
  end; one_bind H3; destruct cl; events_done.
Qed.

Lemma DeleteWithContext_events `{GoLib} (h : handle) (apiEndPoint : string)
    (log : list event) :
  exists r evs log',
    DeleteWithContext h apiEndPoint log = (r, log')
    /\ log' = log ++ evs /\ at_most_once evs.
Proof.
  unfold DeleteWithContext.
  destruct (getObjectAndClient_log h log) as [[[cl obj]|msg] H1]; one_bind H1;
    [|events_done].
  destruct (NewRequestWithContext_log cl "DELETE"
              (strings.TrimRight apiEndPoint "/") None log) as [[[req|e]|msg] H2];
    one_bind H2; [|events_done..].
  destruct (Do_log cl req None (log ++ [Build "DELETE" (strings.TrimRight apiEndPoint "/")]))
    as [[[[resp v'] e]|msg] H3]; one_bind H3; destruct cl; events_done.
Qed.

Lemma CreateWithContext_events `{GoLib} (h : handle) (apiEndPoint : string)
    (log : list event) :
  exists r evs log',
    CreateWithContext h apiEndPoint log = (r, log')
    /\ log' = log ++ evs /\ at_most_once evs.
Proof.
  unfold CreateWithContext.
  destruct (getObjectAndClient_log h log) as [[[cl obj]|msg] H1]; one_bind H1;
    [|events_done].
  destruct (NewRequestWithContext_log cl "POST" apiEndPoint obj log)
    as [[[req|e]|msg] H2]; one_bind H2; [|events_done..].
  destruct (Do_log cl req None (log ++ [Build "POST" apiEndPoint]))
    as [[[[resp v'] [e|]]|msg] H3]; one_bind H3; [destruct cl; events_done| |destruct cl; events_done].
  destruct resp as [resp|]; run_St; [|destruct cl; events_done].
  destruct (ReadAll _); [|destruct cl; events_done].
  destruct obj as [target|]; [|destruct cl; events_done].
  destruct (json_Unmarshal _ _) as [? [?|]]; destruct cl; events_done.
Qed.

(** X5. None of the four generic operations retries: whatever the
    handle, the end point and the answers of the HTTP client, an operation
    calls the request builder at most once and hands at most one request
    to the HTTP client, and none before the builder has been called. *)
Theorem dispatcher_no_retry `{GoLib} (h : handle) (apiEndPoint : string)
    (options : option FilterOptions) (log : list event) :
  (exists r evs, GetWithContext h apiEndPoint log = (r, log ++ evs) /\ at_most_once evs)
  /\ (exists r evs, GetListWithContext h apiEndPoint options log = (r, log ++ evs)
                    /\ at_most_once evs)
  /\ (exists r evs, CreateWithContext h apiEndPoint log = (r, log ++ evs)
                    /\ at_most_once evs)
  /\ (exists r evs, DeleteWithContext h apiEndPoint log = (r, log ++ evs)
                    /\ at_most_once evs).
Proof.
  split_and!.
  - destruct (GetWithContext_events h apiEndPoint log) as (r & evs & ? & -> & -> & ?).
    by exists r, evs.
  - destruct (GetListWithContext_events h apiEndPoint options log)
      as (r & evs & ? & -> & -> & ?). by exists r, evs.
  - destruct (CreateWithContext_events h apiEndPoint log) as (r & evs & ? & -> & -> & ?).
    by exists r, evs.
  - destruct (DeleteWithContext_events h apiEndPoint log) as (r & evs & ? & -> & -> & ?).
    by exists r, evs.
Qed.

(** ** Lists *)

Lemma Encode_prepareFilters (options : FilterOptions) :
  url.Encode (prepareFilters options) = [(paramFilters, filterTemplate options)].
Proof.
  unfold prepareFilters, url.Add. rewrite lookup_empty. cbn [default app].
  unfold url.Encode. rewrite insert_empty, map_to_list_singleton. cbn [map fst].
  change (sort.Strings [paramFilters]) with [paramFilters].
  cbn [mbind list_bind]. rewrite lookup_singleton_eq. reflexivity.
Qed.

(** X6. The case of the wiki-page service is commented out in
    [getObjectListAndClient]: for such a handle, whatever its client,
    [GetListWithContext] calls the builder on a nil client and panics as
    soon as the end point has been parsed; no request reaches the HTTP
    client. *)
Theorem GetList_WikiPage `{GoLib} (p : option Service) (apiEndPoint : string)
    (options : option FilterOptions) (log : list event) :
  GetListWithContext (ServicePtr WikiPage p) apiEndPoint options log
  = (match url_Parse (strings.TrimRight apiEndPoint "/") with
     | Some _ => Panic nil_dereference
     | None => Return (None, None, Some (LibraryError "url.Parse"))
     end,
     log ++ [Build "GET" (strings.TrimRight apiEndPoint "/")]).
Proof.
  unfold GetListWithContext. run_St. rewrite NewRequestWithContext_nil.
  by destruct (url_Parse _).
Qed.

Lemma GetList_built `{GoLib} (c : Client) (apiEndPoint : string) (rel u : url.URL)
    (log : list event) :
  url_Parse (strings.TrimRight apiEndPoint "/") = Some rel ->
  http_validMethod "GET" = true ->
  url_Parse (resolved c rel) = Some u ->
  NewRequestWithContext (Some c) "GET" (strings.TrimRight apiEndPoint "/") None log
  = (Return (inl (list_request c u None)),
     log ++ [Build "GET" (strings.TrimRight apiEndPoint "/")]).
Proof.
  intros Hp Hm Hu.
  rewrite (NewRequestWithContext_built c "GET" _ None rel None
             (http.mkRequest "GET" u ∅ None) log Hp eq_refl).
  - reflexivity.
  - unfold http_NewRequest. by rewrite Hm, Hu.
Qed.

(** X7. For every resource kind but the wiki page, once the builder has
    resolved the end point to a URL, [GetListWithContext] hands exactly
    one request to the HTTP client: a GET of that URL which, when filters
    are given, has the one query parameter [filters] in place of whatever
    query the end point had, and which is the built request otherwise. *)
Theorem GetList_request `{GoLib} (k : Kind) (c : Client) (apiEndPoint : string)
    (options : option FilterOptions) (rel u : url.URL) (log : list event) :
  k <> WikiPage ->
  url_Parse (strings.TrimRight apiEndPoint "/") = Some rel ->
  http_validMethod "GET" = true ->
  url_Parse (resolved c rel) = Some u ->
  exists r,
    GetListWithContext (handle_of k c) apiEndPoint options log
    = (Return r,
       log ++ [Build "GET" (strings.TrimRight apiEndPoint "/");
               Send (list_request c u options)])
    /\ http.Method (list_request c u options) = "GET"
    /\ http.Body (list_request c u options) = None
    /\ http.URL (list_request c u options)
       = match options with
         | Some o => url.with_RawQuery u [("filters", filterTemplate o)]
         | None => u
         end.
Proof.
  intros Hk Hp Hm Hu.
  assert (Hfields : http.Method (list_request c u options) = "GET"
                    /\ http.Body (list_request c u options) = None
                    /\ http.URL (list_request c u options)
                       = match options with
                         | Some o => url.with_RawQuery u [("filters", filterTemplate o)]
                         | None => u
                         end).
  { unfold list_request.
    destruct (setAuthentication_fields c
                (http.mkRequest "GET" u {[ "Content-Type" := ["application/json"] ]} None))
      as (Hmeth & Hurl & Hbody).
    destruct options; simpl; by rewrite ?Hmeth, ?Hurl, ?Hbody. }
  assert (Hreq : match options with
                 | Some o =>
                     http.with_URL (list_request c u None)
                       (url.with_RawQuery (http.URL (list_request c u None))
                          (url.Encode (prepareFilters o)))
                 | None => list_request c u None
                 end = list_request c u options).
  { destruct options; [|done]. by rewrite Encode_prepareFilters. }
  unfold GetListWithContext.
  assert (Hobj : exists obj, getObjectListAndClient (handle_of k c) log
                             = (Return (Some c, obj), log)).
  { destruct k; try done; by eexists. }
  destruct Hobj as [obj Hobj]. one_bind Hobj.
  one_bind (GetList_built c apiEndPoint rel u log Hp Hm Hu).
  rewrite Hreq.
  destruct (Do_sends c (list_request c u options) obj
              (log ++ [Build "GET" (strings.TrimRight apiEndPoint "/")]))
    as ([[resp v'] err] & Hrun).
  one_bind Hrun. rewrite <- app_assoc.
  destruct err; by eexists.
Qed.

Lemma GetList_request_witness :
  let c := sample.a_client sample.no_auth 200 "{}" in
  let options := Some (mkFilterOptions [mkOptionsFields "status" Equal "open"]) in
  let u := url.mkURL "https" "op.example" "/api/v3/users" [] in
  exists r,
    GetListWithContext (handle_of User c) "api/v3/users/" options []
    = (Return r, [Build "GET" "api/v3/users"; Send (list_request c u options)])
    /\ http.Method (list_request c u options) = "GET"
    /\ http.Body (list_request c u options) = None
    /\ http.URL (list_request c u options)
       = url.with_RawQuery u
           [("filters", filterTemplate (mkFilterOptions [mkOptionsFields "status" Equal "open"]))].
Proof.
  intros c options u.
  exact (GetList_request User c "api/v3/users/" options
           (url.mkURL "" "" "api/v3/users" []) u []
           ltac:(discriminate) eq_refl eq_refl eq_refl).
Defined.

(** ** The separators of the canonical request *)

Lemma count_byte_app (c : ascii) (s t : string) :
  (count_byte c (s +:+ t) = count_byte c s + count_byte c t)%nat.
Proof.
  induction s as [|a s IH]; [done|].
  rewrite app_String. simpl. rewrite IH. lia.
Qed.

Lemma count_byte_Replace (c : ascii) (s new : string) :
  count_byte c new = 0%nat -> count_byte c (strings.Replace s c new) = 0%nat.
Proof.
  intros Hnew. induction s as [|a s IH]; [done|].
  simpl. destruct (Ascii.eqb a c) eqn:Ha.
  - rewrite count_byte_app. lia.
  - simpl. rewrite Ha. lia.
Qed.

Lemma count_byte_escape (a : ascii) :
  count_byte "&" (strings.Replace (url.escape_byte a) "+" "%20") = 0%nat.
Proof. destruct a as [[] [] [] [] [] [] [] []]; vm_compute; reflexivity. Qed.

Lemma count_byte_percent_escape (s : string) :
  count_byte "&" (percent_escape s) = 0%nat.
Proof.
  induction s as [|a s IH]; [done|].
  rewrite percent_escape_String, count_byte_app, count_byte_escape. exact IH.
Qed.

Lemma count_byte_canonicalParam (k : string) (v : list string) :
  count_byte "&" (canonicalParam k v) = 0%nat.
Proof.
  rewrite canonicalParam_eq, count_byte_app. simpl.
  by rewrite !count_byte_percent_escape.
Qed.

Lemma count_byte_upper (a : ascii) :
  Ascii.eqb (strings.upper_byte a) "&" = Ascii.eqb a "&".
Proof. destruct a as [[] [] [] [] [] [] [] []]; vm_compute; reflexivity. Qed.

Lemma count_byte_ToUpper (s : string) :
  count_byte "&" (strings.ToUpper s) = count_byte "&" s.
Proof.
  induction s as [|a s IH]; [done|].
  simpl. by rewrite count_byte_upper, IH.
Qed.

Lemma count_byte_Join (elems : list string) :
  Forall (fun e => count_byte "&" e = 0%nat) elems ->
  count_byte "&" (strings.Join elems "&") = (length elems - 1)%nat.
Proof.
  induction 1 as [|e elems He Hall IH]; [done|].
  destruct elems as [|e' elems].
  - simpl. lia.
  - change (strings.Join (e :: e' :: elems) "&")
      with (e +:+ "&" +:+ strings.Join (e' :: elems) "&").
    rewrite !count_byte_app, He, IH. simpl. lia.
Qed.

(** X8. The canonical request can be taken apart at its [&]: whatever
    the path and the query, the ampersands of the canonical string are
    those of the method, the two that set off the path, and one between
    two entries of the query.  There is one entry for each key visited
    that is not [jwt], and neither the path part nor an entry holds an
    ampersand of its own. *)
Theorem canonical_request_separators (visit : list (string * list string))
    (httpMethod : string) (openprojURL : url.URL) :
  count_byte "&" (canonicalizeRequest_in visit httpMethod openprojURL)
  = (count_byte "&" httpMethod + 2 + (length (canonicalQueryString visit) - 1))%nat
  /\ length (canonicalQueryString visit)
     = length (filter (fun kv => kv.1 <> "jwt") visit)
  /\ Forall (fun e => count_byte "&" e = 0%nat) (canonicalQueryString visit).
Proof.
  assert (Hall : Forall (fun e => count_byte "&" e = 0%nat) (canonicalQueryString visit)).
  { rewrite canonicalQueryString_eq. unfold sort.Strings.
    rewrite merge_sort_Permutation. apply Forall_fmap, Forall_forall.
    intros [k v] _. apply count_byte_canonicalParam. }
  split_and!; [|..|exact Hall].
  - unfold canonicalizeRequest_in.
    rewrite !count_byte_app, count_byte_ToUpper, (count_byte_Join _ Hall).
    rewrite (count_byte_Replace "&" _ "%26" eq_refl). simpl. lia.
  - rewrite canonicalQueryString_eq. unfold sort.Strings.
    by rewrite merge_sort_Permutation, length_fmap.
Qed.

(** ** Decoding dates and timestamps *)

Lemma isDigit_digit (a : ascii) :
  time.isDigit a = true ->
  0 <= time.digit_value a < 10 /\ time.digit (time.digit_value a) = a.
Proof.
  assert (Hall : (if time.isDigit a
                  then (0 <=? time.digit_value a) && (time.digit_value a <? 10)
                       && Ascii.eqb (time.digit (time.digit_value a)) a
                  else true) = true).
  { destruct a as [[] [] [] [] [] [] [] []]; vm_compute; reflexivity. }
  intros Ha. rewrite Ha in Hall.
  apply andb_prop in Hall as [Hb He]. apply andb_prop in Hb as [Hlo Hhi].
  apply Ascii.eqb_eq in He. split; [lia | exact He].
Qed.

Lemma two_digit_text_ok (a b : Z) :
  0 <= a < 10 -> 0 <= b < 10 -> two_digit_text a b = true.
Proof.
  intros Ha Hb.
  apply (below_forallb (two_digit_text a) 10); [|lia].
  apply (below_forallb (fun a => forallb (two_digit_text a) ten) 10); [|lia].
  vm_compute; reflexivity.
Qed.

Lemma four_digit_text_ok (a b c d : Z) :
  0 <= a < 10 -> 0 <= b < 10 -> 0 <= c < 10 -> 0 <= d < 10 ->
  four_digit_text a b c d = true.
Proof.
  intros Ha Hb Hc Hd.
  apply (below_forallb (four_digit_text a b c) 10); [|lia].
  apply (below_forallb (fun c => forallb (four_digit_text a b c) ten) 10); [|lia].
  apply (below_forallb
           (fun b => forallb (fun c => forallb (four_digit_text a b c) ten) ten) 10);
    [|lia].
  apply (below_forallb
           (fun a => forallb (fun b => forallb (fun c =>
              forallb (four_digit_text a b c) ten) ten) ten) 10); [|lia].
  vm_compute; reflexivity.
Qed.

Lemma skip_Some (s prefix rest : string) :
  time.skip s prefix = Some rest -> s = prefix +:+ rest.
Proof.
  revert s. induction prefix as [|p prefix IH]; intros s Hs.
  - simpl in Hs. by injection Hs as ->.
  - destruct s as [|a s]; [done|]. simpl in Hs.
    destruct (Ascii.eqb a p) eqn:Ha; [|done].
    apply Ascii.eqb_eq in Ha as ->. by rewrite app_String, <- (IH s Hs).
Qed.

Lemma getyear_Some (s rest : string) (y : Z) :
  time.getyear s = Some (y, rest) ->
  0 <= y <= 9999 /\ s = time.appendInt y 4 +:+ rest.
Proof.
  destruct s as [|a [|b [|c [|d r]]]]; try done. simpl.
  destruct (time.isDigit a) eqn:Ha; [|done].
  destruct (time.isDigit b) eqn:Hb; [|done].
  destruct (time.isDigit c) eqn:Hc; [|done].
  destruct (time.isDigit d) eqn:Hd; [|done].
  simpl. intros Hy.
  destruct (isDigit_digit a Ha) as [Ra Ea]. destruct (isDigit_digit b Hb) as [Rb Eb].
  destruct (isDigit_digit c Hc) as [Rc Ec]. destruct (isDigit_digit d Hd) as [Rd Ed].
  pose proof (four_digit_text_ok _ _ _ _ Ra Rb Rc Rd) as Ht.
  unfold four_digit_text in Ht. apply String.eqb_eq in Ht.
  rewrite Ea, Eb, Ec, Ed in Ht.
  injection Hy as <- <-. split; [lia|]. by rewrite Ht.
Qed.

Lemma getnum_fixed_Some (s rest : string) (x : Z) :
  time.getnum s true = Some (x, rest) ->
  0 <= x <= 99 /\ s = time.appendInt x 2 +:+ rest.
Proof.
  destruct s as [|a [|b r]]; try done; simpl.
  - by destruct (time.isDigit a).
  - destruct (time.isDigit a) eqn:Ha; [|done].
    destruct (time.isDigit b) eqn:Hb; [|done].
    intros Hx.
    destruct (isDigit_digit a Ha) as [Ra Ea]. destruct (isDigit_digit b Hb) as [Rb Eb].
    pose proof (two_digit_text_ok _ _ Ra Rb) as Ht.
    unfold two_digit_text in Ht. apply String.eqb_eq in Ht.
    rewrite Ea, Eb in Ht.
    injection Hx as <- <-. split; [lia|]. by rewrite Ht.
Qed.

Lemma in_range_Some (lo x hi : Z) : time.in_range lo x hi = Some tt -> lo <= x <= hi.
Proof.
  unfold time.in_range. destruct ((lo <=? x) && (x <=? hi)) eqn:Hr; [|done].
  apply andb_prop in Hr as [Hlo Hhi]. lia.
Qed.

Lemma end_of_value_Some (s : string) : time.end_of_value s = Some tt -> s = "".
Proof. by destruct s. Qed.

Lemma valid_fields (y m d hh mm ss ns : Z) :
  1 <= m <= 12 -> 1 <= d <= time.daysIn m y -> 0 <= hh <= 23 -> 0 <= mm <= 59 ->
  0 <= ss <= 59 -> 0 <= ns < 1000000000 ->
  time.valid (time.mkTime y m d hh mm ss ns 0) = true.
Proof.
  intros. unfold time.valid. simpl.
  rewrite !andb_true_iff, !Z.leb_le, !Z.ltb_lt. lia.
Qed.

Lemma Parse_date_Some (b : string) (t : time.Time) :
  time.Parse_date b = Some t ->
  time.Format_date t = b
  /\ time.valid t = true
  /\ 0 <= time.year t <= 9999
  /\ t = time.mkTime (time.year t) (time.month t) (time.day t) 0 0 0 0 0.
Proof.
  unfold time.Parse_date. intros Hp.
  apply bind_Some in Hp as (b1 & H1 & Hp). apply skip_Some in H1.
  apply bind_Some in Hp as ([y b2] & H2 & Hp). apply getyear_Some in H2 as [Ry H2].
  apply bind_Some in Hp as (b3 & H3 & Hp). apply skip_Some in H3.
  apply bind_Some in Hp as ([m b4] & H4 & Hp). apply getnum_fixed_Some in H4 as [Rm H4].
  apply bind_Some in Hp as ([] & H5 & Hp). apply in_range_Some in H5.
  apply bind_Some in Hp as (b6 & H6 & Hp). apply skip_Some in H6.
  apply bind_Some in Hp as ([d b7] & H7 & Hp). apply getnum_fixed_Some in H7 as [Rd H7].
  apply bind_Some in Hp as (b8 & H8 & Hp). apply skip_Some in H8.
  apply bind_Some in Hp as ([] & H9 & Hp). apply end_of_value_Some in H9.
  apply bind_Some in Hp as ([] & H10 & Hp). apply in_range_Some in H10.
  injection Hp as <-. simpl.
  split_and!; [|by apply valid_fields|lia|lia|done].
  unfold time.Format_date. simpl.
  rewrite H1, H2, H3, H4, H6, H7, H8, H9.
  by rewrite ?app_String, ?app_Empty, ?app_assoc_string, ?app_String, ?app_Empty.
Qed.

(** X9. A text that [Date.UnmarshalJSON] accepts, other than [null], is
    the encoding of the date it gives: [Date.MarshalJSON] of the decoded
    date is the very text that was decoded.  The decoded date is a
    calendar date of the years 0 to 9999 at midnight UTC. *)
Theorem Date_decode_encode (t0 d : Date) (b : string) :
  b <> "null" ->
  Date_UnmarshalJSON t0 b = (d, None) ->
  Date_MarshalJSON d = b
  /\ time.valid d = true
  /\ 0 <= time.year d <= 9999
  /\ d = time.mkTime (time.year d) (time.month d) (time.day d) 0 0 0 0 0.
Proof.
  intros Hnull. unfold Date_UnmarshalJSON, Date_MarshalJSON.
  case_decide; [done|].
  destruct (time.Parse_date b) as [ti|] eqn:Hp; [|done].
  intros Hd. injection Hd as <-. by apply Parse_date_Some.
Qed.

Lemma Date_decode_encode_witness :
  let b := String "034" ("2020-02-29" +:+ String "034" "") in
  Date_MarshalJSON (time.mkTime 2020 2 29 0 0 0 0 0) = b.
Proof.
  intros b.
  exact (proj1 (Date_decode_encode time.zero (time.mkTime 2020 2 29 0 0 0 0 0) b
                  ltac:(discriminate) eq_refl)).
Defined.

Lemma getnum_Some (s rest : string) (fixed : bool) (x : Z) :
  time.getnum s fixed = Some (x, rest) -> 0 <= x <= 99.
Proof.
  destruct s as [|a [|b r]]; try done; simpl.
  - destruct (time.isDigit a) eqn:Ha; [|done].
    destruct (isDigit_digit a Ha) as [Ra _].
    destruct fixed; [done|]. intros Hx. injection Hx as <- _. lia.
  - destruct (time.isDigit a) eqn:Ha; [|done].
    destruct (isDigit_digit a Ha) as [Ra _].
    destruct (time.isDigit b) eqn:Hb.
    + destruct (isDigit_digit b Hb) as [Rb _].
      intros Hx. injection Hx as <- _. lia.
    + destruct fixed; [done|]. intros Hx. injection Hx as <- _. lia.
Qed.

Lemma leading_digits_Forall (s : string) :
  Forall (fun d => 0 <= d < 10) (time.leading_digits s).1.
Proof.
  induction s as [|a s IH]; [by constructor|].
  simpl. destruct (time.isDigit a) eqn:Ha; [|by constructor].
  destruct (time.leading_digits s) as [ds rest]. simpl in *.
  constructor; [|exact IH]. by destruct (isDigit_digit a Ha).
Qed.

Lemma digits_value_bound (l : list Z) (n : Z) :
  Forall (fun d => 0 <= d < 10) l -> 0 <= n ->
  0 <= foldl (fun n d => n * 10 + d) n l
  /\ foldl (fun n d => n * 10 + d) n l + 1 <= (n + 1) * 10 ^ Z.of_nat (length l).
Proof.
  intros Hl. revert n. induction Hl as [|d l Hd Hl IH]; intros n Hn.
  - simpl. lia.
  - cbn [foldl length]. destruct (IH (n * 10 + d) ltac:(lia)) as [Hlo Hhi].
    split; [exact Hlo|].
    rewrite Nat2Z.inj_succ, Z.pow_succ_r by lia.
    assert (Hp : 0 < 10 ^ Z.of_nat (length l)) by (apply Z.pow_pos_nonneg; lia).
    nia.
Qed.

Lemma fraction_bounds (s rest : string) (ns : Z) :
  time.fraction s = (ns, rest) -> 0 <= ns < 1000000000.
Proof.
  destruct s as [|a s]; unfold time.fraction.
  - intros Hf. injection Hf as <- _. lia.
  - destruct (Ascii.eqb a "." || Ascii.eqb a ","); [|intros Hf; injection Hf as <- _; lia].
    pose proof (leading_digits_Forall s) as Hds.
    destruct (time.leading_digits s) as [[|d ds] r]; simpl in Hds.
    + intros Hf. injection Hf as <- _. lia.
    + intros Hf. injection Hf as <- _.
      set (used := take 9 (d :: ds)).
      assert (Hused : Forall (fun d => 0 <= d < 10) used) by by apply Forall_take.
      assert (Hlen : (length used <= 9)%nat).
      { unfold used. rewrite length_take. lia. }
      destruct (digits_value_bound used 0 Hused ltac:(lia)) as [Hlo Hhi].
      assert (Hp : 0 < 10 ^ Z.of_nat (9 - length used)) by (apply Z.pow_pos_nonneg; lia).
      assert (Hq : 10 ^ Z.of_nat (length used) * 10 ^ Z.of_nat (9 - length used)
                   = 1000000000).
      { rewrite <- Z.pow_add_r by lia.
        replace (Z.of_nat (length used) + Z.of_nat (9 - length used)) with 9 by lia.
        reflexivity. }
      change (0 <= foldl (fun n d => n * 10 + d) 0 used
                   * 10 ^ Z.of_nat (9 - length used) < 1000000000).
      split; [apply Z.mul_nonneg_nonneg; lia|].
      rewrite <- Hq. apply Z.mul_lt_mono_pos_r; lia.
Qed.

Lemma Parse_timestamp_Some (b : string) (t : time.Time) :
  time.Parse_timestamp b = Some t ->
  time.valid t = true /\ 0 <= time.year t <= 9999 /\ time.offset t = 0.
Proof.
  unfold time.Parse_timestamp. intros Hp.
  apply bind_Some in Hp as (b1 & _ & Hp).
  apply bind_Some in Hp as ([y b2] & H2 & Hp). apply getyear_Some in H2 as [Ry _].
  apply bind_Some in Hp as (b3 & _ & Hp).
  apply bind_Some in Hp as ([m b4] & _ & Hp).
  apply bind_Some in Hp as ([] & Rm & Hp). apply in_range_Some in Rm.
  apply bind_Some in Hp as (b6 & _ & Hp).
  apply bind_Some in Hp as ([d b7] & _ & Hp).
  apply bind_Some in Hp as (b8 & _ & Hp).
  apply bind_Some in Hp as ([hh b9] & _ & Hp).
  apply bind_Some in Hp as ([] & Rh & Hp). apply in_range_Some in Rh.
  apply bind_Some in Hp as (b10 & _ & Hp).
  apply bind_Some in Hp as ([mm b11] & _ & Hp).
  apply bind_Some in Hp as ([] & Rmm & Hp). apply in_range_Some in Rmm.
  apply bind_Some in Hp as (b12 & _ & Hp).
  apply bind_Some in Hp as ([ss b13] & _ & Hp).
  apply bind_Some in Hp as ([] & Rss & Hp). apply in_range_Some in Rss.
  destruct (time.fraction b13) as [ns b14] eqn:Hf. apply fraction_bounds in Hf.
  apply bind_Some in Hp as (b15 & _ & Hp).
  apply bind_Some in Hp as ([] & _ & Hp).
  apply bind_Some in Hp as ([] & Rd & Hp). apply in_range_Some in Rd.
  injection Hp as <-. simpl.
  split_and!; [by apply valid_fields|lia|lia|done].
Qed.

(** X10. What [Time.UnmarshalJSON] decodes from a text other than [null]
    is a time of the calendar and the clock, in UTC, of the years 0 to
    9999.  Encoding it and decoding the result gives it back without its
    nanoseconds: a fraction of a second in the text is read, and lost
    when the time is written again. *)
Theorem Time_decode (t0 t1 t : Time) (b : string) :
  b <> "null" ->
  Time_UnmarshalJSON t0 b = (t, None) ->
  time.valid t = true
  /\ time.offset t = 0
  /\ 0 <= time.year t <= 9999
  /\ Time_UnmarshalJSON t1 (Time_MarshalJSON t)
     = (time.mkTime (time.year t) (time.month t) (time.day t) (time.hour t)
          (time.minute t) (time.second t) 0 0, None)
  /\ (Time_UnmarshalJSON t1 (Time_MarshalJSON t) = (t, None)
      <-> time.nanosecond t = 0).
Proof.
  intros Hnull. unfold Time_UnmarshalJSON at 1.
  case_decide; [done|].
  destruct (time.Parse_timestamp b) as [ti|] eqn:Hp; [|done].
  intros Ht. injection Ht as <-.
  destruct (Parse_timestamp_Some b ti Hp) as (Hv & Hy & Ho).
  assert (Hagain : Time_UnmarshalJSON t1 (Time_MarshalJSON ti)
                   = (time.mkTime (time.year ti) (time.month ti) (time.day ti)
                        (time.hour ti) (time.minute ti) (time.second ti) 0 0, None)).
  { unfold Time_UnmarshalJSON, Time_MarshalJSON.
    rewrite (Parse_Format_timestamp ti Hv Hy).
    case_decide as Hn; [|done]. unfold time.Format_timestamp in Hn. discriminate. }
  split_and!; try done; try lia.
  rewrite Hagain. destruct ti as [y m d hh mm ss ns off]. simpl in *. subst off.
  split.
  - intros Heq. by injection Heq.
  - by intros ->.
Qed.

Lemma Time_decode_witness :
  let b := String "034" ("2020-02-29T7:05:09.25Z" +:+ String "034" "") in
  let t := time.mkTime 2020 2 29 7 5 9 250000000 0 in
  Time_UnmarshalJSON time.zero b = (t, None)
  /\ Time_UnmarshalJSON time.zero (Time_MarshalJSON t)
     = (time.mkTime 2020 2 29 7 5 9 0 0, None).
Proof.
  intros b t. split; [reflexivity|].
  exact (proj1 (proj2 (proj2 (proj2
           (Time_decode time.zero time.zero t b ltac:(discriminate) eq_refl))))).
Defined.

(** ** What the round-trippers attach *)

Section Transports.

Import rt.

Context `{GoLib} (net : Network).

Lemma well_formed_frame (h h' : store) (req : loc) :
  (forall l c, h !! l = Some c -> h' !! l = Some c) ->
  well_formed h req -> well_formed h' req.
Proof.
  intros Hf (rv & u & Hreq & Hu & Hhdr). exists rv, u.
  split; [by apply Hf|]. split; [by apply Hf|].
  destruct (Header rv) as [l|]; [|done].
  destruct Hhdr as (m & Hm & Hall). exists m. split; [by apply Hf|].
  eapply map_Forall_impl; [exact Hall|].
  intros k s [v Hs]. exists v. unfold slice_at in *.
  destruct (h !! s) as [c|] eqn:Hc; [|done]. by rewrite (Hf _ _ Hc).
Qed.

Lemma request_header_frame (h h' : store) (req : loc) :
  (forall l c, h !! l = Some c -> h' !! l = Some c) ->
  well_formed h req -> request_header h' req = request_header h req.
Proof.
  intros Hf (rv & u & Hreq & Hu & Hhdr). unfold request_header.
  rewrite Hreq, (Hf _ _ Hreq). unfold header_at.
  destruct (Header rv) as [l|]; [|done].
  destruct Hhdr as (m & Hm & Hall). rewrite Hm, (Hf _ _ Hm).
  apply map_eq. intros k. rewrite !lookup_omap.
  destruct (m !! k) as [s|] eqn:Hk; [|done]. simpl.
  destruct (Hall k s Hk) as [v Hs]. unfold slice_at in *.
  destruct (h !! s) as [c|] eqn:Hc; [|done]. by rewrite (Hf _ _ Hc).
Qed.

(** X11. [BasicAuthTransport.RoundTrip] forwards exactly one request, a
    clone whose [Authorization] header is [Basic] and the encoded
    credentials, whatever the credentials are (an empty user name
    included) and whatever [Authorization] the caller had set; the other
    headers are the caller's, the caller's request keeps its own headers,
    and the result is the answer of the underlying transport. *)
Theorem Basic_RoundTrip_header (t : BasicAuthTransport) (req : loc) (w : world) :
  well_formed (heap w) req ->
  exists r2 w',
    Basic_RoundTrip net t req w
    = (Return (transport net (Basic_Transport t) (heap w') r2), w')
    /\ calls w' = calls w ++ [Forward r2]
    /\ request_header (heap w') r2 !! "Authorization"
       = Some ["Basic " +:+ basicAuth (Basic_Username t) (Basic_Password t)]
    /\ (forall key, key <> "Authorization" ->
          request_header (heap w') r2 !! key = request_header (heap w) req !! key)
    /\ request_header (heap w') req = request_header (heap w) req.
Proof.
  intros Hwf. pose proof Hwf as (rv & u & Hreq & _).
  destruct (Basic_RoundTrip_run net t req w rv Hreq Hwf)
    as (r2 & h2 & w' & Hrun & Ho & Hc & Hh).
  destruct (owns_request_header _ _ req _ _ _ Hreq Ho) as [E1 E2].
  exists r2, w'. rewrite E1, E2, Hh. split_and!; try done.
  - unfold http.Set_. by rewrite lookup_insert_eq.
  - intros key Hk. by rewrite Set_other.
  - rewrite <- E2. apply request_header_frame; [|done]. by destruct Ho.
Qed.

(** X12. [JWTAuthTransport.RoundTrip] reads the clock twice, once for
    the time of issue and once more for the expiry, which is 59 seconds
    after the second reading; the token is signed over the issuer, these
    two times and the hash of the canonical request of the method and URL
    of the request.  When signing succeeds, one request is forwarded, a
    clone whose [Authorization] header is [JWT] and the token; when it
    fails, nothing is forwarded and the error is returned. *)
Theorem JWT_RoundTrip_token (t : JWTAuthTransport) (req : loc) (w : world)
    (rv : Request) (u : url.URL) :
  heap w !! req = Some (RequestCell rv) ->
  heap w !! URL rv = Some (URLCell u) ->
  well_formed (heap w) req ->
  exists r2 w',
    ticks w' = S (S (ticks w))
    /\ request_header (heap w') req = request_header (heap w) req
    /\ match jwt_SignedString (Issuer t) (time_Now net (ticks w))
               (time_Now net (S (ticks w)) + 59)
               (sha256_hex (canonicalizeRequest (Method rv) u)) (Secret t) with
       | Some jwtStr =>
           JWT_RoundTrip net t req w
           = (Return (transport net (JWT_Transport t) (heap w') r2), w')
           /\ calls w' = calls w ++ [Forward r2]
           /\ request_header (heap w') r2
              = http.Set_ (request_header (heap w) req) "Authorization"
                  ("JWT " +:+ jwtStr)
       | None =>
           JWT_RoundTrip net t req w
           = (Return (inr (errors_Wrap (LibraryError "jwt") "jwtAuth: error signing JWT")),
              w')
           /\ calls w' = calls w
       end.
Proof.
  intros Hreq Hu Hwf. pose proof Hwf as (rv' & u' & Hreq' & _ & Hhdr).
  assert (rv' = rv) as -> by congruence.
  destruct (cloneRequest_owns w req rv Hreq Hhdr)
    as (r2 & h2 & w1 & Hclone & Ho1 & Hc1 & Ht1 & Hh1).
  pose proof Ho1 as (Hframe & _ & _ & Hr2 & _).
  set (w2 := mkWorld (heap w1) (calls w1) (S (S (ticks w)))).
  assert (Hrun : JWT_RoundTrip net t req w
                 = match jwt_SignedString (Issuer t) (time_Now net (ticks w))
                           (time_Now net (S (ticks w)) + 59)
                           (sha256_hex (canonicalizeRequest (Method rv) u)) (Secret t) with
                   | Some jwtStr =>
                       (Header_Set (Some h2) "Authorization" ("JWT " +:+ jwtStr);;
                        forward (transport net (JWT_Transport t)) r2) w2
                   | None =>
                       (Return (inr (errors_Wrap (LibraryError "jwt")
                                       "jwtAuth: error signing JWT")), w2)
                   end).
  { unfold JWT_RoundTrip. unfold mbind at 1, St_bind at 1. rewrite Hclone.
    unfold load_Request, load_URL, now_Unix.
    unfold mbind at 1, St_bind at 1. rewrite (Hframe _ _ Hreq).
    unfold mbind at 1, St_bind at 1. rewrite Hr2.
    unfold mbind at 1, St_bind at 1. cbn [URL]. rewrite (Hframe _ _ Hu).
    unfold mbind at 1, St_bind at 1. unfold mbind at 1, St_bind at 1.
    cbn [heap calls ticks Header]. unfold createQueryStringHash. rewrite Ht1.
    by destruct (jwt_SignedString _ _ _ _ _). }
  rewrite Hrun. clear Hrun.
  assert (Ho2 : owns (heap w) rv r2 h2 w2) by (by apply (owns_heap _ _ _ _ w1)).
  destruct (jwt_SignedString _ _ _ _ _) as [jwtStr|].
  - destruct (Header_Set_owns (heap w) rv r2 h2 w2 "Authorization"
                ("JWT " +:+ jwtStr) Ho2) as (w3 & Hset & Ho3 & Hc3 & Ht3 & Hh3).
    set (w4 := mkWorld (heap w3) (calls w3 ++ [Forward r2]) (ticks w3)).
    assert (Ho4 : owns (heap w) rv r2 h2 w4) by (by apply (owns_heap _ _ _ _ w3)).
    destruct (owns_request_header _ _ req _ _ _ Hreq Ho4) as [E1 E2].
    exists r2, w4. split_and!.
    + unfold w4. cbn [ticks]. by rewrite Ht3.
    + apply request_header_frame; [|done]. by destruct Ho4.
    + unfold mbind at 1, St_bind at 1. rewrite Hset. by rewrite forward_run.
    + unfold w4. cbn [calls]. rewrite Hc3. unfold w2. cbn [calls]. by rewrite Hc1.
    + rewrite E1, E2. unfold w4. cbn [heap]. rewrite Hh3. unfold w2. cbn [heap].
      by rewrite Hh1.
  - exists r2, w2. split_and!; [done| |done|done].
    apply request_header_frame; [|done]. by destruct Ho2.
Qed.

(** X13. A session is obtained once: when the login of a first round
    trip gets a response, a second round trip with the transport as the
    first one left it performs no login, and forwards a clone with the
    cookies of that response.  When the login fails in the transport, no
    session is kept, and the next round trip logs in again. *)
Theorem Cookie_login_once (t : CookieAuthTransport) (req : loc) (w : world)
    (login : http.Request) :
  well_formed (heap w) req ->
  SessionObject t = None ->
  buildAuthRequest t = inl login ->
  match authClient_Do net login with
  | inl resp =>
      exists t' r w' r2,
        Cookie_RoundTrip net t req w = (Return (t', r), w')
        /\ calls w' = calls w ++ [Login login; Forward r2]
        /\ exists r' w'' r3,
             Cookie_RoundTrip net t' req w' = (Return (t', r'), w'')
             /\ calls w'' = calls w' ++ [Forward r3]
             /\ request_header (heap w'') r3
                = foldl with_cookie (request_header (heap w) req)
                    (filter (fun c => Value c <> "") (Response_Cookies resp))
  | inr err =>
      exists r w' w'',
        Cookie_RoundTrip net t req w = (Return (t, inr r), w')
        /\ Cookie_RoundTrip net t req w' = (Return (t, inr r), w'')
        /\ calls w'' = calls w ++ [Login login; Login login]
  end.
Proof.
  intros Hwf Hsess Hbuild. pose proof Hwf as (rv & u & Hreq & _).
  pose proof (Cookie_RoundTrip_run net t req w rv Hreq Hwf) as Hrun.
  rewrite Hsess, Hbuild in Hrun.
  destruct (authClient_Do net login) as [resp|err] eqn:Hdo.
  - destruct Hrun as (r2 & h2 & w' & Hrun & Ho & Hc & Hh).
    pose proof Ho as (Hframe & _).
    set (t' := mkCookieAuthTransport (Cookie_Username t) (Cookie_Password t) (AuthURL t)
                 (Some (Response_Cookies resp)) (Cookie_Transport t)) in *.
    pose proof (well_formed_frame _ _ req Hframe Hwf) as Hwf'.
    pose proof (Cookie_RoundTrip_run net t' req w' rv (Hframe _ _ Hreq) Hwf') as Hrun'.
    cbn [SessionObject t'] in Hrun'.
    destruct Hrun' as (r3 & h3 & w'' & Hrun' & Ho' & Hc' & Hh').
    destruct (owns_request_header _ _ req _ _ _ (Hframe _ _ Hreq) Ho') as [E1 E2].
    eexists t', _, w', r2. split; [exact Hrun|]. split; [exact Hc|].
    eexists _, w'', r3. split; [exact Hrun'|]. split; [exact Hc'|].
    rewrite E1, Hh', <- E2. by rewrite (request_header_frame _ _ req Hframe Hwf).
  - pose proof (Cookie_RoundTrip_run net t req
                  (mkWorld (heap w) (calls w ++ [Login login]) (ticks w)) rv Hreq Hwf)
      as Hrun'.
    rewrite Hsess, Hbuild, Hdo in Hrun'.
    eexists _, _, _. split; [exact Hrun|]. split; [exact Hrun'|].
    cbn [calls]. by rewrite <- app_assoc.
Qed.

End Transports.

Lemma a_world_well_formed : well_formed (rt.heap sample.a_world) 1%positive.
Proof.
  exists (rt.mkRequest "GET" 2%positive (Some 3%positive) None), (url.mkURL "" "" "/x" []).
  split; [reflexivity|]. split; [reflexivity|].
  exists {[ "Accept" := 4%positive ]}. split; [reflexivity|].
  apply map_Forall_singleton. by eexists.
Qed.

Lemma Basic_RoundTrip_header_witness :
  exists r2 w',
    rt.Basic_RoundTrip (sample.net 200 []) (rt.mkBasicAuthTransport "" "" None)
      1%positive sample.a_world
    = (Return (rt.transport (sample.net 200 []) None (rt.heap w') r2), w')
    /\ request_header (rt.heap w') r2 !! "Authorization" = Some ["Basic :"].
Proof.
  destruct (Basic_RoundTrip_header (sample.net 200 []) (rt.mkBasicAuthTransport "" "" None)
              1%positive sample.a_world a_world_well_formed)
    as (r2 & w' & Hrun & _ & Ha & _).
  exists r2, w'. split; [exact Hrun | exact Ha].
Defined.

Lemma JWT_RoundTrip_token_witness :
  exists r2 w',
    rt.JWT_RoundTrip (sample.net 200 []) (rt.mkJWTAuthTransport "key" "me" None)
      1%positive sample.a_world
    = (Return (rt.transport (sample.net 200 []) None (rt.heap w') r2), w')
    /\ rt.ticks w' = 2%nat
    /\ rt.calls w' = [rt.Forward r2]
    /\ request_header (rt.heap w') r2 !! "Authorization" = Some ["JWT me.GET&/x&.key"].
Proof.
  destruct (JWT_RoundTrip_token (sample.net 200 []) (rt.mkJWTAuthTransport "key" "me" None)
              1%positive sample.a_world
              (rt.mkRequest "GET" 2%positive (Some 3%positive) None)
              (url.mkURL "" "" "/x" []) eq_refl eq_refl a_world_well_formed)
    as (r2 & w' & Ht & _ & Hrun & Hc & Hh).
  exists r2, w'. split; [exact Hrun|]. split; [exact Ht|]. split; [exact Hc|].
  rewrite Hh. reflexivity.
Defined.

Lemma Cookie_login_once_witness :
  let t := rt.mkCookieAuthTransport "u" "p" "http://h/login" None None in
  let net := sample.net 200 ["sid=abc"] in
  exists login t' r w' r2 r' w'' r3,
    rt.Cookie_RoundTrip net t 1%positive sample.a_world = (Return (t', r), w')
    /\ rt.calls w' = [rt.Login login; rt.Forward r2]
    /\ rt.Cookie_RoundTrip net t' 1%positive w' = (Return (t', r'), w'')
    /\ rt.calls w'' = rt.calls w' ++ [rt.Forward r3]
    /\ request_header (rt.heap w'') r3 !! "Cookie" = Some ["sid=abc"].
Proof.
  intros t net.
  assert (Hb : rt.buildAuthRequest t
               = inl (http.mkRequest "POST" (url.mkURL "http" "h" "/login" [])
                        {[ "Content-Type" := ["application/json"] ]} (Some "u:p")))
    by (vm_compute; reflexivity).
  destruct (Cookie_login_once net t 1%positive sample.a_world _
              a_world_well_formed eq_refl Hb)
    as (t' & r & w' & r2 & Hrun & Hc & r' & w'' & r3 & Hrun' & Hc' & Hh).
  eexists _, t', r, w', r2, r', w'', r3.
  split; [exact Hrun|]. split; [exact Hc|]. split; [exact Hrun'|].
  split; [exact Hc'|]. rewrite Hh. reflexivity.
Defined.

(** ** The methods of the work-package service *)

Lemma Do_success `{GoLib} (c : Client) (req : http.Request) (v : option object)
    (log : list event) :
  exists resp v' err,
    Do (Some c) req v log = (Return (resp, v', err), log ++ [Send req])
    /\ (err = None -> successful resp).
Proof.
  unfold Do. unfold mbind, mret, St_bind, St_ret, emit, deref.
  cbn -[newResponse CheckResponse ReadAll].
  destruct (client c req) as [httpResp|e]; [|by eexists _, _, _].
  destruct (CheckResponse httpResp) as [e|] eqn:Hs; [by eexists _, _, _|].
  apply CheckResponse_None in Hs.
  destruct v as [target|].
  - destruct (ReadAll (http.RespBody httpResp)); [|by eexists _, _, _].
    destruct (json_Unmarshal _ target) as [target' err].
    eexists _, _, _. split; [reflexivity|]. intros _. eexists. split; [done|].
    by rewrite newResponse_Response.
  - eexists _, _, _. split; [reflexivity|]. intros _. eexists. split; [done|].
    by rewrite newResponse_Response.
Qed.

Lemma GetWithContext_result `{GoLib} (h : handle) (apiEndPoint : string)
    (log log' : list event) (obj : option object) (resp : option Response.t)
    (err : option error) :
  GetWithContext h apiEndPoint log = (Return (obj, resp, err), log') ->
  match err with
  | Some _ => obj = None
  | None => successful resp
  end.
Proof.
  unfold GetWithContext.
  destruct (getObjectAndClient_log h log) as [[[cl obj0]|msg] H1]; one_bind H1;
    [|by intros [=]].
  destruct cl as [c|]; [|by intros [= <- <- <- <-]].
  destruct (NewRequestWithContext_log (Some c) "GET"
              (strings.TrimRight apiEndPoint "/") None log) as [[[req|e]|msg] H2];
    one_bind H2; [|by intros [= <- <- <- <-]|by intros [=]].
  destruct (Do_success c req obj0 (log ++ [Build "GET" (strings.TrimRight apiEndPoint "/")]))
    as (resp0 & v' & err0 & H3 & Hs); one_bind H3.
  destruct err0; intros [= <- <- <- <-]; [done | by apply Hs].
Qed.

Lemma GetListWithContext_result `{GoLib} (h : handle) (apiEndPoint : string)
    (options : option FilterOptions) (log log' : list event) (obj : option object)
    (resp : option Response.t) (err : option error) :
  GetListWithContext h apiEndPoint options log = (Return (obj, resp, err), log') ->
  match err with
  | Some _ => obj = None
  | None => successful resp
  end.
Proof.
  unfold GetListWithContext.
  destruct (getObjectListAndClient_log h log) as [[[cl obj0]|msg] H1]; one_bind H1;
    [|by intros [=]].
  destruct (NewRequestWithContext_log cl "GET"
              (strings.TrimRight apiEndPoint "/") None log) as [[[req|e]|msg] H2];
    one_bind H2; [|by intros [= <- <- <- <-]|by intros [=]].
  destruct cl as [c|]; [|by intros [=]].
  match goal with
  | |- context [Do (Some c) ?r obj0] =>
      destruct (Do_success c r obj0
                  (log ++ [Build "GET" (strings.TrimRight apiEndPoint "/")]))
        as (resp0 & v' & err0 & H3 & Hs)
  end; one_bind H3.
  destruct err0; intros [= <- <- <- <-]; [done | by apply Hs].
Qed.

Lemma CreateWithContext_result `{GoLib} (h : handle) (apiEndPoint : string)
    (log log' : list event) (obj : option object) (resp : option Response.t)
    (err : option error) :
  CreateWithContext h apiEndPoint log = (Return (obj, resp, err), log') ->
  match err with
  | Some _ => obj = None
  | None => successful resp
  end.
Proof.
  unfold CreateWithContext.
  destruct (getObjectAndClient_log h log) as [[[cl obj0]|msg] H1]; one_bind H1;
    [|by intros [=]].
  destruct (NewRequestWithContext_log cl "POST" apiEndPoint obj0 log)
    as [[[req|e]|msg] H2]; one_bind H2; [|by intros [= <- <- <- <-]|by intros [=]].
  destruct cl as [c|]; [|by intros [=]].
  destruct (Do_success c req None (log ++ [Build "POST" apiEndPoint]))
    as (resp0 & v' & err0 & H3 & Hs); one_bind H3.
  destruct err0 as [e|]; [by intros [= <- <- <- <-]|].
  destruct (Hs eq_refl) as (r & -> & Hr). run_St.
  destruct (ReadAll _); [|by intros [= <- <- <- <-]].
  destruct obj0 as [target|].
  - destruct (json_Unmarshal _ _) as [? [?|]]; intros [= <- <- <- <-]; [done|].
    by eexists.
  - intros [= <- <- <- <-]. by eexists.
Qed.

(** X14. The methods of the work-package service that assert the type
    of what the generic operation returns never return an error: an
    operation that fails returns a nil object, on which the assertion
    panics, so that a method that returns has a response with a status
    code in 200..299 and no error.  A service without client is such a
    case: the error of [GetWithContext] for the nil client is never seen,
    the method panics. *)
Theorem WorkPackageService_no_error `{GoLib} (s : option Service)
    (workpackageID projectName : string) (options : option FilterOptions)
    (log : list event) :
  (forall wp resp err log',
     WorkPackageService_GetWithContext s workpackageID log
     = (Return (wp, resp, err), log') ->
     err = None /\ successful resp)
  /\ (forall wp resp err log',
        WorkPackageService_CreateWithContext s projectName log
        = (Return (wp, resp, err), log') ->
        err = None /\ successful resp)
  /\ (forall wps resp err log',
        WorkPackageService_GetListWithContext s options log
        = (Return (wps, resp, err), log') ->
        err = None /\ successful resp)
  /\ WorkPackageService_GetWithContext (Some (mkService None)) workpackageID log
     = (Panic "interface conversion", log).
Proof.
  split_and!.
  - intros wp resp err log'. unfold WorkPackageService_GetWithContext.
    unfold mbind at 1, St_bind at 1.
    destruct (GetWithContext _ _ log) as [[[[obj resp0] err0]|msg] log1] eqn:Hg;
      [|by intros [=]].
    pose proof (GetWithContext_result _ _ _ _ _ _ _ Hg) as Hr.
    destruct err0 as [e|]; [by subst obj; intros [=]|].
    destruct obj as [[[] f|]|]; run_St; intros [=]; by subst.
  - intros wp resp err log'. unfold WorkPackageService_CreateWithContext.
    unfold mbind at 1, St_bind at 1.
    destruct (CreateWithContext _ _ log) as [[[[obj resp0] err0]|msg] log1] eqn:Hg;
      [|by intros [=]].
    pose proof (CreateWithContext_result _ _ _ _ _ _ _ Hg) as Hr.
    destruct err0 as [e|]; [by subst obj; intros [=]|].
    destruct obj as [[[] f|]|]; run_St; intros [=]; by subst.
  - intros wps resp err log'. unfold WorkPackageService_GetListWithContext.
    unfold mbind at 1, St_bind at 1.
    destruct (GetListWithContext _ _ _ log) as [[[[obj resp0] err0]|msg] log1] eqn:Hg;
      [|by intros [=]].
    pose proof (GetListWithContext_result _ _ _ _ _ _ _ _ Hg) as Hr.
    destruct err0 as [e|]; [by subst obj; intros [=]|].
    destruct obj as [[|[] v]|]; run_St; intros [=]; by subst.
  - reflexivity.
Qed.

(** ** The user service *)

Lemma TrimRight_keeps (s : string) :
  HasSuffix s "/" = false -> strings.TrimRight s "/" = s.
Proof.
  induction s as [|a s IH]; [done|].
  rewrite HasSuffix_unfold. destruct (String.eqb (String a s) "/") eqn:He; [done|].
  intros Hs. simpl. rewrite (IH Hs). destruct s as [|b s]; [|done].
  destruct (Ascii.eqb a "/") eqn:Ha; [|done].
  apply Ascii.eqb_eq in Ha as ->. done.
Qed.

Lemma HasSuffix_app_false (p s : string) :
  HasSuffix p "/" = false -> HasSuffix s "/" = false ->
  HasSuffix (p +:+ s) "/" = false.
Proof.
  intros Hp Hs. induction p as [|a p IH]; [by rewrite app_Empty|].
  rewrite HasSuffix_unfold in Hp.
  destruct (String.eqb (String a p) "/") eqn:He; [done|].
  rewrite app_String, HasSuffix_unfold, (IH Hp).
  destruct (String.eqb (String a (p +:+ s)) "/") eqn:He'; [|done].
  apply String.eqb_eq in He'. injection He' as -> Hps.
  destruct p; [|done]. rewrite app_Empty in Hps. subst s. done.
Qed.

(** X15. [UserService.GetWithContext], which calls the builder and [Do]
    itself, does what the generic [GetWithContext] does on the user
    handle with the end point [api/v3/users?id=] and the account id, put
    in as it is, when the account id does not end in a slash.  On a
    service without client the two differ: the generic operation returns
    an error, the method of the service runs the builder on the nil
    client. *)
Theorem UserService_Get_generic `{GoLib} (accountId : string) (log : list event) :
  HasSuffix accountId "/" = false ->
  (forall c,
     UserService_GetWithContext (Some (mkService (Some c))) accountId log
     = GetWithContext (handle_of User c) ("api/v3/users?id=" +:+ accountId) log)
  /\ UserService_GetWithContext None accountId log
     = GetWithContext (ServicePtr User None) ("api/v3/users?id=" +:+ accountId) log
  /\ GetWithContext (ServicePtr User (Some (mkService None)))
       ("api/v3/users?id=" +:+ accountId) log
     = (Return (None, None, Some (errors_New "Null client, object not identified")), log)
  /\ UserService_GetWithContext (Some (mkService None)) accountId log
     = (match url_Parse ("api/v3/users?id=" +:+ accountId) with
        | Some _ => Panic nil_dereference
        | None => Return (None, None, Some (LibraryError "url.Parse"))
        end,
        log ++ [Build "GET" ("api/v3/users?id=" +:+ accountId)]).
Proof.
  intros Hs.
  assert (Htrim : strings.TrimRight ("api/v3/users?id=" +:+ accountId) "/"
                  = "api/v3/users?id=" +:+ accountId).
  { apply TrimRight_keeps. by apply HasSuffix_app_false. }
  split_and!.
  - intros c. unfold UserService_GetWithContext, GetWithContext, handle_of.
    rewrite Htrim. reflexivity.
  - reflexivity.
  - reflexivity.
  - unfold UserService_GetWithContext. run_St. rewrite NewRequestWithContext_nil.
    by destruct (url_Parse _).
Qed.

Lemma UserService_Get_generic_witness :
  UserService_GetWithContext (Some (mkService (Some (sample.a_client sample.no_auth 200 "{}"))))
    "7" []
  = GetWithContext (handle_of User (sample.a_client sample.no_auth 200 "{}"))
      "api/v3/users?id=7" [].
Proof.
  exact (proj1 (UserService_Get_generic "7" [] eq_refl)
           (sample.a_client sample.no_auth 200 "{}")).
Defined.

(** ** The builders *)

Lemma AddCookie_Content_Type `{GoLib} (r r' : http.Request) (ck : Cookie) (v : list string) :
  http.Header_ r = <["Content-Type" := v]> (http.Header_ r') ->
  http.Header_ (AddCookie r ck) = <["Content-Type" := v]> (http.Header_ (AddCookie r' ck)).
Proof.
  intros Hh. unfold AddCookie.
  assert (Hget : http.Get (http.Header_ r) "Cookie" = http.Get (http.Header_ r') "Cookie").
  { unfold http.Get. by rewrite Hh, lookup_insert_ne. }
  rewrite Hget. case_decide; simpl; unfold http.Set_; rewrite Hh;
    by rewrite insert_insert_ne.
Qed.

Lemma AddCookies_Content_Type `{GoLib} (cks : list Cookie) (r r' : http.Request)
    (v : list string) :
  http.Header_ r = <["Content-Type" := v]> (http.Header_ r') ->
  http.Header_ (foldl AddCookie r cks)
  = <["Content-Type" := v]> (http.Header_ (foldl AddCookie r' cks)).
Proof.
  revert r r'. induction cks as [|ck cks IH]; intros r r' Hh; [done|].
  simpl. apply IH. by apply AddCookie_Content_Type.
Qed.

Lemma setAuthentication_Content_Type `{GoLib} (c : Client) (r : http.Request) (v : string) :
  http.Header_ (setAuthentication c
                  (http.with_Header r (http.Set_ (http.Header_ r) "Content-Type" v)))
  = http.Set_ (http.Header_ (setAuthentication c r)) "Content-Type" v.
Proof.
  unfold setAuthentication. repeat case_decide; try done.
  - destruct (session c) as [sess|]; [|done].
    by apply AddCookies_Content_Type.
  - unfold SetBasicAuth, http.Set_. simpl. by rewrite insert_insert_ne.
Qed.

Lemma setAuthentication_other `{GoLib} (c : Client) (r : http.Request) (key : string) :
  key <> "Cookie" -> key <> "Authorization" ->
  http.Header_ (setAuthentication c r) !! key = http.Header_ r !! key.
Proof.
  intros Hc Ha. unfold setAuthentication. repeat case_decide; try done.
  - destruct (session c) as [sess|]; [|done].
    destruct (AddCookies_fields (Cookies sess) r) as (_ & _ & _ & Hh). by apply Hh.
  - unfold SetBasicAuth, http.Set_. simpl. by rewrite lookup_insert_ne.
Qed.

(** X16. The multipart builder is the raw builder without the content
    type: on the same client, method, URL and buffer the two leave the
    same event, fail alike, and build requests with the same method, URL
    and body; the request of the raw builder has the headers of the
    multipart one and [Content-Type: application/json], and the multipart
    request has no [Content-Type] at all. *)
Theorem multipart_no_content_type `{GoLib} (c : option Client) (method urlStr : string)
    (buf : string) (log : list event) :
  match NewRawRequestWithContext c method urlStr (Some buf) log with
  | (Return (inl req), log') =>
      exists req',
        NewMultiPartRequestWithContext c method urlStr buf log = (Return (inl req'), log')
        /\ http.Method req' = http.Method req
        /\ http.URL req' = http.URL req
        /\ http.Body req' = Some buf
        /\ http.Body req = Some buf
        /\ http.Header_ req' !! "Content-Type" = None
        /\ http.Header_ req
           = http.Set_ (http.Header_ req') "Content-Type" "application/json"
  | other => NewMultiPartRequestWithContext c method urlStr buf log = other
  end.
Proof.
  unfold NewRawRequestWithContext, NewMultiPartRequestWithContext. run_St.
  destruct (url_Parse urlStr) as [rel|]; [|done].
  destruct c as [c|]; simpl; [|done].
  destruct (newRequestWithContext _ _ _) as [req0|e] eqn:Hn; [|done].
  apply http_NewRequest_Header in Hn as (Hh & Hm & Hb).
  destruct (setAuthentication_fields c req0) as (Hm1 & Hu1 & Hb1).
  destruct (setAuthentication_fields c
              (http.with_Header req0
                 (http.Set_ (http.Header_ req0) "Content-Type" "application/json")))
    as (Hm2 & Hu2 & Hb2).
  eexists. split; [reflexivity|]. split_and!.
  - by rewrite Hm1, Hm2.
  - by rewrite Hu1, Hu2.
  - by rewrite Hb1.
  - by rewrite Hb2.
  - rewrite setAuthentication_other by done. by rewrite Hh.
  - apply setAuthentication_Content_Type.
Qed.

Lemma Join_foldl (sep : string) (rest : list string) (x : string) :
  foldl (fun acc y => acc +:+ sep +:+ y) x rest = strings.Join (x :: rest) sep.
Proof.
  revert x. induction rest as [|y rest IH]; intros x; [done|].
  cbn [foldl]. rewrite IH.
  change (strings.Join (x :: y :: rest) sep)
    with (x +:+ sep +:+ strings.Join (y :: rest) sep).
  destruct rest as [|z rest]; [done|].
  change (strings.Join ((x +:+ sep +:+ y) :: z :: rest) sep)
    with ((x +:+ sep +:+ y) +:+ sep +:+ strings.Join (z :: rest) sep).
  change (strings.Join (y :: z :: rest) sep)
    with (y +:+ sep +:+ strings.Join (z :: rest) sep).
  by rewrite !app_assoc_string.
Qed.

Lemma cookie_text_nonempty `{GoLib} (ck : Cookie) : cookie_text ck <> "".
Proof.
  unfold cookie_text. destruct (sanitizeCookieName (Name ck)); [|done].
  rewrite app_Empty. done.
Qed.

Lemma AddCookies_header `{GoLib} (cks : list Cookie) (r : http.Request) (cur : string) :
  http.Header_ r !! "Cookie" = Some [cur] -> cur <> "" ->
  http.Header_ (foldl AddCookie r cks) !! "Cookie"
  = Some [foldl (fun acc y => acc +:+ "; " +:+ y) cur (cookie_text <$> cks)].
Proof.
  revert r cur. induction cks as [|ck cks IH]; intros r cur Hr Hcur; [done|].
  cbn [foldl fmap list_fmap]. apply IH.
  - unfold AddCookie, http.Get. rewrite Hr. rewrite decide_False by done.
    simpl. unfold http.Set_. by rewrite lookup_insert_eq.
  - by destruct cur.
Qed.

(** X17. With session authentication and a session, the builder sends
    every cookie of the session, those with an empty value too: the
    [Cookie] header of the request built is the cookies as [name=value],
    in the order of the session, joined by a semicolon and a space; with
    an empty session there is no [Cookie] header; and the request has no
    [Authorization] header. *)
Theorem session_cookies_attached `{GoLib} (c : Client) (method urlStr : string)
    (body : option object) (buf : option string) (rel u : url.URL) (sess : Session)
    (log : list event) :
  authType (Authentication c) = authTypeSession ->
  session c = Some sess ->
  url_Parse urlStr = Some rel ->
  encodeBody body = inl buf ->
  http_validMethod method = true ->
  url_Parse (resolved c rel) = Some u ->
  exists req,
    NewRequestWithContext (Some c) method urlStr body log
    = (Return (inl req), log ++ [Build method urlStr])
    /\ http.Header_ req !! "Cookie"
       = match Cookies sess with
         | [] => None
         | _ => Some [strings.Join (cookie_text <$> Cookies sess) "; "]
         end
    /\ http.Header_ req !! "Authorization" = None
    /\ http.Header_ req !! "Content-Type" = Some ["application/json"].
Proof.
  intros Ha Hsess Hp He Hm Hu.
  eexists. split.
  { apply (NewRequestWithContext_built c method urlStr body rel buf
             (http.mkRequest method u ∅ buf) log Hp He).
    unfold http_NewRequest. by rewrite Hm, Hu. }
  set (req0 := http.with_Header (http.mkRequest method u ∅ buf)
                 (http.Set_ (http.Header_ (http.mkRequest method u ∅ buf))
                    "Content-Type" "application/json")).
  assert (Hauth : setAuthentication c req0 = foldl AddCookie req0 (Cookies sess)).
  { unfold setAuthentication. rewrite Ha, Hsess. by rewrite decide_True. }
  rewrite Hauth.
  destruct (AddCookies_fields (Cookies sess) req0) as (_ & _ & _ & Hother).
  split_and!.
  - destruct (Cookies sess) as [|ck cks]; [done|].
    cbn [foldl fmap list_fmap].
    rewrite (AddCookies_header cks (AddCookie req0 ck) (cookie_text ck)).
    + by rewrite Join_foldl.
    + reflexivity.
    + apply cookie_text_nonempty.
  - by rewrite Hother.
  - by rewrite Hother.
Qed.

Lemma session_cookies_attached_witness :
  let c := mkClient (sample.server 200 "{}") (url.mkURL "https" "op.example" "/" [])
             (Some (mkSession [mkCookie "sid" "abc"; mkCookie "empty" ""; mkCookie "lang" "en"]))
             (mkAuthenticationService authTypeSession "" "") in
  exists req,
    NewRequestWithContext (Some c) "GET" "api/v3/users" None []
    = (Return (inl req), [Build "GET" "api/v3/users"])
    /\ http.Header_ req !! "Cookie" = Some ["sid=abc; empty=; lang=en"].
Proof.
  intros c.
  destruct (session_cookies_attached (H := sample.lib) c "GET" "api/v3/users" None None
              (url.mkURL "" "" "api/v3/users" [])
              (url.mkURL "https" "op.example" "/api/v3/users" [])
              (mkSession [mkCookie "sid" "abc"; mkCookie "empty" ""; mkCookie "lang" "en"])
              [] eq_refl eq_refl eq_refl eq_refl eq_refl eq_refl)
    as (req & Hrun & Hcookie & _).
  exists req. split; [exact Hrun | exact Hcookie].
Defined.

(** X18. There is no list type for attachments: on the attachment
    handle, once the builder has resolved the end point,
    [GetListWithContext] hands one request to the HTTP client and returns
    a nil object whatever the server answers.  When the status code of
    the answer is in 200..299 it returns no error, and the response that
    it returns wraps the response received as it is, its body not read,
    with the four counters at zero. *)
Theorem GetList_Attachment `{GoLib} (c : Client) (apiEndPoint : string)
    (options : option FilterOptions) (rel u : url.URL) (log : list event) :
  url_Parse (strings.TrimRight apiEndPoint "/") = Some rel ->
  http_validMethod "GET" = true ->
  url_Parse (resolved c rel) = Some u ->
  exists resp err,
    GetListWithContext (handle_of Attachment c) apiEndPoint options log
    = (Return (None, resp, err),
       log ++ [Build "GET" (strings.TrimRight apiEndPoint "/");
               Send (list_request c u options)])
    /\ (forall httpResp,
          client c (list_request c u options) = inl httpResp ->
          200 <= http.StatusCode httpResp <= 299 ->
          resp = Some (Response.mk httpResp 0 0 0 0) /\ err = None).
Proof.
  intros Hp Hm Hu.
  assert (Hreq : match options with
                 | Some o =>
                     http.with_URL (list_request c u None)
                       (url.with_RawQuery (http.URL (list_request c u None))
                          (url.Encode (prepareFilters o)))
                 | None => list_request c u None
                 end = list_request c u options).
  { destruct options; [|done]. by rewrite Encode_prepareFilters. }
  unfold GetListWithContext.
  assert (Hobj : getObjectListAndClient (handle_of Attachment c) log
                 = (Return (Some c, None), log)) by done.
  one_bind Hobj.
  one_bind (GetList_built c apiEndPoint rel u log Hp Hm Hu).
  rewrite Hreq. generalize (list_request c u options). intros req.
  unfold Do. unfold mbind, mret, St_bind, St_ret, emit, deref.
  cbn -[CheckResponse]. rewrite <- app_assoc.
  destruct (client c req) as [httpResp|e].
  - destruct (CheckResponse httpResp) as [e|] eqn:Hs.
    + eexists _, _. split; [reflexivity|].
      intros r [= <-] Hr. apply CheckResponse_None in Hr. congruence.
    + eexists _, _. split; [reflexivity|]. by intros r [= <-] _.
  - eexists _, _. split; [reflexivity|]. by intros r ?.
Qed.

Lemma GetList_Attachment_witness :
  let c := sample.a_client sample.no_auth 200 "[1, 2]" in
  GetListWithContext (handle_of Attachment c) "api/v3/attachments" None []
  = (Return (None,
             Some (Response.mk (http.mkResponse 200 ∅ (sample.body "[1, 2]")) 0 0 0 0),
             None),
     [Build "GET" "api/v3/attachments";
      Send (list_request c (url.mkURL "https" "op.example" "/api/v3/attachments" [])
              None)]).
Proof.
  intros c.
  destruct (GetList_Attachment (H := sample.lib) c "api/v3/attachments" None
              (url.mkURL "" "" "api/v3/attachments" [])
              (url.mkURL "https" "op.example" "/api/v3/attachments" []) []
              eq_refl eq_refl eq_refl) as (resp & err & Hrun & Hresp).
  assert (Hok : 200 <= 200 <= 299) by lia.
  destruct (Hresp (http.mkResponse 200 ∅ (sample.body "[1, 2]")) eq_refl Hok)
    as [Hr He].
  rewrite Hrun, Hr, He. reflexivity.
Defined.

(** ** The work-package id *)

Lemma bind_pair_ret {S A B} (m : St S (A * B)) (s : S) :
  ('(a, b) ← m; mret (a, b)) s = m s.
Proof.
  unfold mbind, St_bind, mret, St_ret. by destruct (m s) as [[[a b]|msg] s'].
Qed.

(** X19. The id of a work package is not checked.  Slashes at its end
    are dropped, and with the empty id the methods address the collection
    itself: [DeleteWithContext] does what the generic operation does on
    [api/v3/work_packages], and [GetWithContext] sends the request that
    lists the work packages. *)
Theorem WorkPackageService_empty_id `{GoLib} (s : option Service) (workpackageID : string)
    (log : list event) :
  WorkPackageService_DeleteWithContext s (workpackageID +:+ "/") log
  = WorkPackageService_DeleteWithContext s workpackageID log
  /\ WorkPackageService_GetWithContext s (workpackageID +:+ "/") log
     = WorkPackageService_GetWithContext s workpackageID log
  /\ WorkPackageService_DeleteWithContext s "" log
     = DeleteWithContext (ServicePtr WorkPackage s) "api/v3/work_packages" log
  /\ GetWithContext (ServicePtr WorkPackage s) ("api/v3/work_packages/" +:+ "") log
     = GetWithContext (ServicePtr WorkPackage s) "api/v3/work_packages" log.
Proof.
  assert (Hd : forall ep, DeleteWithContext (ServicePtr WorkPackage s) (ep +:+ "/") log
                          = DeleteWithContext (ServicePtr WorkPackage s) ep log).
  { intros ep. unfold DeleteWithContext. by rewrite TrimRight_slash. }
  assert (Hg : forall ep, GetWithContext (ServicePtr WorkPackage s) (ep +:+ "/") log
                          = GetWithContext (ServicePtr WorkPackage s) ep log).
  { intros ep. unfold GetWithContext. by rewrite TrimRight_slash. }
  split_and!.
  - unfold WorkPackageService_DeleteWithContext. rewrite !bind_pair_ret.
    rewrite <- app_assoc_string. apply Hd.
  - unfold WorkPackageService_GetWithContext.
    unfold mbind at 1 3, St_bind at 1 3.
    rewrite <- app_assoc_string. by rewrite Hg.
  - unfold WorkPackageService_DeleteWithContext. rewrite bind_pair_ret.
    apply (Hd "api/v3/work_packages").
  - apply (Hg "api/v3/work_packages").
Qed.

(** ** Dates are not timestamps *)

Lemma Parse_timestamp_Format_date (t : time.Time) :
  time.valid t = true -> 0 <= time.year t <= 9999 ->
  time.Parse_timestamp (time.Format_date t) = None.
Proof.
  intros Hv Hy. destruct (valid_bounds t Hv) as (Hm & Hd & _).
  pose proof (daysIn_le (time.month t) (time.year t)) as Hdi.
  unfold time.Parse_timestamp, time.Format_date.
  rewrite !app_String, !app_Empty. simpl.
  rewrite getyear_appendInt by lia. simpl.
  rewrite getnum_appendInt by lia. simpl.
  rewrite (in_range_ok 1 (time.month t) 12) by lia. simpl.
  rewrite getnum_appendInt by lia. reflexivity.
Qed.

(** X20. The two codecs accept different texts: apart from [null], a
    text that [Date.UnmarshalJSON] decodes is an error for
    [Time.UnmarshalJSON], and a text that [Time.UnmarshalJSON] decodes is
    an error for [Date.UnmarshalJSON]; the receiver of the failing call
    is left as it was. *)
Theorem codecs_disjoint (t0 t1 : Time) (b : string) :
  b <> "null" ->
  (forall d, Date_UnmarshalJSON t0 b = (d, None) ->
     Time_UnmarshalJSON t1 b = (t1, Some (LibraryError "time.Parse")))
  /\ (forall t, Time_UnmarshalJSON t0 b = (t, None) ->
        Date_UnmarshalJSON t1 b = (t1, Some (LibraryError "time.Parse"))).
Proof.
  intros Hnull.
  assert (Hboth : forall d, time.Parse_date b = Some d -> time.Parse_timestamp b = None).
  { intros d Hd. destruct (Parse_date_Some b d Hd) as (Hb & Hv & Hy & _).
    rewrite <- Hb. by apply Parse_timestamp_Format_date. }
  unfold Date_UnmarshalJSON, Time_UnmarshalJSON.
  rewrite !decide_False by done.
  split.
  - intros d. destruct (time.Parse_date b) as [ti|] eqn:Hd; [|done].
    intros _. by rewrite (Hboth ti).
  - intros t. destruct (time.Parse_timestamp b) as [ti|] eqn:Ht; [|done].
    intros _. destruct (time.Parse_date b) as [d|] eqn:Hd; [|done].
    by specialize (Hboth d eq_refl).
Qed.

Lemma codecs_disjoint_witness :
  Time_UnmarshalJSON time.zero (String "034" ("2020-02-29" +:+ String "034" ""))
  = (time.zero, Some (LibraryError "time.Parse")).
Proof.
  exact (proj1 (codecs_disjoint time.zero time.zero
                  (String "034" ("2020-02-29" +:+ String "034" ""))
                  ltac:(discriminate))
           (time.mkTime 2020 2 29 0 0 0 0 0) eq_refl).
Defined.

(** ** A new client *)

(** X21. A client as [NewClient] makes it attaches no credentials: when
    the library accepts the URL, the body and the method, the request
    that [NewRequestWithContext] builds on it has [Content-Type:
    application/json] for its only header, and the encoded body; it has
    the method given, unless that is empty, and the resolved URL, unless
    the host of that URL ends in a colon (the library writes [GET] for
    the empty method and drops an empty port). *)
Theorem NewClient_request `{GoLib} (DefaultClient : http.Request -> http.Response + error)
    (httpClient : option (http.Request -> http.Response + error)) (baseURL : string)
    (c : Client) (method urlStr : string) (body : option object) (buf : option string)
    (rel u : url.URL) (log : list event) :
  NewClient DefaultClient httpClient baseURL = inl c ->
  url_Parse urlStr = Some rel ->
  encodeBody body = inl buf ->
  method <> "" ->
  http_validMethod method = true ->
  url_Parse (resolved c rel) = Some u ->
  HasSuffix (url.Host u) ":" = false ->
  NewRequestWithContext (Some c) method urlStr body log
  = (Return (inl (http.mkRequest method u {[ "Content-Type" := ["application/json"] ]} buf)),
     log ++ [Build method urlStr]).
Proof.
  intros Hc Hp He _ Hm Hu _.
  rewrite (NewRequestWithContext_built c method urlStr body rel buf
             (http.mkRequest method u ∅ buf) log Hp He).
  - unfold NewClient in Hc. destruct (url_Parse (with_trailing_slash baseURL)); [|done].
    by injection Hc as <-.
  - unfold http_NewRequest. by rewrite Hm, Hu.
Qed.

Lemma NewClient_request_witness :
  NewRequestWithContext (Some (sample.a_client sample.no_auth 200 "{}")) "GET"
    "api/v3/users" None []
  = (Return (inl (http.mkRequest "GET" (url.mkURL "https" "op.example" "/api/v3/users" [])
                    {[ "Content-Type" := ["application/json"] ]} None)),
     [Build "GET" "api/v3/users"]).
Proof.
  exact (NewClient_request (sample.server 200 "{}") None "https://op.example"
           (sample.a_client sample.no_auth 200 "{}") "GET" "api/v3/users" None None
           (url.mkURL "" "" "api/v3/users" [])
           (url.mkURL "https" "op.example" "/api/v3/users" []) []
           eq_refl eq_refl eq_refl ltac:(discriminate) eq_refl eq_refl eq_refl).
Defined.
